(** * ProductionCash: the allocation and projection engine

  A shallow embedding of [portfolio_calculator.py] (class
  [PortfolioCalculator]) and of the dividend-yield resolution of
  [data_fetcher.py] (class [DataFetcher]), with the properties that the
  design document states about them.

  Modelling conventions.
  - Python floats are idealised as exact rationals ([Q]); equalities
    between computed amounts are therefore stated with [==] ([Qeq]).
    Rounding, infinities and NaN are outside the model.
  - Code that can raise returns a [result]; [try ... except Exception]
    is a [match] on that result.
  - A module's global names are the names its [import] lines bind;
    looking up any other name raises [NameError], as in Python.
  - Timestamps are integers (days); "now" is an explicit argument.
  - A [DataFrame] of prices is a list of rows with the list of column
    labels it carries; a market-data provider is a record of functions
    of the symbol (one reply per symbol for the run of one build). *)

From Stdlib Require Import ZArith QArith Qround Qpower Lqa Lia List Sorted String.
From stdpp Require Import base strings gmap list.

Open Scope string_scope.
Open Scope list_scope.

(** ** Python values, exceptions and built-ins *)

Module Py.

Inductive exn : Type :=
| NameError (name : string)
| ZeroDivisionError
| KeyError (key : string)
| IndexError
| ProviderError (what : string).

Inductive result (A : Type) : Type :=
| Ok (a : A)
| Raise (e : exn).

Arguments Ok {A} a.
Arguments Raise {A} e.

#[global] Instance result_ret : MRet result := fun A a => Ok a.

#[global] Instance result_bind : MBind result := fun A B f c =>
  match c with
  | Ok a => f a
  | Raise e => Raise e
  end.

(** [try: body  except Exception: handler]. *)
Definition try_except {A : Type} (body : result A) (handler : exn -> A) : A :=
  match body with
  | Ok a => a
  | Raise e => handler e
  end.

(** Resolution of a global name inside a module whose top-level
    bindings are [globals]. *)
Definition global_name (globals : list string) (name : string) : result unit :=
  if existsb (String.eqb name) globals then Ok tt else Raise (NameError name).

Definition Qltb (a b : Q) : bool := negb (Qle_bool b a).

(** Truth value of a float-or-None: [None] and [0.0] are falsy. *)
Definition truthy (v : option Q) : bool :=
  match v with
  | Some q => negb (Qeq_bool q 0)
  | None => false
  end.

(** [a or b] on float-or-None values; [b] is evaluated only when
    [a] is falsy, hence the thunk-free form on pure values. *)
Definition py_or (a b : option Q) : option Q :=
  if truthy a then a else b.

(** Truth value of a str-or-None. *)
Definition truthy_str (v : option string) : bool :=
  match v with
  | Some s => negb (String.eqb s "")
  | None => false
  end.

(** [int(x)] on a float: truncation towards zero. *)
Definition py_int (x : Q) : Z := Z.quot (Qnum x) (Z.pos (Qden x)).

(** [a / b] on floats. *)
Definition py_div (a b : Q) : result Q :=
  if Qeq_bool b 0 then Raise ZeroDivisionError else Ok (a / b)%Q.

(** [b ** e] with a float base and an int exponent. *)
Definition py_pow (b : Q) (e : Z) : result Q :=
  if Qeq_bool b 0 && (e <? 0)%Z then Raise ZeroDivisionError else Ok (b ^ e)%Q.

(** [range(a, b)]. *)
Definition py_range (a b : Z) : list Z :=
  map (fun i => (a + Z.of_nat i)%Z) (seq 0 (Z.to_nat (b - a))).

(** A [for x in xs:] loop whose body can raise; [s] is the loop state. *)
Fixpoint for_each {A S : Type} (body : S -> A -> result S) (xs : list A) (s : S)
  : result S :=
  match xs with
  | [] => Ok s
  | x :: rest => s' ← body s x; for_each body rest s'
  end.

(** [s.endswith(suffix)]. *)
Definition endswith (s suffix : string) : bool :=
  let n := String.length s in
  let k := String.length suffix in
  if (k <=? n)%nat then String.eqb (substring (n - k) k s) suffix else false.

End Py.

Import Py.

(** ** data_fetcher.py: dividend-yield resolution *)

Module DataFetcher.

(** Lines 1-6: [requests], [BeautifulSoup], [re], [logging], [yf], [pd];
    line 11 binds the class.  Line 113 imports [datetime] locally, inside
    [get_dividend_info], after the yield has been resolved. *)
Definition module_globals : list string :=
  ["requests"; "BeautifulSoup"; "re"; "logging"; "yf"; "pd"; "DataFetcher"].

(** The keys of [ticker.info] that [get_dividend_info] reads;
    [None] is a missing key or a [None] value ([info.get]). *)
Record TickerInfo : Type := {
  dividendYield : option Q;
  trailingAnnualDividendRate : option Q;
  currentPrice : option Q;
  regularMarketPreviousClose : option Q;
  exDividendDate : option Z
}.

(** What [yf.Ticker(symbol)] answers; each attribute access is a
    provider call and may raise. *)
Record Ticker : Type := {
  info : result TickerInfo;
  dividends : result (list (Z * Q));
  fast_info_last_price : result (option Q)
}.

(** The returned dict [{'date': str, 'yield': float}]. *)
Record DividendInfo : Type := {
  di_date : string;
  di_yield : Q
}.

Definition sum_amounts (events : list (Z * Q)) : Q :=
  fold_left (fun acc ev => (acc + snd ev)%Q) events 0%Q.

(** Lines 90-106, the body of the inner [try]: the yield computed from
    the dividend history of the last 365 days, [None] when the body
    leaves [result['yield']] untouched. *)
Definition history_yield (now : Z) (ticker : Ticker) (i : TickerInfo)
  : result (option Q) :=
  history ← dividends ticker;
  match history with
  | [] => Ok None
  | _ :: _ =>
      _ ← global_name module_globals "pd";
      _ ← global_name module_globals "timedelta";
      let one_year_ago := (now - 365)%Z in
      let last_year_divs := List.filter (fun ev => (one_year_ago <=? fst ev)%Z) history in
      let total_div := sum_amounts last_year_divs in
      current_price ←
        (let p := py_or (currentPrice i) (regularMarketPreviousClose i) in
         if truthy p then Ok p else fast_info_last_price ticker);
      match current_price with
      | Some cp =>
          if truthy current_price && Qltb 0 cp
          then y ← py_div total_div cp; Ok (Some y)
          else Ok None
      | None => Ok None
      end
  end.

(** Lines 73-108: the three yield sources in order. *)
Definition resolve_yield (now : Z) (ticker : Ticker) (i : TickerInfo) (yield0 : Q)
  : result Q :=
  match dividendYield i with
  | Some div_yield => Ok (div_yield / 100)%Q
  | None =>
      let rate := trailingAnnualDividendRate i in
      let price := py_or (currentPrice i) (regularMarketPreviousClose i) in
      if truthy rate && truthy price
      then py_div (default 0%Q rate) (default 0%Q price)
      else Ok (try_except
                 (y ← history_yield now ticker i; Ok (default yield0 y))
                 (fun _ => yield0))
  end.

(** [get_dividend_info(symbol)].  [strftime] renders a timestamp as
    [%Y/%m/%d]; [scraped] is the date found on the quote page by
    lines 121-138 ([None] when the request or the search fails). *)
Definition get_dividend_info (now : Z) (strftime : Z -> string)
    (scraped : option string) (ticker : Ticker) (symbol : string)
  : DividendInfo :=
  let result0 := {| di_date := "N/A"; di_yield := 0%Q |} in
  let result1 :=
    try_except
      (i ← info ticker;
       y ← resolve_yield now ticker i (di_yield result0);
       let ex_div_date := exDividendDate i in
       match ex_div_date with
       | Some ts =>
           if negb (ts =? 0)%Z
           then Ok {| di_date := strftime ts; di_yield := y |}
           else Ok {| di_date := di_date result0; di_yield := y |}
       | None => Ok {| di_date := di_date result0; di_yield := y |}
       end)
      (fun _ => result0) in
  if String.eqb (di_date result1) "N/A"
     && (endswith symbol ".TW" || endswith symbol ".TWO")
  then
    match scraped with
    | Some d => {| di_date := d; di_yield := di_yield result1 |}
    | None => result1
    end
  else result1.

End DataFetcher.

(** ** portfolio_calculator.py *)

Module PortfolioCalculator.

(** Lines 1-3: [import pandas as pd], [import numpy as np],
    [from datetime import timedelta]; line 5 binds the class. *)
Definition module_globals : list string :=
  ["pd"; "np"; "timedelta"; "PortfolioCalculator"].

(** *** Static configuration ([__init__]) *)

Record Candidate : Type := {
  cand_symbol : string;
  cand_name : string;
  cand_type : string;
  cand_market : string
}.

Definition candidates : list Candidate := [
  {| cand_symbol := "2330.TW"; cand_name := "台積電"; cand_type := "Stock"; cand_market := "TW" |};
  {| cand_symbol := "0050.TW"; cand_name := "元大台灣50"; cand_type := "ETF"; cand_market := "TW" |};
  {| cand_symbol := "0056.TW"; cand_name := "元大高股息"; cand_type := "ETF"; cand_market := "TW" |};
  {| cand_symbol := "AAPL"; cand_name := "Apple Inc."; cand_type := "Stock"; cand_market := "US" |};
  {| cand_symbol := "VOO"; cand_name := "Vanguard S&P 500 ETF"; cand_type := "ETF"; cand_market := "US" |};
  {| cand_symbol := "00679B.TW"; cand_name := "元大美債20年"; cand_type := "Bond"; cand_market := "TW" |};
  {| cand_symbol := "BND"; cand_name := "Vanguard Total Bond Market"; cand_type := "Bond"; cand_market := "US" |}
].

Record ProsCons : Type := { pros : string; cons : string }.

Definition pros_cons_db : gmap string ProsCons :=
  list_to_map [
    ("2330.TW", {| pros := "全球晶圓代工龍頭，技術領先"; cons := "受地緣政治風險影響較大" |});
    ("0050.TW", {| pros := "追蹤台股前50大市值公司，跟隨大盤成長"; cons := "受單一產業(半導體)權重影響大" |});
    ("0056.TW", {| pros := "高股息殖利率，現金流穩定"; cons := "成長性可能不如市值型ETF" |});
    ("AAPL", {| pros := "強大的品牌護城河與生態系"; cons := "硬體銷售成長趨緩" |});
    ("VOO", {| pros := "分散投資美國500大企業，費用率極低"; cons := "匯率風險" |});
    ("00679B.TW", {| pros := "投資美國長天期公債，避險效果佳"; cons := "受聯準會利率政策影響大" |});
    ("BND", {| pros := "廣泛投資美國投資級債券，波動低"; cons := "收益率相對股票較低" |})
  ].

Definition get_pros_cons (symbol : string) : ProsCons :=
  default {| pros := "N/A"; cons := "N/A" |} (pros_cons_db !! symbol).

(** *** Market data as the calculator sees it *)

(** The two price columns the calculator reads. *)
Inductive PriceColumn : Type := Close | High.

Definition column_label (c : PriceColumn) : string :=
  match c with Close => "Close" | High => "High" end.

Definition column_eqb (a b : PriceColumn) : bool :=
  match a, b with
  | Close, Close | High, High => true
  | _, _ => false
  end.

Record Bar : Type := { bar_date : Z; bar_Close : Q; bar_High : Q }.

Definition bar_get (c : PriceColumn) (b : Bar) : Q :=
  match c with Close => bar_Close b | High => bar_High b end.

(** A price history: the rows in index order, and which of the two
    price columns the frame carries (a frame lacking one answers
    [KeyError] when it is read). *)
Record DataFrame : Type := {
  df_columns : list PriceColumn;
  df_rows : list Bar
}.

(** [df.empty] *)
Definition df_empty (df : DataFrame) : bool :=
  match df_rows df with [] => true | _ :: _ => false end.

(** [len(df)] *)
Definition df_len (df : DataFrame) : nat := length (df_rows df).

(** [df.index] *)
Definition df_index (df : DataFrame) : list Z := map bar_date (df_rows df).

Definition has_column (df : DataFrame) (c : PriceColumn) : bool :=
  existsb (column_eqb c) (df_columns df).

(** [df.iloc[i][c]] *)
Definition iloc_get (df : DataFrame) (i : nat) (c : PriceColumn) : result Q :=
  match df_rows df !! i with
  | None => Raise IndexError
  | Some b =>
      if has_column df c then Ok (bar_get c b) else Raise (KeyError (column_label c))
  end.

(** [df.iloc[i:]] *)
Definition iloc_from (df : DataFrame) (i : nat) : DataFrame :=
  {| df_columns := df_columns df; df_rows := drop i (df_rows df) |}.

(** [df[c]]: the column as a date-indexed series. *)
Definition get_column (df : DataFrame) (c : PriceColumn) : result (list (Z * Q)) :=
  if has_column df c
  then Ok (map (fun b => (bar_date b, bar_get c b)) (df_rows df))
  else Raise (KeyError (column_label c)).

(** [index.searchsorted(v)] on an increasing index: the position of
    the first entry that is not below [v]. *)
Fixpoint searchsorted (index : list Z) (v : Z) : nat :=
  match index with
  | [] => 0
  | d :: rest => if (d <? v)%Z then S (searchsorted rest v) else 0
  end.

(** The dict returned by [fetcher.get_dividend_info]; [None] stands for
    a missing key or a [None] value. *)
Record DividendInfo : Type := {
  info_date : option string;
  info_yield : option Q
}.

(** The [fetcher] argument: the market-data provider. *)
Record Fetcher : Type := {
  get_exchange_rate : Q;
  get_stock_price : string -> option Q;
  get_dividend_info : string -> DividendInfo;
  get_historical_data : string -> string -> DataFrame;
  get_dividend_history : string -> list (Z * Q);
  get_stock_name : string -> option string
}.

(** *** analyze_fill_dividend *)

Record FillStats : Type := {
  filled_count : nat;
  total_count : nat;
  avg_days : Q
}.

Definition no_fill_stats : FillStats :=
  {| filled_count := 0; total_count := 0; avg_days := 0%Q |}.

(** Lines 76-80: the offset of the first price that reaches [pre_close]. *)
Fixpoint first_fill (i : nat) (future_prices : list Q) (pre_close : Q) : option nat :=
  match future_prices with
  | [] => None
  | price :: rest =>
      if Qle_bool pre_close price then Some i else first_fill (S i) rest pre_close
  end.

(** Lines 56-80, the body of the [try] for one dividend event:
    [Some days] when the event is filled, [None] when the loop goes on
    without counting it. *)
Definition fill_event (history : DataFrame) (ev : Z * Q) : result (option nat) :=
  let '(date, amount) := ev in
  let ex_date_idx := searchsorted (df_index history) date in
  if (df_len history <=? ex_date_idx)%nat then Ok None
  else
    ex_date_price ← iloc_get history ex_date_idx Close;
    pre_close ←
      (if (0 <? ex_date_idx)%nat
       then iloc_get history (ex_date_idx - 1) Close
       else Ok (ex_date_price + amount)%Q);
    future_prices ← get_column (iloc_from history ex_date_idx) High;
    Ok (first_fill 0 (map snd future_prices) pre_close).

(** One turn of the loop of line 49; the state is
    [(filled_count, total_days)]. *)
Definition fill_step (history : DataFrame) (st : nat * nat) (ev : Z * Q) : nat * nat :=
  let '(filled_count, total_days) := st in
  match fill_event history ev with
  | Ok (Some days_to_fill) => (S filled_count, total_days + days_to_fill)%nat
  | Ok None => (filled_count, total_days)
  | Raise _ => (filled_count, total_days)
  end.

(** Lines 40-41: the dividends of the last 730 days. *)
Definition trailing_two_years (now : Z) (dividends : list (Z * Q)) : list (Z * Q) :=
  let cutoff_date := (now - 730)%Z in
  List.filter (fun ev => (cutoff_date <=? fst ev)%Z) dividends.

Definition analyze_fill_dividend (now : Z) (symbol : string)
    (history : DataFrame) (dividends : list (Z * Q)) : result FillStats :=
  match df_empty history, dividends with
  | true, _ => Ok no_fill_stats
  | false, [] => Ok no_fill_stats
  | false, _ :: _ =>
      _ ← global_name module_globals "pd";
      _ ← global_name module_globals "timedelta";
      let recent_dividends := trailing_two_years now dividends in
      match recent_dividends with
      | [] => Ok no_fill_stats
      | _ :: _ =>
          let '(filled, total_days) :=
            fold_left (fill_step history) recent_dividends (0, 0)%nat in
          let avg :=
            if (0 <? filled)%nat
            then (inject_Z (Z.of_nat total_days) / inject_Z (Z.of_nat filled))%Q
            else 0%Q in
          Ok {| filled_count := filled;
                total_count := length recent_dividends;
                avg_days := avg |}
      end
  end.

(** *** calculate_portfolio *)

(** One entry of [custom_allocations]. *)
Record Custom : Type := {
  custom_symbol : string;
  custom_weight : Q
}.

(** One dict of the returned [portfolio] list.  The two rendered
    texts, [fill_dividend_2y] ("filled/total") and [avg_fill_days]
    (one decimal), are kept as the numbers they render. *)
Record Line : Type := {
  line_symbol : string;
  line_name : string;
  line_type : string;
  line_price : Q;
  line_price_twd : Q;
  line_quantity : Z;
  line_cost_twd : Q;
  line_est_annual_income : Q;
  line_yield_rate : Q;
  line_dividend_date : string;
  line_pros : string;
  line_cons : string;
  line_fill_dividend_2y : nat * nat;
  line_avg_fill_days : Q
}.

(** Lines 139 and 249: [.TW] and [.TWO] symbols are domestic. *)
Definition is_us (symbol : string) : bool :=
  negb (endswith symbol ".TW" || endswith symbol ".TWO").

Section Build.

Variable now : Z.
Variable fetcher : Fetcher.
Variable total_capital : Q.
Variable usd_twd : Q.

(** Lines 113-166: one turn of the loop over [custom_allocations];
    the state is [(portfolio, remaining_capital)]. *)
Definition custom_step (st : list Line * Q) (custom : Custom)
  : result (list Line * Q) :=
  let '(portfolio, remaining_capital) := st in
  let symbol := custom_symbol custom in
  let weight := custom_weight custom in
  let price_opt := get_stock_price fetcher symbol in
  if negb (truthy price_opt) then
    (* logging.warning(...); continue *)
    _ ← global_name module_globals "logging";
    Ok (portfolio, remaining_capital)
  else
    let price := default 0%Q price_opt in
    let alloc_capital := (total_capital * weight)%Q in
    let remaining_capital := (remaining_capital - alloc_capital)%Q in
    let div_info := get_dividend_info fetcher symbol in
    let history := get_historical_data fetcher symbol "2y" in
    let dividends := get_dividend_history fetcher symbol in
    fill_stats ← analyze_fill_dividend now symbol history dividends;
    let pros_cons := get_pros_cons symbol in
    let stock_name := get_stock_name fetcher symbol in
    let display_name :=
      if truthy_str stock_name
      then default "" stock_name +:+ " (" +:+ symbol +:+ ")"
      else symbol +:+ " (自訂)" in
    let price_twd := if is_us symbol then (price * usd_twd)%Q else price in
    let quantity :=
      if Qltb 0 price_twd then py_int (alloc_capital / price_twd) else 0%Z in
    let cost := (inject_Z quantity * price_twd)%Q in
    let yield_rate := default 0%Q (info_yield div_info) in
    let est_annual_income := (cost * yield_rate)%Q in
    Ok (portfolio ++ [ {|
          line_symbol := symbol;
          line_name := display_name;
          line_type := "Custom";
          line_price := price;
          line_price_twd := price_twd;
          line_quantity := quantity;
          line_cost_twd := cost;
          line_est_annual_income := est_annual_income;
          line_yield_rate := (yield_rate * 100)%Q;
          line_dividend_date := default "N/A" (info_date div_info);
          line_pros := pros pros_cons;
          line_cons := cons pros_cons;
          line_fill_dividend_2y := (filled_count fill_stats, total_count fill_stats);
          line_avg_fill_days := avg_days fill_stats |} ],
        remaining_capital).

(** Lines 190-228: one turn of the loop of [process_category]; the
    state is [portfolio]. *)
Definition category_step (allocation_per_asset : Q)
    (portfolio : list Line) (candidate : Candidate) : result (list Line) :=
  let symbol := cand_symbol candidate in
  let price_opt := get_stock_price fetcher symbol in
  let div_info := get_dividend_info fetcher symbol in
  let history := get_historical_data fetcher symbol "2y" in
  let dividends := get_dividend_history fetcher symbol in
  fill_stats ← analyze_fill_dividend now symbol history dividends;
  let pros_cons := get_pros_cons symbol in
  if truthy price_opt then
    let price := default 0%Q price_opt in
    let price_twd :=
      if String.eqb (cand_market candidate) "US" then (price * usd_twd)%Q else price in
    ratio ← py_div allocation_per_asset price_twd;
    let quantity := py_int ratio in
    let cost := (inject_Z quantity * price_twd)%Q in
    let yield_rate := default 0%Q (info_yield div_info) in
    let est_annual_income := (cost * yield_rate)%Q in
    Ok (portfolio ++ [ {|
          line_symbol := symbol;
          line_name := cand_name candidate;
          line_type := cand_type candidate;
          line_price := price;
          line_price_twd := price_twd;
          line_quantity := quantity;
          line_cost_twd := cost;
          line_est_annual_income := est_annual_income;
          line_yield_rate := (yield_rate * 100)%Q;
          line_dividend_date := default "N/A" (info_date div_info);
          line_pros := pros pros_cons;
          line_cons := cons pros_cons;
          line_fill_dividend_2y := (filled_count fill_stats, total_count fill_stats);
          line_avg_fill_days := avg_days fill_stats |} ])
  else Ok portfolio.

(** Lines 184-228. *)
Definition process_category (cands : list Candidate) (available_capital : Q)
    (portfolio : list Line) : result (list Line) :=
  match cands with
  | [] => Ok portfolio
  | _ :: _ =>
      if Qle_bool available_capital 0 then Ok portfolio
      else
        let allocation_per_asset :=
          (available_capital / inject_Z (Z.of_nat (length cands)))%Q in
        for_each (category_step allocation_per_asset) cands portfolio
  end.

Definition of_type (t : string) : list Candidate :=
  List.filter (fun c => String.eqb (cand_type c) t) candidates.

(** Lines 169-232. *)
Definition category_pass (weights : gmap string Q) (remaining_capital : Q)
    (portfolio : list Line) : result (list Line) :=
  if Qltb 0 remaining_capital then
    let stocks := of_type "Stock" in
    let etfs := of_type "ETF" in
    let bonds := of_type "Bond" in
    let capital_stock := (remaining_capital * default 0%Q (weights !! "Stock"))%Q in
    let capital_etf := (remaining_capital * default 0%Q (weights !! "ETF"))%Q in
    let capital_bond := (remaining_capital * default 0%Q (weights !! "Bond"))%Q in
    portfolio ← process_category stocks capital_stock portfolio;
    portfolio ← process_category etfs capital_etf portfolio;
    process_category bonds capital_bond portfolio
  else Ok portfolio.

(** **** The backtest of lines 235-266 *)

(** [portfolio_history]: the shared date index and, per column, the
    cells that hold a number; a date of the index that a column does
    not list is a NaN cell of that column. *)
Record Frame : Type := {
  frame_index : list Z;
  frame_columns : list (string * list (Z * Q))
}.

Definition empty_frame : Frame := {| frame_index := []; frame_columns := [] |}.

(** [portfolio_history.empty] *)
Definition frame_empty (f : Frame) : bool :=
  match frame_index f, frame_columns f with
  | [], _ => true
  | _, [] => true
  | _, _ => false
  end.

(** [symbol in portfolio_history.columns] *)
Definition has_symbol (f : Frame) (symbol : string) : bool :=
  existsb (fun col => String.eqb symbol (fst col)) (frame_columns f).

Fixpoint insert_date (d : Z) (index : list Z) : list Z :=
  match index with
  | [] => [d]
  | x :: rest =>
      if (d <? x)%Z then d :: index
      else if (d =? x)%Z then index
      else x :: insert_date d rest
  end.

(** The index of an outer join: the sorted union. *)
Definition index_union (left right : list Z) : list Z :=
  fold_left (fun acc d => insert_date d acc) right left.

(** [left.join(right, how='outer')] *)
Definition join_outer (f : Frame) (symbol : string) (series : list (Z * Q)) : Frame :=
  {| frame_index := index_union (frame_index f) (map fst series);
     frame_columns := frame_columns f ++ [(symbol, series)] |}.

(** The cell of a column at a date. *)
Fixpoint cell (series : list (Z * Q)) (d : Z) : option Q :=
  match series with
  | [] => None
  | (d', v) :: rest => if (d' =? d)%Z then Some v else cell rest d
  end.

(** One turn of the loop of line 236; the state is
    [portfolio_history]. *)
Definition history_step (f : Frame) (item : Line) : result Frame :=
  let symbol := line_symbol item in
  let quantity := line_quantity item in
  let history := get_historical_data fetcher symbol "6mo" in
  if negb (df_empty history) then
    close ← get_column history Close;
    let recent_history :=
      if is_us symbol
      then map (fun p => (fst p, (snd p * usd_twd * inject_Z quantity)%Q)) close
      else map (fun p => (fst p, (snd p * inject_Z quantity)%Q)) close in
    if frame_empty f then
      Ok {| frame_index := map fst recent_history;
            frame_columns := [(symbol, recent_history)] |}
    else if negb (has_symbol f symbol) then
      Ok (join_outer f symbol recent_history)
    else Ok f
  else Ok f.

(** [portfolio_history.sum(axis=1)] at one date: NaN cells are
    skipped. *)
Definition row_sum (columns : list (string * list (Z * Q))) (d : Z) : Q :=
  fold_left (fun acc col => (acc + default 0%Q (cell (snd col) d))%Q) columns 0%Q.

(** [Series.ffill()] and [Series.bfill()]; [None] is a NaN. *)
Fixpoint ffill_from (last : option Q) (s : list (Z * option Q))
  : list (Z * option Q) :=
  match s with
  | [] => []
  | (d, v) :: rest =>
      let v' := match v with Some _ => v | None => last end in
      (d, v') :: ffill_from v' rest
  end.

Definition ffill (s : list (Z * option Q)) : list (Z * option Q) :=
  ffill_from None s.

Definition bfill (s : list (Z * option Q)) : list (Z * option Q) :=
  rev (ffill (rev s)).

(** Lines 263-266. *)
Definition total_value (f : Frame) : list (Z * option Q) :=
  if negb (frame_empty f) then
    let total := map (fun d => (d, Some (row_sum (frame_columns f) d))) (frame_index f) in
    bfill (ffill total)
  else [].

Definition reconstruct_history (portfolio : list Line)
  : result (list (Z * option Q)) :=
  portfolio_history ← for_each history_step portfolio empty_frame;
  Ok (total_value portfolio_history).

End Build.

(** The returned tuple
    [(portfolio, required_yield, usd_twd, total_history)]. *)
Record Portfolio : Type := {
  portfolio_lines : list Line;
  required_yield : Q;
  exchange_rate : Q;
  total_history : list (Z * option Q)
}.

Definition calculate_portfolio (now : Z) (total_capital monthly_income_goal : Q)
    (fetcher : Fetcher) (weights : gmap string Q) (custom_allocations : list Custom)
  : result Portfolio :=
  let annual_income_goal := (monthly_income_goal * 12)%Q in
  let required_yield :=
    if Qltb 0 total_capital
    then (annual_income_goal / total_capital * 100)%Q
    else 0%Q in
  let portfolio : list Line := [] in
  let usd_twd := get_exchange_rate fetcher in
  let remaining_capital := total_capital in
  '(portfolio, remaining_capital) ←
    for_each (custom_step now fetcher total_capital usd_twd)
             custom_allocations (portfolio, remaining_capital);
  portfolio ← category_pass now fetcher usd_twd weights remaining_capital portfolio;
  total_history ← reconstruct_history fetcher usd_twd portfolio;
  Ok {| portfolio_lines := portfolio;
        required_yield := required_yield;
        exchange_rate := usd_twd;
        total_history := total_history |}.

(** *** generate_scenarios *)

Definition conservative_weights : gmap string Q :=
  {[ "Stock" := 0.2%Q; "ETF" := 0.4%Q; "Bond" := 0.4%Q ]}.

Definition aggressive_weights : gmap string Q :=
  {[ "Stock" := 0.6%Q; "ETF" := 0.4%Q; "Bond" := 0.0%Q ]}.

Definition generate_scenarios (now : Z) (total_capital monthly_income_goal : Q)
    (fetcher : Fetcher) (user_weights : gmap string Q)
    (custom_allocations : list Custom)
  : result (gmap string Portfolio) :=
  custom_port ←
    calculate_portfolio now total_capital monthly_income_goal fetcher
                        user_weights custom_allocations;
  conservative_port ←
    calculate_portfolio now total_capital monthly_income_goal fetcher
                        conservative_weights [];
  aggressive_port ←
    calculate_portfolio now total_capital monthly_income_goal fetcher
                        aggressive_weights [];
  Ok ({[ "Custom" := custom_port;
         "Conservative" := conservative_port;
         "Aggressive" := aggressive_port ]} : gmap string Portfolio).

(** *** calculate_dca_projection *)

Record DcaPoint : Type := {
  Year : Z;
  Total_Cost : Q;
  Asset_Value : Q;
  Passive_Income : Q
}.

Definition annual_growth_rate : Q := 0.03.

(** Body of the [for m in range(1, months + 1)] loop; the state is
    [(current_cost, current_fv, data)]. *)
Definition dca_month (monthly_amount monthly_return portfolio_yield_percent : Q)
    (st : Q * Q * list DcaPoint) (m : Z) : Q * Q * list DcaPoint :=
  let '(current_cost, current_fv, data) := st in
  let current_cost := (current_cost + monthly_amount)%Q in
  let current_fv := ((current_fv + monthly_amount) * (1 + monthly_return))%Q in
  if (m mod 12 =? 0)%Z then
    let year := (m / 12)%Z in
    (current_cost, current_fv,
     data ++ [ {| Year := year;
                  Total_Cost := current_cost;
                  Asset_Value := current_fv;
                  Passive_Income := (current_fv * (portfolio_yield_percent / 100))%Q |} ])
  else (current_cost, current_fv, data).

Definition calculate_dca_projection
    (monthly_amount : Q) (years : Z) (portfolio_yield_percent : Q)
  : result (list DcaPoint) :=
  let months := (years * 12)%Z in
  let total_annual_return := (portfolio_yield_percent / 100 + annual_growth_rate)%Q in
  let monthly_return := (total_annual_return / 12)%Q in
  (* future_value and total_cost are computed and never read again *)
  future_value ←
    (if Qltb 0 monthly_return then
       p ← py_pow (1 + monthly_return) months;
       f ← py_div (p - 1) monthly_return;
       Ok (monthly_amount * f * (1 + monthly_return))%Q
     else Ok (monthly_amount * inject_Z months)%Q);
  let total_cost := (monthly_amount * inject_Z months)%Q in
  let '(_, _, data) :=
    fold_left (dca_month monthly_amount monthly_return portfolio_yield_percent)
              (py_range 1 (months + 1)) (0%Q, 0%Q, []) in
  Ok data.

(** Lines 286-290: the closed form
    [FV = P * ((1+r)^n - 1)/r * (1+r)] that [calculate_dca_projection]
    evaluates before its loop. *)
Definition future_value (monthly_amount : Q) (months : Z) (monthly_return : Q)
  : result Q :=
  if Qltb 0 monthly_return then
    p ← py_pow (1 + monthly_return) months;
    f ← py_div (p - 1) monthly_return;
    Ok (monthly_amount * f * (1 + monthly_return))%Q
  else Ok (monthly_amount * inject_Z months)%Q.

End PortfolioCalculator.

(** ** data_fetcher.py: exchange rate, price history, dividend history *)

Module Provider.

Import PortfolioCalculator.

(** What [yf.Ticker(...)] answers to lines 17-58; each access is a
    provider call and may raise. *)
Record Ticker : Type := {
  fast_info_last_price : result (option Q);
  history : string -> result DataFrame;
  dividends : result (list (Z * Q))
}.

(** [hist['Close'].iloc[-1]] *)
Definition last_close (hist : DataFrame) : result Q :=
  close ← get_column hist Close;
  match last close with
  | Some p => Ok (snd p)
  | None => Raise IndexError
  end.

(** Lines 17-35. *)
Definition get_exchange_rate (ticker : Ticker) : Q :=
  try_except
    (price ← fast_info_last_price ticker;
     if truthy price then Ok (default 0%Q price)
     else
       hist ← history ticker "1d";
       if negb (df_empty hist) then last_close hist else Ok 32.5%Q)
    (fun _ => 32.5%Q).

(** Lines 37-47; [pd.DataFrame()] has neither rows nor columns. *)
Definition get_historical_data (ticker : Ticker) (period : string) : DataFrame :=
  try_except (history ticker period)
             (fun _ => {| df_columns := []; df_rows := [] |}).

(** Lines 49-58. *)
Definition get_dividend_history (ticker : Ticker) : list (Z * Q) :=
  try_except (dividends ticker) (fun _ => []).

End Provider.

(** ** app.py: the computations around the two classes *)

Module App.

Import PortfolioCalculator.

(** Line 62. *)
Definition total_weight (w_stock w_etf w_bond : Z) : Z :=
  (w_stock + w_etf + w_bond)%Z.

(** Line 109: the button is disabled unless the weights add up to 100. *)
Definition generate_disabled (w_stock w_etf w_bond : Z) : bool :=
  negb (total_weight w_stock w_etf w_bond =? 100)%Z.

(** Line 113. *)
Definition user_weights (w_stock w_etf w_bond : Z) : gmap string Q :=
  {[ "Stock" := (inject_Z w_stock / 100)%Q;
     "ETF" := (inject_Z w_etf / 100)%Q;
     "Bond" := (inject_Z w_bond / 100)%Q ]}.

(** Line 52: in DCA mode the capital is one year of contributions. *)
Definition dca_total_capital (monthly_investment : Q) : Q :=
  (monthly_investment * 12)%Q.

(** Lines 77-82: the click on the add button. *)
Definition add_custom (custom_allocations : list Custom)
    (custom_symbol : string) (custom_weight : Z) : list Custom :=
  if negb (String.eqb custom_symbol "") && (0 <? custom_weight)%Z
  then custom_allocations
       ++ [ {| PortfolioCalculator.custom_symbol := custom_symbol;
               PortfolioCalculator.custom_weight := (inject_Z custom_weight / 100)%Q |} ]
  else custom_allocations.

(** Lines 87-95: the list is rebuilt from the entries whose delete
    button was not pressed; [pressed i] is the button of entry [i]. *)
Fixpoint keep_unpressed (i : nat) (pressed : nat -> bool)
    (custom_allocations : list Custom) : list Custom :=
  match custom_allocations with
  | [] => []
  | item :: rest =>
      if pressed i then keep_unpressed (S i) pressed rest
      else item :: keep_unpressed (S i) pressed rest
  end.

(** Lines 109-116: the click on the generate button; [None] when the
    button is disabled. *)
Definition generate (now : Z) (total_capital monthly_income_goal : Q)
    (fetcher : Fetcher) (w_stock w_etf w_bond : Z) (custom_allocs : list Custom)
  : option (result (gmap string Portfolio)) :=
  if generate_disabled w_stock w_etf w_bond then None
  else Some (generate_scenarios now total_capital monthly_income_goal fetcher
                                (user_weights w_stock w_etf w_bond) custom_allocs).

(** Lines 131-133 of [display_portfolio_result]. *)
Definition total_cost (portfolio : list Line) : Q :=
  fold_left (fun acc item => (acc + line_cost_twd item)%Q) portfolio 0%Q.

Definition total_income (portfolio : list Line) : Q :=
  fold_left (fun acc item => (acc + line_est_annual_income item)%Q) portfolio 0%Q.

Definition actual_yield (portfolio : list Line) : Q :=
  if Qltb 0 (total_cost portfolio)
  then (total_income portfolio / total_cost portfolio * 100)%Q
  else 0%Q.



End App.

(** ** Vocabulary of the design document *)

Module Design.

Import PortfolioCalculator.

(** The assumed monthly return of the projection. *)
Definition monthly_return (portfolio_yield_percent : Q) : Q :=
  ((portfolio_yield_percent / 100 + 0.03) / 12)%Q.

(** One month of the contribution-then-growth recurrence. *)
Definition grow (monthly_amount r v : Q) : Q :=
  ((v + monthly_amount) * (1 + r))%Q.

(** The recurrence iterated [n] months from [0]. *)
Definition recurrence_value (monthly_amount r : Q) (n : nat) : Q :=
  Nat.iter n (grow monthly_amount r) 0%Q.

(** The contributions of [n] months, added one by one. *)
Definition contributed (monthly_amount : Q) (n : nat) : Q :=
  Nat.iter n (fun c => (c + monthly_amount)%Q) 0%Q.

(** The point due at the end of year [y]. *)
Definition year_point (monthly_amount portfolio_yield_percent : Q) (y : nat)
  : DcaPoint :=
  let r := monthly_return portfolio_yield_percent in
  {| Year := Z.of_nat y;
     Total_Cost := contributed monthly_amount (12 * y);
     Asset_Value := recurrence_value monthly_amount r (12 * y);
     Passive_Income :=
       (recurrence_value monthly_amount r (12 * y)
        * (portfolio_yield_percent / 100))%Q |}.


(** An ex-date index is locatable when it falls inside the history. *)
Definition locatable (history : DataFrame) (ev : Z * Q) : bool :=
  (searchsorted (df_index history) (fst ev) <? df_len history)%nat.

(** The per-event computation raises. *)
Definition event_raises (history : DataFrame) (ev : Z * Q) : bool :=
  match fill_event history ev with
  | Raise _ => true
  | Ok _ => false
  end.

(** The per-event computation finds a fill day. *)
Definition event_filled (history : DataFrame) (ev : Z * Q) : bool :=
  match fill_event history ev with
  | Ok (Some _) => true
  | _ => false
  end.

(** The observed events of the design document: the trailing-730-day
    events with a locatable ex-date index whose computation does not
    raise. *)
Definition observed_count (now : Z) (history : DataFrame)
    (dividends : list (Z * Q)) : nat :=
  length (List.filter (fun ev => locatable history ev && negb (event_raises history ev))
                 (trailing_two_years now dividends)).

(** The capital left for the categories: each custom request with a
    price takes [total_capital * weight]. *)
Definition remaining_after (fetcher : Fetcher) (total_capital : Q)
    (custom_allocations : list Custom) : Q :=
  fold_left
    (fun remaining custom =>
       if truthy (get_stock_price fetcher (custom_symbol custom))
       then (remaining - total_capital * custom_weight custom)%Q
       else remaining)
    custom_allocations total_capital.


(** Whole shares within the budget. *)
Definition within_budget (B : Q) (l : Line) : Prop :=
  line_quantity l = Qfloor (B / line_price_twd l)
  /\ (0 <= line_quantity l)%Z
  /\ (line_cost_twd l == inject_Z (line_quantity l) * line_price_twd l)%Q
  /\ (0 <= line_cost_twd l)%Q
  /\ (line_cost_twd l <= B)%Q.

(** A line made for one of the candidates [cands], each given the
    budget [per]. *)
Definition category_line (cands : list Candidate) (per : Q) (l : Line) : Prop :=
  exists candidate : Candidate,
    In candidate cands
    /\ cand_symbol candidate = line_symbol l
    /\ cand_type candidate = line_type l
    /\ ((0 < line_price_twd l)%Q -> (0 <= per)%Q -> within_budget per l).

(** The close series of a history, and the value column of a line:
    close times quantity, converted for a foreign symbol. *)
Definition close_series (history : DataFrame) : list (Z * Q) :=
  map (fun b => (bar_date b, bar_Close b)) (df_rows history).

Definition value_column (fetcher : Fetcher) (usd_twd : Q) (l : Line)
  : string * list (Z * Q) :=
  let close := close_series (get_historical_data fetcher (line_symbol l) "6mo") in
  (line_symbol l,
   if is_us (line_symbol l)
   then map (fun p => (fst p, (snd p * usd_twd * inject_Z (line_quantity l))%Q)) close
   else map (fun p => (fst p, (snd p * inject_Z (line_quantity l))%Q)) close).

(** The lines that are the first to bear their symbol, among the lines
    with a history; [seen] lists the symbols met so far. *)
Fixpoint first_bearers (fetcher : Fetcher) (seen : list string)
    (portfolio : list Line) : list Line :=
  match portfolio with
  | [] => []
  | l :: rest =>
      if df_empty (get_historical_data fetcher (line_symbol l) "6mo")
      then first_bearers fetcher seen rest
      else if existsb (String.eqb (line_symbol l)) seen
      then first_bearers fetcher seen rest
      else l :: first_bearers fetcher (seen ++ [line_symbol l]) rest
  end.

(** A frame with a column has rows. *)
Definition settled (f : Frame) : Prop :=
  frame_empty f = true -> frame_columns f = [].

(** The index of a frame is the union of the dates of its columns. *)
Definition dated (f : Frame) : Prop :=
  forall d : Z,
    In d (frame_index f)
    <-> exists col : string * list (Z * Q),
          In col (frame_columns f) /\ In d (map fst (snd col)).

(** The aggregate history as the design document words it: every
    column is forward-filled, then backward-filled, over the joined
    index before the columns are summed. *)
Definition filled_column (index : list Z) (series : list (Z * Q))
  : list (Z * option Q) :=
  bfill (ffill (map (fun d => (d, cell series d)) index)).

Fixpoint cell_opt (series : list (Z * option Q)) (d : Z) : option Q :=
  match series with
  | [] => None
  | (d', v) :: rest => if (d' =? d)%Z then v else cell_opt rest d
  end.

Definition design_total_value (f : Frame) : list (Z * option Q) :=
  map (fun d =>
         (d, Some (fold_left
                     (fun acc col =>
                        (acc + default 0%Q
                                 (cell_opt (filled_column (frame_index f) (snd col)) d))%Q)
                     (frame_columns f) 0%Q)))
      (frame_index f).

(** The yield of the third source of the design document: the
    dividends of the trailing 365 days over the current price. *)
Definition trailing_year_yield (now : Z) (history : list (Z * Q)) (price : Q) : Q :=
  (DataFetcher.sum_amounts (List.filter (fun ev => (now - 365 <=? fst ev)%Z) history)
   / price)%Q.

(** The price a dividend has to recover: the close of the bar before
    the ex-date bar [idx], or, when the ex-date bar is the first one, its
    own close plus the dividend. *)
Definition reference_price (history : DataFrame) (idx : nat) (amount : Q)
  : option Q :=
  match idx with
  | O => (fun b => (bar_Close b + amount)%Q) <$> (df_rows history !! 0%nat)
  | S k => bar_Close <$> (df_rows history !! k)
  end.

(** The line [calculate_portfolio] makes for a custom request. *)
Definition custom_made (fetcher : Fetcher) (usd_twd total_capital : Q)
    (custom : Custom) (l : Line) : Prop :=
  let yield_rate :=
    default 0%Q (info_yield (get_dividend_info fetcher (custom_symbol custom))) in
  exists price : Q,
    get_stock_price fetcher (custom_symbol custom) = Some price
    /\ ~ (price == 0)%Q
    /\ line_symbol l = custom_symbol custom
    /\ line_type l = "Custom"
    /\ line_price l = price
    /\ line_price_twd l
       = (if is_us (custom_symbol custom) then (price * usd_twd)%Q else price)
    /\ line_quantity l
       = (if Qltb 0 (line_price_twd l)
          then py_int (total_capital * custom_weight custom / line_price_twd l)
          else 0%Z)
    /\ line_cost_twd l = (inject_Z (line_quantity l) * line_price_twd l)%Q
    /\ line_est_annual_income l = (line_cost_twd l * yield_rate)%Q
    /\ line_yield_rate l = (yield_rate * 100)%Q.

(** The line [process_category] makes for a candidate given the
    budget [per]. *)
Definition candidate_made (fetcher : Fetcher) (usd_twd per : Q)
    (candidate : Candidate) (l : Line) : Prop :=
  let yield_rate :=
    default 0%Q (info_yield (get_dividend_info fetcher (cand_symbol candidate))) in
  exists price : Q,
    get_stock_price fetcher (cand_symbol candidate) = Some price
    /\ ~ (price == 0)%Q
    /\ line_symbol l = cand_symbol candidate
    /\ line_name l = cand_name candidate
    /\ line_type l = cand_type candidate
    /\ line_price l = price
    /\ line_price_twd l
       = (if String.eqb (cand_market candidate) "US"
          then (price * usd_twd)%Q else price)
    /\ ~ (line_price_twd l == 0)%Q
    /\ line_quantity l = py_int (per / line_price_twd l)
    /\ line_cost_twd l = (inject_Z (line_quantity l) * line_price_twd l)%Q
    /\ line_est_annual_income l = (line_cost_twd l * yield_rate)%Q
    /\ line_yield_rate l = (yield_rate * 100)%Q.

(** The budget of one category. *)
Definition category_capital (weights : gmap string Q) (remaining : Q)
    (t : string) : Q :=
  (remaining * default 0%Q (weights !! t))%Q.

(** The static candidates in the order the category pass visits them. *)
Definition visiting_order : list Candidate :=
  of_type "Stock" ++ of_type "ETF" ++ of_type "Bond".

(** Every non-empty six-month history carries the Close column. *)
Definition histories_have_close (fetcher : Fetcher) : Prop :=
  forall symbol : string,
    df_empty (get_historical_data fetcher symbol "6mo") = false ->
    has_column (get_historical_data fetcher symbol "6mo") Close = true.

(** The lines the category pass makes for one category. *)
Definition category_lines_made (fetcher : Fetcher) (usd_twd : Q)
    (weights : gmap string Q) (remaining : Q) (t : string)
    (new : list Line) : Prop :=
  exists kept : list Candidate,
    sublist kept (of_type t)
    /\ Forall2 (candidate_made fetcher usd_twd
                  (category_capital weights remaining t
                   / inject_Z (Z.of_nat (length (of_type t)))))
               kept new
    /\ ((0 < category_capital weights remaining t)%Q \/ new = []).

(** A custom request as the sidebar accepts it: a symbol and a weight
    in (0, 1]. *)
Definition valid_request (c : Custom) : Prop :=
  custom_symbol c <> "" /\ (0 < custom_weight c)%Q /\ (custom_weight c <= 1)%Q.

End Design.

(** ** Concrete market data used to exercise the model *)

Module Examples.

Import PortfolioCalculator.

Definition no_history : DataFrame := {| df_columns := []; df_rows := [] |}.

(** Daily bars whose high equals their close. *)
Definition bars (closes : list (Z * Q)) : DataFrame :=
  {| df_columns := [Close; High];
     df_rows := map (fun p => {| bar_date := fst p;
                                 bar_Close := snd p;
                                 bar_High := snd p |}) closes |}.

(** One bar on day 10, and a dividend with ex-date on day 20. *)
Definition one_bar : DataFrame :=
  {| df_columns := [Close; High];
     df_rows := [ {| bar_date := 10; bar_Close := 100; bar_High := 101 |} ] |}.

Definition late_dividend : list (Z * Q) := [(20%Z, 1%Q)].

(** A provider that quotes two domestic symbols: 2330.TW at 100 with
    closes on days 1 and 2, 0050.TW at 50 with a close on day 1 only. *)
Definition two_quotes : Fetcher :=
  {| get_exchange_rate := 32.5;
     get_stock_price := fun symbol =>
       if String.eqb symbol "2330.TW" then Some 100%Q
       else if String.eqb symbol "0050.TW" then Some 50%Q
       else None;
     get_dividend_info := fun _ => {| info_date := None; info_yield := None |};
     get_historical_data := fun symbol period =>
       if String.eqb period "6mo" then
         if String.eqb symbol "2330.TW" then bars [(1%Z, 100%Q); (2%Z, 100%Q)]
         else if String.eqb symbol "0050.TW" then bars [(1%Z, 50%Q)]
         else no_history
       else no_history;
     get_dividend_history := fun _ => [];
     get_stock_name := fun _ => None |}.

Definition half_stock_half_etf : gmap string Q :=
  {[ "Stock" := 0.5%Q; "ETF" := 0.5%Q ]}.

(** A custom request for a symbol the provider does not quote. *)
Definition unknown_request : Custom :=
  {| custom_symbol := "XXXX"; custom_weight := 0.1%Q |}.

(** A custom request that duplicates a static candidate. *)
Definition duplicate_request : Custom :=
  {| custom_symbol := "2330.TW"; custom_weight := 0.1%Q |}.

(** A line with only the fields the backtest reads filled in. *)
Definition holding (symbol : string) (quantity : Z) : Line :=
  {| line_symbol := symbol; line_name := symbol; line_type := "Stock";
     line_price := 0; line_price_twd := 0; line_quantity := quantity;
     line_cost_twd := 0; line_est_annual_income := 0; line_yield_rate := 0;
     line_dividend_date := "N/A"; line_pros := "N/A"; line_cons := "N/A";
     line_fill_dividend_2y := (0%nat, 0%nat); line_avg_fill_days := 0 |}.

(** A ticker with no published yield and no trailing rate, a current
    price of 10, and one dividend of 1 paid ten days before day 1000. *)
Definition history_only_ticker : DataFetcher.Ticker :=
  {| DataFetcher.info :=
       Ok {| DataFetcher.dividendYield := None;
             DataFetcher.trailingAnnualDividendRate := None;
             DataFetcher.currentPrice := Some 10%Q;
             DataFetcher.regularMarketPreviousClose := None;
             DataFetcher.exDividendDate := None |};
     DataFetcher.dividends := Ok [(990%Z, 1%Q)];
     DataFetcher.fast_info_last_price := Ok (Some 10%Q) |}.

(** The provider [two_quotes] with dividend yields of 4 and 6 percent. *)
Definition two_yields : Fetcher :=
  {| get_exchange_rate := get_exchange_rate two_quotes;
     get_stock_price := get_stock_price two_quotes;
     get_dividend_info := fun symbol =>
       {| info_date := None;
          info_yield := if String.eqb symbol "2330.TW" then Some 0.04%Q
                        else Some 0.06%Q |};
     get_historical_data := get_historical_data two_quotes;
     get_dividend_history := get_dividend_history two_quotes;
     get_stock_name := get_stock_name two_quotes |}.

End Examples.

(** ** Facts about the Python built-ins *)

Section PyFacts.

Lemma Qltb_true (a b : Q) : Qltb a b = true <-> (a < b)%Q.
Proof.
  unfold Qltb. rewrite negb_true_iff.
  destruct (Qle_bool b a) eqn:E.
  - apply Qle_bool_iff in E. split; [discriminate | intros H; lra].
  - split; [intros _ | reflexivity].
    apply Qnot_le_lt. intros H. apply Qle_bool_iff in H. congruence.
Qed.

Lemma Qltb_false (a b : Q) : Qltb a b = false <-> (b <= a)%Q.
Proof.
  unfold Qltb. rewrite negb_false_iff. apply Qle_bool_iff.
Qed.

Lemma Qeq_bool_false (a b : Q) : Qeq_bool a b = false <-> ~ (a == b)%Q.
Proof.
  split.
  - intros E H. apply Qeq_bool_iff in H. congruence.
  - intros H. destruct (Qeq_bool a b) eqn:E; [|reflexivity].
    apply Qeq_bool_iff in E. contradiction.
Qed.

Lemma py_div_ok (a b : Q) : ~ (b == 0)%Q -> py_div a b = Ok (a / b)%Q.
Proof.
  intros H. unfold py_div. apply Qeq_bool_false in H. now rewrite H.
Qed.

Lemma py_pow_ok (b : Q) (e : Z) : ~ (b == 0)%Q -> py_pow b e = Ok (b ^ e)%Q.
Proof.
  intros H. unfold py_pow. apply Qeq_bool_false in H. now rewrite H.
Qed.

(** On a non-negative float [int] is the floor. *)
Lemma py_int_floor (x : Q) : (0 <= x)%Q -> py_int x = Qfloor x.
Proof.
  destruct x as [n d]. unfold Qle, py_int, Qfloor. simpl.
  intros H. apply Z.quot_div_nonneg; lia.
Qed.

Lemma py_range_from_1 (n : Z) :
  py_range 1 (n + 1) = map (fun i => Z.of_nat (S i)) (seq 0 (Z.to_nat n)).
Proof.
  unfold py_range. replace (n + 1 - 1)%Z with n by lia.
  apply map_ext. intros i. lia.
Qed.

End PyFacts.

(** ** The DCA projection *)

Section DcaProjection.

Import PortfolioCalculator Design.

Variables (monthly_amount portfolio_yield_percent : Q).

Let r : Q := monthly_return portfolio_yield_percent.

Lemma twelfth_month (n : nat) :
  (S n mod 12 = 0)%nat -> (S n / 12 = S (n / 12) /\ 12 * (S n / 12) = S n)%nat.
Proof.
  intros H.
  pose proof (Nat.div_mod_eq (S n) 12). pose proof (Nat.div_mod_eq n 12).
  pose proof (Nat.mod_upper_bound n 12). lia.
Qed.

Lemma other_month (n : nat) :
  (S n mod 12 <> 0)%nat -> (S n / 12 = n / 12)%nat.
Proof.
  intros H.
  pose proof (Nat.div_mod_eq (S n) 12). pose proof (Nat.div_mod_eq n 12).
  pose proof (Nat.mod_upper_bound n 12). pose proof (Nat.mod_upper_bound (S n) 12).
  lia.
Qed.

Lemma month_test (n : nat) :
  (Z.of_nat (S n) mod 12 =? 0)%Z = (S n mod 12 =? 0)%nat.
Proof.
  change 12%Z with (Z.of_nat 12). rewrite <- Nat2Z.inj_mod.
  destruct (Nat.eqb_spec (S n mod 12) 0) as [E|E].
  - rewrite E. reflexivity.
  - apply Z.eqb_neq. lia.
Qed.

(** The state of the loop after [n] months. *)
Lemma dca_loop (n : nat) :
  fold_left (dca_month monthly_amount r portfolio_yield_percent)
            (map (fun i => Z.of_nat (S i)) (seq 0 n)) (0%Q, 0%Q, [])
  = (contributed monthly_amount n,
     recurrence_value monthly_amount r n,
     map (year_point monthly_amount portfolio_yield_percent) (seq 1 (n / 12))).
Proof.
  induction n as [|n IH].
  - reflexivity.
  - rewrite seq_S, map_app, fold_left_app, IH.
    change (0 + n)%nat with n. cbn [map fold_left].
    unfold dca_month.
    rewrite month_test.
    destruct (Nat.eqb_spec (S n mod 12) 0) as [E|E].
    + destruct (twelfth_month n E) as [Hd Hm].
      rewrite Hd, seq_S, map_app. cbn [map].
      do 3 f_equal. unfold year_point.
      replace (12 * (1 + n / 12))%nat with (S n) by lia.
      f_equal.
      change 12%Z with (Z.of_nat 12). rewrite <- Nat2Z.inj_div. lia.
    + rewrite (other_month n E). reflexivity.
Qed.

Lemma months_in_years (years : Z) :
  (Z.to_nat (years * 12) / 12)%nat = Z.to_nat years.
Proof.
  destruct (Z.le_gt_cases 0 years) as [H|H].
  - rewrite Z2Nat.inj_mul by lia. change (Z.to_nat 12) with 12%nat.
    apply Nat.div_mul. discriminate.
  - rewrite !Z2Nat.nonpos by lia. reflexivity.
Qed.

(** The closed form of lines 287-290 never fails. *)
Lemma closed_form_ok (months : Z) :
  exists fv : Q,
    (if Qltb 0 r then
       p ← py_pow (1 + r) months;
       f ← py_div (p - 1) r;
       Ok (monthly_amount * f * (1 + r))%Q
     else Ok (monthly_amount * inject_Z months)%Q) = Ok fv.
Proof.
  destruct (Qltb 0 r) eqn:E; [|eauto].
  apply Qltb_true in E.
  rewrite py_pow_ok by (intros H; lra). cbn.
  rewrite py_div_ok by (intros H; lra). cbn. eauto.
Qed.

(** The projection is the list of the year points. *)
Lemma calculate_dca_projection_points (years : Z) :
  calculate_dca_projection monthly_amount years portfolio_yield_percent
  = Ok (map (year_point monthly_amount portfolio_yield_percent)
            (seq 1 (Z.to_nat years))).
Proof.
  unfold calculate_dca_projection.
  change ((portfolio_yield_percent / 100 + annual_growth_rate) / 12)%Q with r.
  destruct (closed_form_ok (years * 12)) as [fv ->]. cbn.
  rewrite py_range_from_1, dca_loop, months_in_years. reflexivity.
Qed.

End DcaProjection.

Section DcaRecurrence.

Import Design.

Variables (a r : Q).


Lemma recurrence_value_S (n : nat) :
  recurrence_value a r (S n) = ((recurrence_value a r n + a) * (1 + r))%Q.
Proof. reflexivity. Qed.

Lemma inject_nat_S (n : nat) :
  (inject_Z (Z.of_nat (S n)) == inject_Z (Z.of_nat n) + 1)%Q.
Proof. rewrite Nat2Z.inj_succ. unfold Z.succ. rewrite inject_Z_plus. reflexivity. Qed.


(** With a zero return the recurrence only adds the contributions. *)
Lemma recurrence_value_linear (n : nat) :
  (r == 0)%Q -> (recurrence_value a r n == a * inject_Z (Z.of_nat n))%Q.
Proof.
  intros Hr. induction n as [|n IH].
  - cbn. ring.
  - rewrite recurrence_value_S, IH, inject_nat_S, Hr. ring.
Qed.








End DcaRecurrence.

Section DcaClaims.

Import PortfolioCalculator Design.







(** C7. When the assumed monthly return is exactly zero and
    [years >= 1], the projection returns without raising and the asset
    value of its final point is [monthly_amount * years * 12]. *)
Theorem dca_zero_return_linear (monthly_amount : Q) (years : Z)
    (portfolio_yield_percent : Q) :
  (1 <= years)%Z ->
  (monthly_return portfolio_yield_percent == 0)%Q ->
  exists (points : list DcaPoint) (p : DcaPoint),
    calculate_dca_projection monthly_amount years portfolio_yield_percent = Ok points
    /\ last points = Some p
    /\ (Asset_Value p == monthly_amount * inject_Z years * 12)%Q.
Proof.
  intros Hy Hr.
  destruct (Z.to_nat years) as [|k] eqn:Ek; [lia|].
  exists (map (year_point monthly_amount portfolio_yield_percent) (seq 1 (S k))).
  eexists. split; [rewrite <- Ek; apply calculate_dca_projection_points|].
  split.
  - rewrite seq_S, map_app. cbn [map]. apply last_snoc.
  - cbn [year_point Asset_Value].
    rewrite recurrence_value_linear by assumption.
    replace (Z.of_nat (12 * (1 + k))) with (years * 12)%Z by lia.
    rewrite inject_Z_mult. change (inject_Z 12) with 12%Q. ring.
Qed.

Lemma dca_zero_return_linear_witness :
  exists (points : list DcaPoint) (p : DcaPoint),
    calculate_dca_projection 10000 3 (-3) = Ok points
    /\ last points = Some p
    /\ (Asset_Value p == 10000 * inject_Z 3 * 12)%Q.
Proof.
  apply (dca_zero_return_linear 10000 3 (-3)); [lia | reflexivity].
Defined.




End DcaClaims.

(** ** The dividend-fill analysis *)

Section FillAnalysis.

Import PortfolioCalculator Design.

Lemma calculator_binds_pd : global_name module_globals "pd" = Ok tt.
Proof. reflexivity. Qed.

Lemma calculator_binds_timedelta : global_name module_globals "timedelta" = Ok tt.
Proof. reflexivity. Qed.

Lemma calculator_lacks_logging :
  global_name module_globals "logging" = Raise (NameError "logging").
Proof. reflexivity. Qed.

(** The loop counts the events whose computation finds a fill day. *)
Lemma fill_loop_count (history : DataFrame) (events : list (Z * Q)) (filled days : nat) :
  fst (fold_left (fill_step history) events (filled, days))
  = (filled + length (List.filter (event_filled history) events))%nat.
Proof.
  revert filled days. induction events as [|ev events IH]; intros filled days.
  - cbn. lia.
  - cbn [fold_left List.filter]. unfold fill_step at 2.
    destruct (event_filled history ev) eqn:F; unfold event_filled in F;
      destruct (fill_event history ev) as [[d|]|e]; try discriminate F;
      rewrite IH; cbn [length]; lia.
Qed.

(** An event past the end of the history is neither filled nor an error. *)
Lemma past_end_not_filled (history : DataFrame) (ev : Z * Q) :
  locatable history ev = false -> fill_event history ev = Ok None.
Proof.
  unfold locatable, fill_event. destruct ev as [date amount]. cbn [fst].
  intros H. apply Nat.ltb_ge in H. apply Nat.leb_le in H. now rewrite H.
Qed.

(** The analysis never raises. *)
Lemma analyze_fill_dividend_returns (now : Z) (symbol : string)
    (history : DataFrame) (dividends : list (Z * Q)) :
  exists stats : FillStats,
    analyze_fill_dividend now symbol history dividends = Ok stats.
Proof.
  unfold analyze_fill_dividend.
  destruct (df_empty history); [eauto|].
  destruct dividends as [|ev dividends]; [eauto|].
  rewrite calculator_binds_pd, calculator_binds_timedelta. cbn [mbind result_bind].
  destruct (trailing_two_years now (ev :: dividends)); [eauto|].
  destruct (fold_left _ _ _). eauto.
Qed.

(** C2, as the design document words it, fails: an event dated after
    the last bar is past the end of the history, yet it is counted in
    the reported total. *)
Lemma total_counts_event_past_history :
  exists stats : FillStats,
    analyze_fill_dividend 30 "2330.TW" Examples.one_bar Examples.late_dividend = Ok stats
    /\ observed_count 30 Examples.one_bar Examples.late_dividend = 0%nat
    /\ total_count stats = 1%nat
    /\ total_count stats <> observed_count 30 Examples.one_bar Examples.late_dividend.
Proof.
  eexists. split; [reflexivity|]. split; [reflexivity|]. split; [reflexivity|].
  discriminate.
Qed.

(** C2, amended. For every price history and dividend series the
    analysis returns; its total-event count is the number of all
    trailing-730-day dividend events when the history has rows (and 0
    when it has none), whether or not an ex-date index is locatable or
    the per-event computation raises; its filled count is the number of
    events whose computation finds a fill day, so an event past the end
    of the history, or one whose computation raises, is never counted
    as filled. *)
Theorem total_count_is_all_recent_events (now : Z) (symbol : string)
    (history : DataFrame) (dividends : list (Z * Q)) :
  exists stats : FillStats,
    analyze_fill_dividend now symbol history dividends = Ok stats
    /\ total_count stats
       = (if df_empty history then 0%nat else length (trailing_two_years now dividends))
    /\ filled_count stats
       = (if df_empty history then 0%nat
          else length (List.filter (event_filled history) (trailing_two_years now dividends)))
    /\ (forall ev : Z * Q,
          locatable history ev = false \/ event_raises history ev = true ->
          event_filled history ev = false).
Proof.
  assert (Hnot : forall ev : Z * Q,
             locatable history ev = false \/ event_raises history ev = true ->
             event_filled history ev = false).
  { intros ev [H|H].
    - unfold event_filled. now rewrite past_end_not_filled.
    - unfold event_raises in H. unfold event_filled.
      destruct (fill_event history ev) as [[d|]|e]; congruence. }
  unfold analyze_fill_dividend.
  destruct (df_empty history) eqn:Eh.
  { eexists. repeat split; try reflexivity. exact Hnot. }
  destruct dividends as [|ev dividends].
  { eexists. repeat split; try reflexivity. exact Hnot. }
  rewrite calculator_binds_pd, calculator_binds_timedelta. cbn [mbind result_bind].
  destruct (trailing_two_years now (ev :: dividends)) as [|ev' evs] eqn:Er.
  { eexists. repeat split; try reflexivity. exact Hnot. }
  pose proof (fill_loop_count history (ev' :: evs) 0 0) as Hc.
  destruct (fold_left (fill_step history) (ev' :: evs) (0%nat, 0%nat)) as [filled days].
  eexists. split; [reflexivity|]. cbn [total_count filled_count].
  split; [reflexivity|]. split; [exact Hc|exact Hnot].
Qed.

Lemma total_count_is_all_recent_events_witness :
  exists stats : FillStats,
    analyze_fill_dividend 30 "2330.TW" Examples.one_bar Examples.late_dividend = Ok stats
    /\ total_count stats = 1%nat
    /\ event_filled Examples.one_bar (20%Z, 1%Q) = false.
Proof.
  destruct (total_count_is_all_recent_events 30 "2330.TW"
              Examples.one_bar Examples.late_dividend)
    as (stats & Hs & Ht & _ & Hn).
  exists stats. split; [exact Hs|]. split; [exact Ht|].
  apply Hn. left. reflexivity.
Defined.

End FillAnalysis.

(** ** Building a portfolio *)

Section Shares.

Import PortfolioCalculator Design.

(** Whole shares bought with a budget [B] at a positive price. *)
Lemma shares_within_budget (B p : Q) :
  (0 < p)%Q -> (0 <= B)%Q ->
  py_int (B / p) = Qfloor (B / p)
  /\ (0 <= py_int (B / p))%Z
  /\ (0 <= inject_Z (py_int (B / p)) * p)%Q
  /\ (inject_Z (py_int (B / p)) * p <= B)%Q.
Proof.
  intros Hp HB.
  assert (Hx : (0 <= B / p)%Q).
  { apply Qle_shift_div_l; [assumption|]. lra. }
  rewrite (py_int_floor _ Hx).
  assert (Hf : (0 <= Qfloor (B / p))%Z).
  { change 0%Z with (Qfloor 0). now apply Qfloor_resp_le. }
  assert (Hi : (0 <= inject_Z (Qfloor (B / p)))%Q).
  { change 0%Q with (inject_Z 0). now rewrite <- Zle_Qle. }
  repeat split; try assumption.
  - apply Qmult_le_0_compat; [assumption|lra].
  - pose proof (Qfloor_le (B / p)) as Hle.
    assert (Hm : (inject_Z (Qfloor (B / p)) * p <= B / p * p)%Q).
    { apply Qmult_le_compat_r; [assumption|lra]. }
    assert (He : (B / p * p == B)%Q) by (field; lra).
    lra.
Qed.

End Shares.

Section CustomPass.

Import PortfolioCalculator Design.

Variables (now : Z) (fetcher : Fetcher) (total_capital usd_twd : Q).

Let step := custom_step now fetcher total_capital usd_twd.

(** Line 120 looks up [logging], which the module never binds. *)
Lemma custom_step_unpriced (st : list Line * Q) (custom : Custom) :
  truthy (get_stock_price fetcher (custom_symbol custom)) = false ->
  step st custom = Raise (NameError "logging").
Proof.
  intros H. unfold step, custom_step. destruct st as [portfolio remaining].
  rewrite H. reflexivity.
Qed.

(** A custom request with a price appends one line and takes
    [total_capital * weight] from the remaining capital. *)
Lemma custom_step_priced (portfolio : list Line) (remaining : Q) (custom : Custom) :
  truthy (get_stock_price fetcher (custom_symbol custom)) = true ->
  exists l : Line,
    step (portfolio, remaining) custom
    = Ok (portfolio ++ [l], (remaining - total_capital * custom_weight custom)%Q)
    /\ line_type l = "Custom"
    /\ line_symbol l = custom_symbol custom
    /\ ((0 < line_price_twd l)%Q ->
        (0 <= total_capital * custom_weight custom)%Q ->
        within_budget (total_capital * custom_weight custom) l).
Proof.
  intros H. unfold step, custom_step. rewrite H. cbn [negb].
  destruct (analyze_fill_dividend_returns now (custom_symbol custom)
              (get_historical_data fetcher (custom_symbol custom) "2y")
              (get_dividend_history fetcher (custom_symbol custom))) as [stats ->].
  cbn [mbind result_bind].
  eexists. split; [reflexivity|].
  cbn [line_type line_symbol line_price_twd].
  split; [reflexivity|]. split; [reflexivity|].
  intros Hp HB. unfold within_budget.
  cbn [line_quantity line_cost_twd line_price_twd].
  apply Qltb_true in Hp as Ht. rewrite Ht.
  destruct (shares_within_budget _ _ Hp HB) as (Hq & H0 & Hc0 & HcB).
  repeat split; try assumption; try reflexivity.
Qed.

Lemma custom_pass_raises (customs : list Custom) (st : list Line * Q) :
  (exists custom : Custom,
     In custom customs
     /\ truthy (get_stock_price fetcher (custom_symbol custom)) = false) ->
  for_each step customs st = Raise (NameError "logging").
Proof.
  revert st. induction customs as [|c customs IH]; intros st (custom & Hin & Hu).
  - destruct Hin.
  - cbn [for_each].
    destruct (truthy (get_stock_price fetcher (custom_symbol c))) eqn:E.
    + destruct st as [portfolio remaining].
      destruct (custom_step_priced portfolio remaining c E) as (l & -> & _).
      cbn [mbind result_bind]. apply IH.
      destruct Hin as [->|Hin]; [congruence|].
      exists custom. split; assumption.
    + rewrite (custom_step_unpriced st c E). reflexivity.
Qed.

(** When the custom pass returns, every request had a price; the
    lines it appends are custom lines within their budgets. *)
Lemma custom_pass_lines (customs : list Custom) (portfolio portfolio' : list Line)
    (remaining remaining' : Q) :
  for_each step customs (portfolio, remaining) = Ok (portfolio', remaining') ->
  remaining'
  = fold_left
      (fun remaining custom =>
         if truthy (get_stock_price fetcher (custom_symbol custom))
         then (remaining - total_capital * custom_weight custom)%Q
         else remaining)
      customs remaining
  /\ exists new : list Line,
       portfolio' = portfolio ++ new
       /\ Forall (fun l =>
                    line_type l = "Custom"
                    /\ exists custom : Custom,
                         In custom customs
                         /\ custom_symbol custom = line_symbol l
                         /\ ((0 < line_price_twd l)%Q ->
                             (0 <= total_capital * custom_weight custom)%Q ->
                             within_budget (total_capital * custom_weight custom) l))
                 new.
Proof.
  revert portfolio remaining.
  induction customs as [|c customs IH]; intros portfolio remaining H.
  - cbn in H. injection H as <- <-. split; [reflexivity|].
    exists []. split; [now rewrite app_nil_r|constructor].
  - cbn [for_each] in H.
    destruct (truthy (get_stock_price fetcher (custom_symbol c))) eqn:E.
    + destruct (custom_step_priced portfolio remaining c E) as (l & Hs & Ht & Hsym & Hb).
      rewrite Hs in H. cbn [mbind result_bind] in H.
      destruct (IH _ _ H) as (Hr & new & Hp & Hall).
      split; [cbn [fold_left]; rewrite E; exact Hr|].
      exists (l :: new). split; [rewrite Hp, <- app_assoc; reflexivity|].
      constructor.
      * split; [assumption|]. exists c. split; [now left|]. split; [now symmetry|assumption].
      * eapply Forall_impl; [exact Hall|].
        intros l' (Ht' & c' & Hin & Hrest). split; [assumption|].
        exists c'. split; [now right|assumption].
    + rewrite (custom_step_unpriced _ c E) in H. discriminate.
Qed.

End CustomPass.

Section CategoryPass.

Import PortfolioCalculator Design.

Variables (now : Z) (fetcher : Fetcher) (usd_twd : Q).

Lemma category_line_weaken (cands cands' : list Candidate) (per : Q) (l : Line) :
  (forall c : Candidate, In c cands -> In c cands') ->
  category_line cands per l -> category_line cands' per l.
Proof.
  intros Hsub (c & Hin & Hrest). exists c. split; [now apply Hsub|assumption].
Qed.

(** A candidate adds at most one line, within the per-asset budget. *)
Lemma category_step_lines (per : Q) (portfolio portfolio' : list Line)
    (candidate : Candidate) :
  category_step now fetcher usd_twd per portfolio candidate = Ok portfolio' ->
  portfolio' = portfolio
  \/ exists l : Line,
       portfolio' = portfolio ++ [l] /\ category_line [candidate] per l.
Proof.
  unfold category_step.
  destruct (analyze_fill_dividend_returns now (cand_symbol candidate)
              (get_historical_data fetcher (cand_symbol candidate) "2y")
              (get_dividend_history fetcher (cand_symbol candidate))) as [stats ->].
  cbn [mbind result_bind].
  destruct (truthy (get_stock_price fetcher (cand_symbol candidate)));
    [|intros H; injection H as <-; now left].
  set (price_twd := if String.eqb (cand_market candidate) "US" then _ else _).
  unfold py_div. destruct (Qeq_bool price_twd 0); [discriminate|].
  cbn [mbind result_bind]. intros H. injection H as <-. right.
  eexists. split; [reflexivity|].
  exists candidate. cbn [line_symbol line_type line_price_twd].
  split; [now left|]. split; [reflexivity|]. split; [reflexivity|].
  intros Hp HB. unfold within_budget.
  cbn [line_quantity line_cost_twd line_price_twd].
  destruct (shares_within_budget _ _ Hp HB) as (Hq & H0 & Hc0 & HcB).
  repeat split; try assumption; try reflexivity.
Qed.

Lemma category_loop_lines (per : Q) (cands : list Candidate)
    (portfolio portfolio' : list Line) :
  for_each (category_step now fetcher usd_twd per) cands portfolio = Ok portfolio' ->
  exists new : list Line,
    portfolio' = portfolio ++ new /\ Forall (category_line cands per) new.
Proof.
  revert portfolio. induction cands as [|c cands IH]; intros portfolio H.
  - cbn in H. injection H as <-. exists []. split; [now rewrite app_nil_r|constructor].
  - cbn [for_each] in H.
    destruct (category_step now fetcher usd_twd per portfolio c) as [p1|e] eqn:E;
      [|discriminate].
    cbn [mbind result_bind] in H.
    destruct (IH _ H) as (new & -> & Hall).
    assert (Htail : Forall (category_line (c :: cands) per) new).
    { eapply Forall_impl; [exact Hall|]. intros l Hl.
      eapply category_line_weaken; [|exact Hl]. intros c' Hc'. now right. }
    destruct (category_step_lines per portfolio p1 c E) as [->|(l & -> & Hl)].
    + exists new. split; [reflexivity|assumption].
    + exists (l :: new). split; [now rewrite <- app_assoc|].
      constructor; [|assumption].
      eapply category_line_weaken; [|exact Hl].
      intros c' [->|[]]. now left.
Qed.

Lemma process_category_lines (cands : list Candidate) (available : Q)
    (portfolio portfolio' : list Line) :
  process_category now fetcher usd_twd cands available portfolio = Ok portfolio' ->
  exists new : list Line,
    portfolio' = portfolio ++ new
    /\ Forall (category_line cands
                 (available / inject_Z (Z.of_nat (length cands)))) new.
Proof.
  unfold process_category.
  destruct cands as [|c cands].
  { intros H. injection H as <-. exists []. split; [now rewrite app_nil_r|constructor]. }
  destruct (Qle_bool available 0).
  { intros H. injection H as <-. exists []. split; [now rewrite app_nil_r|constructor]. }
  apply category_loop_lines.
Qed.

Lemma of_type_spec (t : string) (c : Candidate) :
  In c (of_type t) -> In c candidates /\ cand_type c = t.
Proof.
  unfold of_type. rewrite filter_In. intros [Hin Ht].
  split; [assumption|]. now apply String.eqb_eq.
Qed.

(** Every line of the category pass is made for a static candidate,
    with an even share of its category's budget. *)
Lemma category_pass_lines (weights : gmap string Q) (remaining : Q)
    (portfolio portfolio' : list Line) :
  category_pass now fetcher usd_twd weights remaining portfolio = Ok portfolio' ->
  exists new : list Line,
    portfolio' = portfolio ++ new
    /\ Forall (fun l =>
                 exists t : string,
                   category_line (of_type t)
                     (remaining * default 0%Q (weights !! t)
                      / inject_Z (Z.of_nat (length (of_type t)))) l)
              new.
Proof.
  unfold category_pass.
  destruct (Qltb 0 remaining).
  2:{ intros H. injection H as <-. exists []. split; [now rewrite app_nil_r|constructor]. }
  destruct (process_category now fetcher usd_twd (of_type "Stock") _ portfolio)
    as [p1|e] eqn:E1; [|discriminate].
  cbn [mbind result_bind].
  destruct (process_category now fetcher usd_twd (of_type "ETF") _ p1)
    as [p2|e] eqn:E2; [|discriminate].
  cbn [mbind result_bind]. intros E3.
  apply process_category_lines in E1 as (n1 & -> & H1).
  apply process_category_lines in E2 as (n2 & -> & H2).
  apply process_category_lines in E3 as (n3 & -> & H3).
  exists (n1 ++ n2 ++ n3). split; [now rewrite <- !app_assoc|].
  rewrite !Forall_app. repeat split.
  - eapply Forall_impl; [exact H1|]. intros l Hl. now exists "Stock".
  - eapply Forall_impl; [exact H2|]. intros l Hl. now exists "ETF".
  - eapply Forall_impl; [exact H3|]. intros l Hl. now exists "Bond".
Qed.

End CategoryPass.

Section PortfolioClaims.

Import PortfolioCalculator Design.

(** A build whose custom list holds a request without a price raises. *)
Lemma custom_pass_raises_build (now : Z) (total_capital monthly_income_goal : Q)
    (fetcher : Fetcher) (weights : gmap string Q) (customs : list Custom) :
  (exists custom : Custom,
     In custom customs
     /\ truthy (get_stock_price fetcher (custom_symbol custom)) = false) ->
  calculate_portfolio now total_capital monthly_income_goal fetcher weights customs
  = Raise (NameError "logging").
Proof.
  intros H. unfold calculate_portfolio.
  rewrite (custom_pass_raises now fetcher total_capital _ customs _ H).
  reflexivity.
Qed.

(** C1. The design document asks that a custom request without a
    price be skipped and that no exception escape; the code instead
    raises: for every input whose custom list holds a request whose
    price fetch returns unavailable, [calculate_portfolio] ends with
    [NameError] on [logging], the name line 120 uses and the module
    never imports. *)
Theorem unpriced_custom_request_raises (now : Z) (total_capital monthly_income_goal : Q)
    (fetcher : Fetcher) (weights : gmap string Q) (customs : list Custom) :
  (exists custom : Custom,
     In custom customs
     /\ truthy (get_stock_price fetcher (custom_symbol custom)) = false) ->
  calculate_portfolio now total_capital monthly_income_goal fetcher weights customs
  = Raise (NameError "logging").
Proof.
  apply custom_pass_raises_build.
Qed.

Lemma unpriced_custom_request_raises_witness :
  calculate_portfolio 0 1000 0 Examples.two_quotes Examples.half_stock_half_etf
                      [Examples.unknown_request]
  = Raise (NameError "logging").
Proof.
  apply unpriced_custom_request_raises.
  exists Examples.unknown_request. split; [now left | reflexivity].
Defined.

(** C4. The same defect reaches [generate_scenarios]: when the custom
    list holds a request without a price, the first of its three builds
    raises and no mapping is returned. *)
Theorem scenarios_raise_on_unpriced_request (now : Z)
    (total_capital monthly_income_goal : Q)
    (fetcher : Fetcher) (user_weights : gmap string Q) (customs : list Custom) :
  (exists custom : Custom,
     In custom customs
     /\ truthy (get_stock_price fetcher (custom_symbol custom)) = false) ->
  generate_scenarios now total_capital monthly_income_goal fetcher user_weights customs
  = Raise (NameError "logging").
Proof.
  intros H. unfold generate_scenarios.
  rewrite (custom_pass_raises_build now total_capital monthly_income_goal
             fetcher user_weights customs H).
  reflexivity.
Qed.

Lemma scenarios_raise_on_unpriced_request_witness :
  generate_scenarios 0 1000 0 Examples.two_quotes Examples.half_stock_half_etf
                     [Examples.unknown_request]
  = Raise (NameError "logging").
Proof.
  apply scenarios_raise_on_unpriced_request.
  exists Examples.unknown_request. split; [now left | reflexivity].
Defined.

End PortfolioClaims.

Section SliceBudgets.

Import PortfolioCalculator Design.

(** The three stages of a build that returns. *)
Lemma calculate_portfolio_stages (now : Z) (total_capital monthly_income_goal : Q)
    (fetcher : Fetcher) (weights : gmap string Q) (customs : list Custom)
    (pf : Portfolio) :
  calculate_portfolio now total_capital monthly_income_goal fetcher weights customs
  = Ok pf ->
  exists (custom_lines : list Line) (remaining : Q),
    for_each (custom_step now fetcher total_capital (get_exchange_rate fetcher))
             customs ([], total_capital)
    = Ok (custom_lines, remaining)
    /\ category_pass now fetcher (get_exchange_rate fetcher) weights remaining
                     custom_lines
       = Ok (portfolio_lines pf)
    /\ reconstruct_history fetcher (get_exchange_rate fetcher) (portfolio_lines pf)
       = Ok (total_history pf).
Proof.
  unfold calculate_portfolio. cbv zeta.
  destruct (for_each _ customs _) as [[custom_lines remaining]|e] eqn:E1;
    [|discriminate].
  cbn [mbind result_bind].
  destruct (category_pass _ _ _ _ _ _) as [lines|e] eqn:E2; [|discriminate].
  cbn [mbind result_bind].
  destruct (reconstruct_history _ _ _) as [history|e] eqn:E3; [|discriminate].
  cbn [mbind result_bind]. intros H. injection H as <-.
  exists custom_lines, remaining. cbn [portfolio_lines total_history].
  repeat split; assumption.
Qed.



End SliceBudgets.

Section Scenarios.

Import PortfolioCalculator Design.

Lemma candidates_not_custom (c : Candidate) :
  In c candidates -> cand_type c <> "Custom".
Proof.
  cbn [candidates In]. intros H.
  repeat (destruct H as [<-|H]; [discriminate|]). destruct H.
Qed.

(** A build without custom requests has no custom line. *)
Lemma no_custom_line_without_requests (now : Z) (total_capital monthly_income_goal : Q)
    (fetcher : Fetcher) (weights : gmap string Q) (pf : Portfolio) :
  calculate_portfolio now total_capital monthly_income_goal fetcher weights [] = Ok pf ->
  Forall (fun l => line_type l <> "Custom") (portfolio_lines pf).
Proof.
  intros Hpf.
  destruct (calculate_portfolio_stages _ _ _ _ _ _ _ Hpf)
    as (custom_lines & remaining & Hc & Hcat & _).
  cbn in Hc. injection Hc as <- <-.
  apply category_pass_lines in Hcat as (new & -> & Hall). cbn [app].
  eapply Forall_impl; [exact Hall|].
  intros l (t & c & Hin & _ & Hty & _).
  apply of_type_spec in Hin as [Hin _].
  rewrite <- Hty. now apply candidates_not_custom.
Qed.

Lemma fixed_weights :
  conservative_weights !! "Stock" = Some 0.2%Q
  /\ conservative_weights !! "ETF" = Some 0.4%Q
  /\ conservative_weights !! "Bond" = Some 0.4%Q
  /\ aggressive_weights !! "Stock" = Some 0.6%Q
  /\ aggressive_weights !! "ETF" = Some 0.4%Q
  /\ aggressive_weights !! "Bond" = Some 0.0%Q.
Proof. repeat split. Qed.

(** Whenever [generate_scenarios] returns, it returns the three
    scenarios of the design document: the mapping has exactly the keys
    Custom, Conservative and Aggressive; Custom is the build on the
    caller's weights and custom list, the other two are the builds on
    the fixed weights with no custom list, and hold no custom line. *)
Lemma generate_scenarios_shape (now : Z) (total_capital monthly_income_goal : Q)
    (fetcher : Fetcher) (user_weights : gmap string Q) (customs : list Custom)
    (scenarios : gmap string Portfolio) :
  generate_scenarios now total_capital monthly_income_goal fetcher user_weights customs
  = Ok scenarios ->
  dom scenarios = ({[ "Custom"; "Conservative"; "Aggressive" ]} : gset string)
  /\ (exists pf : Portfolio,
        scenarios !! "Custom" = Some pf
        /\ calculate_portfolio now total_capital monthly_income_goal fetcher
                               user_weights customs = Ok pf)
  /\ (exists pf : Portfolio,
        scenarios !! "Conservative" = Some pf
        /\ calculate_portfolio now total_capital monthly_income_goal fetcher
                               conservative_weights [] = Ok pf
        /\ Forall (fun l => line_type l <> "Custom") (portfolio_lines pf))
  /\ (exists pf : Portfolio,
        scenarios !! "Aggressive" = Some pf
        /\ calculate_portfolio now total_capital monthly_income_goal fetcher
                               aggressive_weights [] = Ok pf
        /\ Forall (fun l => line_type l <> "Custom") (portfolio_lines pf)).
Proof.
  unfold generate_scenarios.
  destruct (calculate_portfolio _ _ _ _ user_weights customs) as [p1|e] eqn:E1;
    [|discriminate].
  cbn [mbind result_bind].
  destruct (calculate_portfolio _ _ _ _ conservative_weights []) as [p2|e] eqn:E2;
    [|discriminate].
  cbn [mbind result_bind].
  destruct (calculate_portfolio _ _ _ _ aggressive_weights []) as [p3|e] eqn:E3;
    [|discriminate].
  cbn [mbind result_bind]. intros H. injection H as <-.
  split; [|split; [|split]].
  - rewrite !dom_insert_L, dom_singleton_L. set_solver.
  - exists p1. split; reflexivity.
  - exists p2. split; [reflexivity|]. split; [reflexivity|].
    eapply no_custom_line_without_requests; eassumption.
  - exists p3. split; [reflexivity|]. split; [reflexivity|].
    eapply no_custom_line_without_requests; eassumption.
Qed.

End Scenarios.

(** ** The backtest *)

Section Backtest.

Import PortfolioCalculator Design.

Variables (fetcher : Fetcher) (usd_twd : Q).

Let step := history_step fetcher usd_twd.
Let six_months (l : Line) : DataFrame :=
  get_historical_data fetcher (line_symbol l) "6mo".

Lemma for_each_app {A S : Type} (body : S -> A -> result S) (xs ys : list A) (s : S) :
  for_each body (xs ++ ys) s = (s' ← for_each body xs s; for_each body ys s').
Proof.
  revert s. induction xs as [|x xs IH]; intros s.
  - reflexivity.
  - cbn [app for_each]. destruct (body s x) as [s1|e]; [|reflexivity].
    cbn [mbind result_bind]. apply IH.
Qed.

Lemma insert_date_nonempty (d : Z) (index : list Z) : insert_date d index <> [].
Proof.
  destruct index as [|x rest]; cbn; [discriminate|].
  destruct (d <? x)%Z; [discriminate|]. destruct (d =? x)%Z; discriminate.
Qed.

Lemma index_union_nonempty (left right : list Z) :
  left <> [] -> index_union left right <> [].
Proof.
  unfold index_union. revert left.
  induction right as [|d right IH]; intros left H; [exact H|].
  cbn [fold_left]. apply IH, insert_date_nonempty.
Qed.

Lemma has_symbol_seen (f : Frame) (symbol : string) :
  has_symbol f symbol = existsb (String.eqb symbol) (map fst (frame_columns f)).
Proof.
  unfold has_symbol. induction (frame_columns f) as [|col cols IH]; [reflexivity|].
  cbn [existsb map]. now rewrite IH.
Qed.

(** What one line does to the frame when its step returns. *)
Lemma history_step_ok (f f' : Frame) (item : Line) :
  step f item = Ok f' ->
  (df_empty (six_months item) = true /\ f' = f)
  \/ (df_empty (six_months item) = false
      /\ has_column (six_months item) Close = true
      /\ f' = if frame_empty f then
                {| frame_index := map fst (snd (value_column fetcher usd_twd item));
                   frame_columns := [value_column fetcher usd_twd item] |}
              else if negb (has_symbol f (line_symbol item)) then
                join_outer f (line_symbol item)
                           (snd (value_column fetcher usd_twd item))
              else f).
Proof.
  unfold step, history_step. fold (six_months item).
  destruct (df_empty (six_months item)) eqn:E; cbn [negb].
  { intros H. injection H as <-. now left. }
  unfold get_column. destruct (has_column (six_months item) Close) eqn:C;
    [|discriminate].
  cbn [mbind result_bind]. intros H. right. split; [reflexivity|]. split; [reflexivity|].
  unfold value_column, close_series. fold (six_months item). cbn [snd].
  revert H. destruct (frame_empty f).
  - intros H. injection H as <-. reflexivity.
  - destruct (negb (has_symbol f (line_symbol item)));
      intros H; injection H as <-; reflexivity.
Qed.

Lemma value_column_rows (item : Line) :
  df_empty (six_months item) = false ->
  map fst (snd (value_column fetcher usd_twd item)) <> [].
Proof.
  unfold value_column, close_series, df_empty. fold (six_months item). cbn [snd].
  destruct (df_rows (six_months item)); [discriminate|].
  intros _. destruct (is_us (line_symbol item)); discriminate.
Qed.

Lemma frame_not_empty (f : Frame) :
  frame_index f <> [] -> frame_columns f <> [] -> frame_empty f = false.
Proof.
  unfold frame_empty. destruct (frame_index f); [congruence|].
  destruct (frame_columns f); [congruence|reflexivity].
Qed.

(** Once a line with a history has been met, the frame has rows. *)
Lemma history_step_rows (f f' : Frame) (item : Line) :
  step f item = Ok f' ->
  df_empty (six_months item) = false ->
  frame_empty f' = false.
Proof.
  intros H E. apply history_step_ok in H as [[E' _]|(_ & _ & ->)]; [congruence|].
  destruct (frame_empty f) eqn:Ef.
  - apply frame_not_empty; cbn; [now apply value_column_rows|discriminate].
  - destruct (negb (has_symbol f (line_symbol item))); [|assumption].
    apply frame_not_empty; cbn.
    + apply index_union_nonempty. intros Hi.
      unfold frame_empty in Ef. rewrite Hi in Ef. discriminate.
    + intros Hc. now apply app_eq_nil in Hc as [_ ?].
Qed.

Lemma history_step_settled (f f' : Frame) (item : Line) :
  settled f -> step f item = Ok f' -> settled f'.
Proof.
  intros Hs H.
  destruct (df_empty (six_months item)) eqn:E.
  - apply history_step_ok in H as [[_ ->]|(E' & _)]; [assumption|congruence].
  - intros He. rewrite (history_step_rows f f' item H E) in He. discriminate.
Qed.

(** The columns of the frame: one per first bearer, in order. *)
Lemma frame_columns_first_bearers (portfolio : list Line) (f f' : Frame) :
  settled f ->
  for_each step portfolio f = Ok f' ->
  frame_columns f'
  = frame_columns f
    ++ map (value_column fetcher usd_twd)
           (first_bearers fetcher (map fst (frame_columns f)) portfolio).
Proof.
  revert f. induction portfolio as [|item rest IH]; intros f Hs H.
  - cbn in H. injection H as <-. cbn. now rewrite app_nil_r.
  - cbn [for_each] in H. destruct (step f item) as [f1|e] eqn:E1; [|discriminate].
    cbn [mbind result_bind] in H.
    pose proof (history_step_settled f f1 item Hs E1) as Hs1.
    rewrite (IH f1 Hs1 H). cbn [first_bearers]. fold (six_months item).
    apply history_step_ok in E1 as [[E ->]|(E & _ & ->)]; rewrite E; [reflexivity|].
    rewrite <- has_symbol_seen.
    destruct (frame_empty f) eqn:Ef.
    + rewrite has_symbol_seen, (Hs Ef). cbn. reflexivity.
    + destruct (has_symbol f (line_symbol item)) eqn:Eh; cbn [negb]; [reflexivity|].
      cbn [join_outer frame_columns map].
      rewrite map_app, <- app_assoc. reflexivity.
Qed.

(** First bearers carry pairwise distinct symbols, none seen before. *)
Lemma first_bearers_fresh (portfolio : list Line) (seen : list string) :
  NoDup (map line_symbol (first_bearers fetcher seen portfolio))
  /\ forall s : string,
       In s (map line_symbol (first_bearers fetcher seen portfolio)) -> ~ In s seen.
Proof.
  revert seen. induction portfolio as [|item rest IH]; intros seen.
  - cbn. split; [constructor|intros s []].
  - cbn [first_bearers]. fold (six_months item).
    destruct (df_empty (six_months item)); [apply IH|].
    destruct (existsb (String.eqb (line_symbol item)) seen) eqn:E; [apply IH|].
    destruct (IH (seen ++ [line_symbol item])) as [Hnd Hfresh].
    cbn [map]. split.
    + apply NoDup_cons. split; [|assumption].
      rewrite list_elem_of_In.
      intros Hin. apply (Hfresh _ Hin). apply List.in_app_iff. right. now left.
    + intros s [<-|Hin].
      * intros Hin. assert (existsb (String.eqb (line_symbol item)) seen = true).
        { apply existsb_exists. exists (line_symbol item).
          split; [assumption|apply String.eqb_refl]. }
        congruence.
      * intros Hs. apply (Hfresh _ Hin). apply List.in_app_iff. now left.
Qed.

Lemma value_column_symbol (item : Line) :
  fst (value_column fetcher usd_twd item) = line_symbol item.
Proof. reflexivity. Qed.

(** A line with a history leaves its symbol among the columns. *)
Lemma history_step_records (f f' : Frame) (item : Line) :
  step f item = Ok f' ->
  df_empty (six_months item) = false ->
  has_symbol f' (line_symbol item) = true.
Proof.
  intros H E. apply history_step_ok in H as [[E' _]|(_ & _ & ->)]; [congruence|].
  destruct (frame_empty f).
  - unfold has_symbol. cbn. now rewrite String.eqb_refl.
  - destruct (has_symbol f (line_symbol item)) eqn:Eh; cbn [negb]; [assumption|].
    unfold has_symbol, join_outer. cbn [frame_columns].
    rewrite existsb_app. cbn. rewrite String.eqb_refl. apply orb_true_r.
Qed.

(** Columns are never dropped, and a frame with rows keeps them. *)
Lemma history_step_keeps (f f' : Frame) (item : Line) (symbol : string) :
  step f item = Ok f' ->
  has_symbol f symbol = true -> frame_empty f = false ->
  has_symbol f' symbol = true /\ frame_empty f' = false.
Proof.
  intros H Hs He. apply history_step_ok in H as [[_ ->]|(E & _ & ->)];
    [now split|].
  rewrite He. destruct (negb (has_symbol f (line_symbol item))); [|now split].
  split.
  - unfold has_symbol, join_outer. cbn [frame_columns].
    rewrite existsb_app. unfold has_symbol in Hs. now rewrite Hs.
  - apply frame_not_empty; cbn.
    + apply index_union_nonempty. intros Hi.
      unfold frame_empty in He. rewrite Hi in He. discriminate.
    + intros Hc. now apply app_eq_nil in Hc as [_ ?].
Qed.

Lemma history_loop_keeps (portfolio : list Line) (f f' : Frame) (symbol : string) :
  for_each step portfolio f = Ok f' ->
  has_symbol f symbol = true -> frame_empty f = false ->
  has_symbol f' symbol = true /\ frame_empty f' = false.
Proof.
  revert f. induction portfolio as [|item rest IH]; intros f H Hs He.
  - cbn in H. injection H as <-. now split.
  - cbn [for_each] in H. destruct (step f item) as [f1|e] eqn:E1; [|discriminate].
    cbn [mbind result_bind] in H.
    destruct (history_step_keeps f f1 item symbol E1 Hs He) as [Hs1 He1].
    now apply (IH f1).
Qed.

(** A later line with the symbol of an earlier one leaves the frame
    as it is. *)
Lemma later_bearer_ignored (x y : Line) (mid : list Line) (f0 f1 f2 : Frame) :
  line_symbol y = line_symbol x ->
  step f0 x = Ok f1 ->
  for_each step mid f1 = Ok f2 ->
  step f2 y = Ok f2.
Proof.
  intros Hsym Hx Hmid.
  assert (Hh : six_months y = six_months x) by (unfold six_months; now rewrite Hsym).
  unfold step, history_step. fold (six_months y). rewrite Hh.
  destruct (df_empty (six_months x)) eqn:E; [reflexivity|]. cbn [negb].
  pose proof (history_step_records f0 f1 x Hx E) as Hs.
  pose proof (history_step_rows f0 f1 x Hx E) as He.
  destruct (history_loop_keeps mid f1 f2 (line_symbol x) Hmid Hs He) as [Hs2 He2].
  apply history_step_ok in Hx as [[E' _]|(_ & C & _)]; [congruence|].
  unfold get_column. rewrite C. cbn [mbind result_bind].
  rewrite He2, Hsym, Hs2. reflexivity.
Qed.

Lemma history_loop_without_later_bearer (pre mid post : list Line) (x y : Line)
    (f : Frame) :
  line_symbol y = line_symbol x ->
  for_each step (pre ++ x :: mid ++ y :: post) f
  = for_each step (pre ++ x :: mid ++ post) f.
Proof.
  intros Hsym.
  rewrite !for_each_app.
  destruct (for_each step pre f) as [f0|e]; [|reflexivity].
  cbn [mbind result_bind for_each].
  destruct (step f0 x) as [f1|e] eqn:Ex; [|reflexivity].
  cbn [mbind result_bind]. rewrite !for_each_app.
  destruct (for_each step mid f1) as [f2|e] eqn:Em; [|reflexivity].
  cbn [mbind result_bind for_each].
  rewrite (later_bearer_ignored x y mid f0 f1 f2 Hsym Ex Em). reflexivity.
Qed.

Lemma first_bearers_without_later_bearer (pre mid post : list Line) (x y : Line)
    (seen : list string) :
  line_symbol y = line_symbol x ->
  first_bearers fetcher seen (pre ++ x :: mid ++ y :: post)
  = first_bearers fetcher seen (pre ++ x :: mid ++ post).
Proof.
  intros Hsym. revert seen. induction pre as [|p pre IH]; intros seen.
  - cbn [app first_bearers]. fold (six_months x).
    assert (Hmid : forall seen' : list string,
               (df_empty (six_months x) = true
                \/ existsb (String.eqb (line_symbol x)) seen' = true) ->
               first_bearers fetcher seen' (mid ++ y :: post)
               = first_bearers fetcher seen' (mid ++ post)).
    { induction mid as [|m mid IHm]; intros seen' Hx.
      - cbn [app first_bearers]. rewrite Hsym. fold (six_months x).
        destruct (df_empty (six_months x)); [reflexivity|].
        destruct Hx as [Hx|Hx]; [discriminate|]. now rewrite Hx.
      - cbn [app first_bearers].
        destruct (df_empty (get_historical_data fetcher (line_symbol m) "6mo"));
          [now apply IHm|].
        destruct (existsb (String.eqb (line_symbol m)) seen'); [now apply IHm|].
        f_equal. apply IHm. destruct Hx as [Hx|Hx]; [now left|right].
        rewrite existsb_app, Hx. reflexivity. }
    destruct (df_empty (six_months x)) eqn:E; [apply Hmid; now left|].
    destruct (existsb (String.eqb (line_symbol x)) seen) eqn:Es;
      [apply Hmid; now right|].
    f_equal. apply Hmid. right.
    rewrite existsb_app. cbn. rewrite String.eqb_refl. apply orb_true_r.
  - cbn [app first_bearers].
    destruct (df_empty _); [apply IH|].
    destruct (existsb _ seen); [apply IH|]. f_equal. apply IH.
Qed.

End Backtest.

Section AggregateHistory.

Import PortfolioCalculator Design.

Lemma ffill_from_defined (last : option Q) (s : list (Z * option Q)) :
  Forall (fun p => snd p <> None) s -> ffill_from last s = s.
Proof.
  revert last. induction s as [|[d v] s IH]; intros last H; [reflexivity|].
  apply Forall_cons in H as [Hv Hs]. cbn [ffill_from].
  destruct v as [v|]; [|now cbn in Hv]. now rewrite IH.
Qed.

(** After the row sums no cell is a NaN, so the fills of line 266
    change nothing. *)
Lemma fill_after_sum_changes_nothing (s : list (Z * option Q)) :
  Forall (fun p => snd p <> None) s -> bfill (ffill s) = s.
Proof.
  intros H. unfold bfill, ffill.
  rewrite (ffill_from_defined None s H).
  rewrite ffill_from_defined; [apply rev_involutive|].
  now apply List.Forall_rev.
Qed.

(** The aggregate at a date is the sum of the cells that hold a
    number; a symbol without a close on that date adds nothing. *)
Lemma total_value_row_sums (f : Frame) :
  total_value f
  = if frame_empty f then []
    else map (fun d => (d, Some (row_sum (frame_columns f) d))) (frame_index f).
Proof.
  unfold total_value. destruct (frame_empty f); [reflexivity|]. cbn [negb].
  apply fill_after_sum_changes_nothing.
  induction (frame_index f) as [|d index IH]; constructor; [discriminate|assumption].
Qed.

(** C3. The design document has every symbol's missing dates filled
    forward, then backward, before the sum; the code sums first, which
    skips the missing cells, and fills afterwards, when nothing is
    missing any more.  With 2 shares of 2330.TW (closes of 100 on days 1
    and 2) and 3 shares of 0050.TW (a close of 50 on day 1 only) the
    aggregate on day 2 is 200, without 0050.TW, where the design
    document gives 350. *)
Theorem aggregate_skips_missing_dates :
  exists (pf : Portfolio) (f : Frame),
    calculate_portfolio 0 1000 0 Examples.two_quotes Examples.half_stock_half_etf []
    = Ok pf
    /\ map (fun l => (line_symbol l, line_quantity l)) (portfolio_lines pf)
       = [("2330.TW", 2%Z); ("0050.TW", 3%Z)]
    /\ for_each (history_step Examples.two_quotes (exchange_rate pf))
                (portfolio_lines pf) empty_frame = Ok f
    /\ frame_index f = [1%Z; 2%Z]
    /\ total_history pf = [(1%Z, Some 350%Q); (2%Z, Some 200%Q)]
    /\ design_total_value f = [(1%Z, Some 350%Q); (2%Z, Some 350%Q)].
Proof.
  eexists. eexists. split; [vm_compute; reflexivity|].
  cbn [portfolio_lines exchange_rate total_history].
  split; [reflexivity|]. split; [vm_compute; reflexivity|].
  repeat split.
Qed.

(** C10. When a later line bears the symbol of an earlier one, the
    backtest is the backtest of the portfolio without the later line;
    the frame has one column per symbol, that of the first line bearing
    it, scaled by that line's quantity, and every value of the aggregate
    history is the row sum of those columns. *)
Theorem later_bearer_adds_nothing (fetcher : Fetcher) (usd_twd : Q)
    (pre mid post : list Line) (x y : Line) :
  line_symbol y = line_symbol x ->
  reconstruct_history fetcher usd_twd (pre ++ x :: mid ++ y :: post)
  = reconstruct_history fetcher usd_twd (pre ++ x :: mid ++ post)
  /\ first_bearers fetcher [] (pre ++ x :: mid ++ y :: post)
     = first_bearers fetcher [] (pre ++ x :: mid ++ post)
  /\ NoDup (map line_symbol (first_bearers fetcher [] (pre ++ x :: mid ++ y :: post)))
  /\ forall history : list (Z * option Q),
       reconstruct_history fetcher usd_twd (pre ++ x :: mid ++ y :: post) = Ok history ->
       exists f : Frame,
         for_each (history_step fetcher usd_twd) (pre ++ x :: mid ++ y :: post)
                  empty_frame = Ok f
         /\ frame_columns f
            = map (value_column fetcher usd_twd)
                  (first_bearers fetcher [] (pre ++ x :: mid ++ y :: post))
         /\ forall (d : Z) (v : option Q),
              In (d, v) history -> v = Some (row_sum (frame_columns f) d).
Proof.
  intros Hsym. split; [|split; [|split]].
  - unfold reconstruct_history.
    now rewrite (history_loop_without_later_bearer fetcher usd_twd pre mid post x y).
  - now apply first_bearers_without_later_bearer.
  - apply first_bearers_fresh.
  - intros history. unfold reconstruct_history.
    destruct (for_each _ _ empty_frame) as [f|e] eqn:E; [|discriminate].
    cbn [mbind result_bind]. intros H. injection H as <-.
    exists f. split; [reflexivity|]. split.
    + apply (frame_columns_first_bearers fetcher usd_twd _ empty_frame f);
        [intros _; reflexivity|exact E].
    + intros d v. rewrite total_value_row_sums.
      destruct (frame_empty f); [intros []|].
      rewrite in_map_iff. intros (d' & Hd & _). now injection Hd as <- <-.
Qed.

Lemma later_bearer_adds_nothing_witness :
  reconstruct_history Examples.two_quotes 32.5
    [Examples.holding "2330.TW" 1; Examples.holding "0050.TW" 3;
     Examples.holding "2330.TW" 2]
  = Ok [(1%Z, Some 250%Q); (2%Z, Some 100%Q)]
  /\ reconstruct_history Examples.two_quotes 32.5
       [Examples.holding "2330.TW" 1; Examples.holding "0050.TW" 3]
     = Ok [(1%Z, Some 250%Q); (2%Z, Some 100%Q)].
Proof.
  destruct (later_bearer_adds_nothing Examples.two_quotes 32.5
              [] [Examples.holding "0050.TW" 3] []
              (Examples.holding "2330.TW" 1) (Examples.holding "2330.TW" 2)
              eq_refl) as (H & _).
  cbn [app] in H. split; [rewrite H|]; vm_compute; reflexivity.
Defined.

End AggregateHistory.

Section AggregateDates.

Import PortfolioCalculator Design.

Variables (fetcher : Fetcher) (usd_twd : Q).

Lemma insert_date_In (d x : Z) (index : list Z) :
  In x (insert_date d index) <-> x = d \/ In x index.
Proof.
  induction index as [|a index IH]; cbn [insert_date].
  - cbn. intuition.
  - destruct (Z.ltb_spec d a); [cbn; intuition|].
    destruct (Z.eqb_spec d a) as [->|Hne]; [cbn; intuition|].
    cbn [In]. rewrite IH. intuition.
Qed.

Lemma index_union_In (x : Z) (left right : list Z) :
  In x (index_union left right) <-> In x left \/ In x right.
Proof.
  unfold index_union. revert left.
  induction right as [|d right IH]; intros left; cbn [fold_left].
  - cbn. intuition.
  - rewrite IH, insert_date_In. cbn [In]. intuition.
Qed.

Lemma history_step_dated (f f' : Frame) (item : Line) :
  dated f -> history_step fetcher usd_twd f item = Ok f' -> dated f'.
Proof.
  intros Hd H. apply history_step_ok in H as [[_ ->]|(_ & _ & ->)]; [assumption|].
  destruct (frame_empty f).
  - intros d. cbn [frame_index frame_columns]. split.
    + intros Hin. eexists. split; [now left|assumption].
    + intros (col & [<-|[]] & Hin). assumption.
  - destruct (negb (has_symbol f (line_symbol item))); [|assumption].
    intros d. cbn [join_outer frame_index frame_columns].
    rewrite index_union_In, (Hd d). split.
    + intros [(col & Hc & Hin)|Hin].
      * exists col. split; [apply List.in_app_iff; now left|assumption].
      * eexists. split; [apply List.in_app_iff; right; now left|assumption].
    + intros (col & Hc & Hin). apply List.in_app_iff in Hc as [Hc|[<-|[]]].
      * left. now exists col.
      * now right.
Qed.

Lemma history_loop_dated (portfolio : list Line) (f f' : Frame) :
  dated f -> settled f ->
  for_each (history_step fetcher usd_twd) portfolio f = Ok f' ->
  dated f' /\ settled f'.
Proof.
  revert f. induction portfolio as [|item rest IH]; intros f Hd Hs H.
  - cbn in H. injection H as <-. now split.
  - cbn [for_each] in H.
    destruct (history_step fetcher usd_twd f item) as [f1|e] eqn:E1; [|discriminate].
    cbn [mbind result_bind] in H. apply (IH f1); [| |assumption].
    + now apply (history_step_dated f f1 item).
    + now apply (history_step_settled fetcher usd_twd f f1 item).
Qed.

Lemma total_value_dates (f : Frame) :
  dated f -> settled f -> map fst (total_value f) = frame_index f.
Proof.
  intros Hd Hs. rewrite total_value_row_sums.
  destruct (frame_empty f) eqn:E.
  - destruct (frame_index f) as [|d index] eqn:Ei; [reflexivity|].
    exfalso. destruct (proj1 (Hd d)) as (col & Hc & _); [rewrite Ei; now left|].
    rewrite (Hs E) in Hc. destruct Hc.
  - rewrite map_map. cbn [fst]. apply map_id.
Qed.

(** The aggregate history is defined exactly at the dates at which
    some column of the frame has a close: the union of the per-symbol
    dates. *)
Lemma aggregate_dates_are_the_union (portfolio : list Line)
    (history : list (Z * option Q)) (d : Z) :
  reconstruct_history fetcher usd_twd portfolio = Ok history ->
  In d (map fst history)
  <-> exists l : Line,
        In l (first_bearers fetcher [] portfolio)
        /\ In d (map fst (snd (value_column fetcher usd_twd l))).
Proof.
  unfold reconstruct_history.
  destruct (for_each _ portfolio empty_frame) as [f|e] eqn:E; [|discriminate].
  cbn [mbind result_bind]. intros H. injection H as <-.
  assert (Hd0 : dated empty_frame).
  { intros d'. cbn. split; [intros []|intros (col & [] & _)]. }
  assert (Hs0 : settled empty_frame) by (intros _; reflexivity).
  destruct (history_loop_dated portfolio empty_frame f Hd0 Hs0 E) as [Hd Hs].
  rewrite (total_value_dates f Hd Hs), (Hd d).
  rewrite (frame_columns_first_bearers fetcher usd_twd portfolio empty_frame f Hs0 E).
  cbn [frame_columns empty_frame app map]. split.
  - intros (col & Hc & Hin). apply in_map_iff in Hc as (l & <- & Hl). now exists l.
  - intros (l & Hl & Hin). eexists. split; [|exact Hin]. now apply in_map.
Qed.

(** Without any history the aggregate history is empty. *)
Lemma no_history_no_aggregate (portfolio : list Line) :
  Forall (fun l => df_empty (get_historical_data fetcher (line_symbol l) "6mo") = true)
         portfolio ->
  reconstruct_history fetcher usd_twd portfolio = Ok [].
Proof.
  intros H. unfold reconstruct_history.
  assert (E : for_each (history_step fetcher usd_twd) portfolio empty_frame
              = Ok empty_frame).
  { induction H as [|l rest Hl _ IH]; [reflexivity|].
    assert (Es : history_step fetcher usd_twd empty_frame l = Ok empty_frame).
    { unfold history_step. cbv zeta. now rewrite Hl. }
    cbn [for_each]. rewrite Es. exact IH. }
  rewrite E. reflexivity.
Qed.

End AggregateDates.

(** ** Dividend-yield resolution *)

Section YieldResolution.

Import DataFetcher Design.

Lemma fetcher_lacks_timedelta :
  global_name module_globals "timedelta" = Raise (NameError "timedelta").
Proof. reflexivity. Qed.

(** Line 95 looks up [timedelta], which [data_fetcher.py] never
    binds: the body of the inner [try] cannot reach line 105. *)
Lemma history_yield_never_computes (now : Z) (ticker : Ticker) (i : TickerInfo) (y : Q) :
  history_yield now ticker i <> Ok (Some y).
Proof.
  unfold history_yield.
  destruct (dividends ticker) as [[|ev history]|e]; cbn [mbind result_bind].
  - discriminate.
  - change (global_name module_globals "pd") with (Ok tt).
    cbn [mbind result_bind]. rewrite fetcher_lacks_timedelta. discriminate.
  - discriminate.
Qed.

(** The yield of the returned dict is the one the outer [try]
    resolves, [0.0] when it raises. *)
Lemma get_dividend_info_yield (now : Z) (strftime : Z -> string)
    (scraped : option string) (ticker : Ticker) (symbol : string) :
  di_yield (get_dividend_info now strftime scraped ticker symbol)
  = try_except (i ← info ticker; resolve_yield now ticker i 0%Q) (fun _ => 0%Q).
Proof.
  unfold get_dividend_info. cbn [di_yield di_date].
  set (r1 := try_except _ _).
  assert (H : di_yield r1
              = try_except (i ← info ticker; resolve_yield now ticker i 0%Q)
                           (fun _ => 0%Q)).
  { subst r1. destruct (info ticker) as [i|e]; [|reflexivity].
    cbn [mbind result_bind].
    destruct (resolve_yield now ticker i 0) as [y|e]; [|reflexivity].
    cbn [mbind result_bind].
    destruct (exDividendDate i) as [ts|]; [|reflexivity].
    destruct (negb (ts =? 0)%Z); reflexivity. }
  destruct (String.eqb (di_date r1) "N/A" && _); [|exact H].
  destruct scraped; [|exact H]. exact H.
Qed.

(** The first source: the published trailing yield, a percentage. *)
Lemma published_yield_first (now : Z) (strftime : Z -> string)
    (scraped : option string) (ticker : Ticker) (symbol : string)
    (i : TickerInfo) (y : Q) :
  info ticker = Ok i -> dividendYield i = Some y ->
  di_yield (get_dividend_info now strftime scraped ticker symbol) = (y / 100)%Q.
Proof.
  intros Hi Hy. rewrite get_dividend_info_yield, Hi. cbn [mbind result_bind].
  unfold resolve_yield. rewrite Hy. reflexivity.
Qed.

(** The second source: the trailing annual rate over the price. *)
Lemma trailing_rate_second (now : Z) (strftime : Z -> string)
    (scraped : option string) (ticker : Ticker) (symbol : string)
    (i : TickerInfo) (rate price : Q) :
  info ticker = Ok i -> dividendYield i = None ->
  trailingAnnualDividendRate i = Some rate ->
  py_or (currentPrice i) (regularMarketPreviousClose i) = Some price ->
  ~ (rate == 0)%Q -> ~ (price == 0)%Q ->
  di_yield (get_dividend_info now strftime scraped ticker symbol) = (rate / price)%Q.
Proof.
  intros Hi Hy Hr Hp Hr0 Hp0. rewrite get_dividend_info_yield, Hi.
  cbn [mbind result_bind]. unfold resolve_yield. cbv zeta. rewrite Hy, Hr, Hp.
  apply Qeq_bool_false in Hr0, Hp0.
  unfold truthy, py_div. cbn [default from_option id]. rewrite Hr0, Hp0. reflexivity.
Qed.

(** C9. The design document has the third source, the dividends of
    the trailing 365 days over the current price, apply when the first
    two are unavailable; in the code that source never applies: whenever
    there is no published yield and no usable rate-and-price pair, the
    returned yield is [0.0], whatever the dividend history and the
    current price. *)
Theorem history_yield_is_lost (now : Z) (strftime : Z -> string)
    (scraped : option string) (ticker : Ticker) (symbol : string) (i : TickerInfo) :
  info ticker = Ok i ->
  dividendYield i = None ->
  truthy (trailingAnnualDividendRate i)
  && truthy (py_or (currentPrice i) (regularMarketPreviousClose i)) = false ->
  di_yield (get_dividend_info now strftime scraped ticker symbol) = 0%Q.
Proof.
  intros Hi Hy Hrp. rewrite get_dividend_info_yield, Hi.
  cbn [mbind result_bind]. unfold resolve_yield. cbv zeta. rewrite Hy, Hrp.
  cbn [try_except].
  pose proof (history_yield_never_computes now ticker i) as Hn.
  destruct (history_yield now ticker i) as [[y|]|e]; cbn; try reflexivity.
  now destruct (Hn y).
Qed.

Lemma history_yield_is_lost_witness :
  di_yield (get_dividend_info 1000 (fun _ => "2024/01/01") None
              Examples.history_only_ticker "AAPL") = 0%Q
  /\ (trailing_year_yield 1000 [(990%Z, 1%Q)] 10 == 1 # 10)%Q.
Proof.
  split.
  - apply (history_yield_is_lost 1000 (fun _ => "2024/01/01") None
             Examples.history_only_ticker "AAPL" _ eq_refl); reflexivity.
  - reflexivity.
Defined.

End YieldResolution.

(** ** More on the DCA projection *)

Section DcaMore.

Import PortfolioCalculator Design.

















End DcaMore.

(** ** More on the dividend-fill analysis *)

Section FillMore.

Import PortfolioCalculator Design.

Lemma lookup_map {A B : Type} (f : A -> B) (l : list A) (i : nat) :
  map f l !! i = f <$> (l !! i).
Proof.
  revert i. induction l as [|x l IH]; intros [|i]; try reflexivity. apply IH.
Qed.

Lemma first_fill_shift (k : nat) (prices : list Q) (pre_close : Q) :
  first_fill (S k) prices pre_close = S <$> first_fill k prices pre_close.
Proof.
  revert k. induction prices as [|p prices IH]; intros k; [reflexivity|].
  cbn [first_fill]. destruct (Qle_bool pre_close p); [reflexivity|]. apply IH.
Qed.

(** [first_fill] finds the first price that reaches [pre_close]. *)
Lemma first_fill_spec (prices : list Q) (pre_close : Q) (i : nat) :
  first_fill 0 prices pre_close = Some i
  <-> (exists p : Q, prices !! i = Some p /\ (pre_close <= p)%Q)
      /\ (forall (j : nat) (p : Q),
            (j < i)%nat -> prices !! j = Some p -> (p < pre_close)%Q).
Proof.
  revert i. induction prices as [|p prices IH]; intros i.
  - cbn. split; [discriminate|]. intros [(q & Hq & _) _]. destruct i; discriminate.
  - cbn [first_fill]. destruct (Qle_bool pre_close p) eqn:E.
    + apply Qle_bool_iff in E. split.
      * intros H. injection H as <-. split; [exists p; now split|]. intros j q Hj. lia.
      * intros [_ Hlt]. destruct i as [|i]; [reflexivity|].
        specialize (Hlt 0%nat p ltac:(lia) eq_refl). lra.
    + assert (Hp : (p < pre_close)%Q).
      { apply Qnot_le_lt. intros H. apply Qle_bool_iff in H. congruence. }
      rewrite first_fill_shift. destruct i as [|i].
      * split.
        -- destruct (first_fill 0 prices pre_close); discriminate.
        -- intros [(q & Hq & Hle) _]. cbn in Hq. injection Hq as <-. lra.
      * split.
        -- intros H.
           assert (F : first_fill 0 prices pre_close = Some i).
           { destruct (first_fill 0 prices pre_close); [|discriminate].
             cbn in H. injection H as ->. reflexivity. }
           apply IH in F as [Hex Hlt]. split; [exact Hex|].
           intros [|j] q Hj Hq; [cbn in Hq; injection Hq as <-; exact Hp|].
           apply (Hlt j q); [lia|exact Hq].
        -- intros [Hex Hlt].
           assert (F : first_fill 0 prices pre_close = Some i).
           { apply IH. split; [exact Hex|]. intros j q Hj Hq.
             apply (Hlt (S j) q); [lia|exact Hq]. }
           now rewrite F.
Qed.

Lemma first_fill_bound (prices : list Q) (pre_close : Q) (i : nat) :
  first_fill 0 prices pre_close = Some i -> (i < length prices)%nat.
Proof.
  intros H. apply first_fill_spec in H as [(p & Hp & _) _].
  now apply lookup_lt_Some in Hp.
Qed.

(** A fill is found inside the history. *)
Lemma fill_event_bound (history : DataFrame) (ev : Z * Q) (days : nat) :
  fill_event history ev = Ok (Some days) -> (days < df_len history)%nat.
Proof.
  unfold fill_event. destruct ev as [date amount]. cbv beta iota zeta.
  set (idx := searchsorted (df_index history) date).
  destruct (df_len history <=? idx)%nat; [intros [=]|].
  destruct (iloc_get history idx Close) as [c|e]; [|intros [=]].
  cbn [mbind result_bind].
  assert (Hfind : forall pc : Q,
             (future_prices ← get_column (iloc_from history idx) High;
              Ok (first_fill 0 (map snd future_prices) pc)) = Ok (Some days) ->
             (days < df_len history)%nat).
  { intros pc. unfold get_column.
    destruct (has_column _ High); [|intros [=]].
    cbn [mbind result_bind]. intros H. injection H as H.
    apply first_fill_bound in H.
    rewrite !length_map in H. cbn [iloc_from df_rows] in H.
    rewrite length_drop in H. unfold df_len. lia. }
  destruct (0 <? idx)%nat.
  - destruct (iloc_get history (idx - 1) Close) as [pc|e]; [|intros [=]].
    apply Hfind.
  - apply Hfind.
Qed.

Lemma fill_loop_days (history : DataFrame) (events : list (Z * Q))
    (filled days filled' days' : nat) :
  (days <= filled * df_len history)%nat ->
  fold_left (fill_step history) events (filled, days) = (filled', days') ->
  (days' <= filled' * df_len history)%nat.
Proof.
  revert filled days. induction events as [|ev events IH]; intros filled days H.
  - cbn. intros [= <- <-]. exact H.
  - cbn [fold_left]. unfold fill_step at 2.
    destruct (fill_event history ev) as [[d|]|e] eqn:E; try (apply IH; exact H).
    apply IH. apply fill_event_bound in E. lia.
Qed.

Lemma average_bounds (days filled len : nat) :
  (0 < filled)%nat -> (days <= filled * len)%nat ->
  (0 <= inject_Z (Z.of_nat days) / inject_Z (Z.of_nat filled))%Q
  /\ (inject_Z (Z.of_nat days) / inject_Z (Z.of_nat filled)
      <= inject_Z (Z.of_nat len))%Q.
Proof.
  intros Hf Hd.
  assert (Hpos : (0 < inject_Z (Z.of_nat filled))%Q).
  { change 0%Q with (inject_Z 0). rewrite <- Zlt_Qlt. lia. }
  split.
  - apply Qle_shift_div_l; [assumption|]. rewrite Qmult_0_l.
    change 0%Q with (inject_Z 0). rewrite <- Zle_Qle. lia.
  - apply Qle_shift_div_r; [assumption|].
    rewrite <- inject_Z_mult, <- Zle_Qle. lia.
Qed.

(** X5. The analysis never raises, whatever columns the history
    carries; the filled count never exceeds the total count, and the
    average fill delay lies between 0 and the number of bars of the
    history and is 0 when no event is filled. *)
Theorem fill_stats_bounds (now : Z) (symbol : string)
    (history : DataFrame) (dividends : list (Z * Q)) :
  exists stats : FillStats,
    analyze_fill_dividend now symbol history dividends = Ok stats
    /\ (filled_count stats <= total_count stats)%nat
    /\ (0 <= avg_days stats)%Q
    /\ (avg_days stats <= inject_Z (Z.of_nat (df_len history)))%Q
    /\ (filled_count stats = 0%nat -> avg_days stats = 0%Q).
Proof.
  assert (Hlen : (0 <= inject_Z (Z.of_nat (df_len history)))%Q).
  { change 0%Q with (inject_Z 0). rewrite <- Zle_Qle. lia. }
  assert (Hzero : exists stats : FillStats,
             Ok no_fill_stats = Ok stats
             /\ (filled_count stats <= total_count stats)%nat
             /\ (0 <= avg_days stats)%Q
             /\ (avg_days stats <= inject_Z (Z.of_nat (df_len history)))%Q
             /\ (filled_count stats = 0%nat -> avg_days stats = 0%Q)).
  { exists no_fill_stats. cbn. repeat split; try lia; try lra; assumption. }
  unfold analyze_fill_dividend.
  destruct (df_empty history); [exact Hzero|].
  destruct dividends as [|ev dividends]; [exact Hzero|].
  rewrite calculator_binds_pd, calculator_binds_timedelta. cbn [mbind result_bind].
  destruct (trailing_two_years now (ev :: dividends)) as [|ev' evs]; [exact Hzero|].
  pose proof (fill_loop_count history (ev' :: evs) 0 0) as Hc.
  pose proof (fill_loop_days history (ev' :: evs) 0 0) as Hd.
  destruct (fold_left (fill_step history) (ev' :: evs) (0%nat, 0%nat))
    as [filled days].
  specialize (Hd filled days ltac:(lia) eq_refl). cbn [fst] in Hc.
  eexists. split; [reflexivity|].
  cbn [filled_count total_count avg_days].
  split.
  { rewrite Hc. cbn [Nat.add]. apply List.filter_length_le. }
  destruct (Nat.ltb_spec 0 filled) as [Hf|Hf].
  - destruct (average_bounds days filled (df_len history) Hf Hd) as [H0 H1].
    repeat split; try assumption. lia.
  - repeat split; try lra; assumption.
Qed.

(** X6. On an index in increasing order [searchsorted] answers the
    position of the first entry that is not below the value: every entry
    before it is below the value and every entry from it on is not. *)
Theorem searchsorted_splits_index (index : list Z) (v : Z) :
  StronglySorted Z.le index ->
  (searchsorted index v <= length index)%nat
  /\ (forall (j : nat) (d : Z),
        index !! j = Some d -> (j < searchsorted index v)%nat -> (d < v)%Z)
  /\ (forall (j : nat) (d : Z),
        index !! j = Some d -> (searchsorted index v <= j)%nat -> (v <= d)%Z).
Proof.
  induction 1 as [|d0 index Hs IH Hall]; cbn [searchsorted length].
  - split; [lia|]. split; intros j d Hj; destruct j; discriminate.
  - destruct IH as (Hlen & Hbefore & Hafter).
    destruct (Z.ltb_spec d0 v) as [Hlt|Hge].
    + split; [lia|]. split.
      * intros [|j] d Hj Hlt'; [cbn in Hj; injection Hj as <-; exact Hlt|].
        apply (Hbefore j d Hj). lia.
      * intros [|j] d Hj Hle; [lia|]. apply (Hafter j d Hj). lia.
    + split; [lia|]. split; [intros j d _ Hj; lia|].
      intros [|j] d Hj _; [cbn in Hj; injection Hj as <-; exact Hge|].
      cbn in Hj. rewrite List.Forall_forall in Hall.
      assert (Hin : In d index).
      { apply list_elem_of_In. eapply list_elem_of_lookup_2. exact Hj. }
      specialize (Hall d Hin). lia.
Qed.

Lemma searchsorted_splits_index_witness :
  (searchsorted [1; 3; 5]%Z 3 = 1)%nat
  /\ (forall (j : nat) (d : Z),
        [1; 3; 5]%Z !! j = Some d -> (searchsorted [1; 3; 5]%Z 3 <= j)%nat ->
        (3 <= d)%Z).
Proof.
  split; [reflexivity|].
  apply (searchsorted_splits_index [1; 3; 5]%Z 3).
  repeat constructor; lia.
Defined.

Lemma iloc_get_row (history : DataFrame) (i : nat) (c : PriceColumn) (b : Bar) :
  has_column history c = true -> df_rows history !! i = Some b ->
  iloc_get history i c = Ok (bar_get c b).
Proof. intros Hc Hb. unfold iloc_get. now rewrite Hb, Hc. Qed.

(** X7. In a history that carries both price columns, for a dividend
    whose ex-date falls inside the history: the per-event computation
    does not raise, and it reports a fill after [i] days exactly when the
    high of the bar [i] places after the ex-date bar reaches the
    reference price (the close of the bar before the ex-date bar, or the
    ex-date close plus the dividend when the ex-date bar is the first)
    and no earlier high from the ex-date bar on does. *)
Theorem fill_event_first_recovery (history : DataFrame) (date : Z) (amount : Q) :
  has_column history Close = true ->
  has_column history High = true ->
  (searchsorted (df_index history) date < df_len history)%nat ->
  exists (pre_close : Q) (outcome : option nat),
    reference_price history (searchsorted (df_index history) date) amount
    = Some pre_close
    /\ fill_event history (date, amount) = Ok outcome
    /\ forall i : nat,
         outcome = Some i
         <-> (exists b : Bar,
                df_rows history !! (searchsorted (df_index history) date + i)%nat
                = Some b
                /\ (pre_close <= bar_High b)%Q)
             /\ (forall (j : nat) (b : Bar),
                   (j < i)%nat ->
                   df_rows history !! (searchsorted (df_index history) date + j)%nat
                   = Some b ->
                   (bar_High b < pre_close)%Q).
Proof.
  intros Hc Hh Hidx.
  set (idx := searchsorted (df_index history) date) in *.
  unfold df_len in Hidx.
  destruct (lookup_lt_is_Some_2 (df_rows history) idx Hidx) as [b0 Hb0].
  assert (Hpc : exists pre_close : Q,
             reference_price history idx amount = Some pre_close
             /\ (if (0 <? idx)%nat
                 then iloc_get history (idx - 1) Close
                 else Ok (bar_Close b0 + amount)%Q) = Ok pre_close).
  { destruct idx as [|k].
    - exists (bar_Close b0 + amount)%Q. cbn [reference_price]. rewrite Hb0.
      split; reflexivity.
    - destruct (lookup_lt_is_Some_2 (df_rows history) k ltac:(lia)) as [b1 Hb1].
      exists (bar_Close b1). cbn [reference_price]. rewrite Hb1.
      split; [reflexivity|].
      replace (S k - 1)%nat with k by lia.
      apply (iloc_get_row history k Close b1 Hc Hb1). }
  destruct Hpc as (pre_close & Href & Hpre).
  exists pre_close, (first_fill 0 (map bar_High (drop idx (df_rows history))) pre_close).
  split; [exact Href|]. split.
  - unfold fill_event. fold idx.
    assert (Hleb : (df_len history <=? idx)%nat = false)
      by (apply Nat.leb_gt; exact Hidx).
    rewrite Hleb, (iloc_get_row history idx Close b0 Hc Hb0).
    cbn [mbind result_bind bar_get]. rewrite Hpre. cbn [mbind result_bind].
    unfold get_column.
    change (has_column (iloc_from history idx) High) with (has_column history High).
    rewrite Hh. cbn [mbind result_bind iloc_from df_rows].
    rewrite map_map. reflexivity.
  - intros i. rewrite first_fill_spec. split.
    + intros [(p & Hp & Hle) Hlt]. split.
      * rewrite lookup_map, lookup_drop in Hp.
        destruct (df_rows history !! (idx + i)%nat) as [b|]; [|discriminate].
        cbn in Hp. injection Hp as <-. now exists b.
      * intros j b Hj Hb. apply (Hlt j (bar_High b) Hj).
        now rewrite lookup_map, lookup_drop, Hb.
    + intros [(b & Hb & Hle) Hlt]. split.
      * exists (bar_High b). split; [|exact Hle].
        now rewrite lookup_map, lookup_drop, Hb.
      * intros j p Hj Hp. rewrite lookup_map, lookup_drop in Hp.
        destruct (df_rows history !! (idx + j)%nat) as [b'|] eqn:Hb'; [|discriminate].
        cbn in Hp. injection Hp as <-. now apply (Hlt j b').
Qed.

Lemma fill_event_first_recovery_witness :
  fill_event (Examples.bars [(1%Z, 100%Q); (2%Z, 97%Q); (3%Z, 98%Q); (4%Z, 101%Q)])
             (2%Z, 3%Q)
  = Ok (Some 2%nat).
Proof.
  destruct (fill_event_first_recovery
              (Examples.bars [(1%Z, 100%Q); (2%Z, 97%Q); (3%Z, 98%Q); (4%Z, 101%Q)])
              2 3 eq_refl eq_refl ltac:(cbn; lia))
    as (pre_close & outcome & Href & -> & Hspec).
  f_equal. apply Hspec. cbn in Href. injection Href as <-.
  split.
  - eexists. split; [reflexivity|]. cbn. discriminate.
  - intros [|[|j]] b Hj Hb; try lia; cbn in Hb; injection Hb as <-; reflexivity.
Defined.

(** X8. When the price history has no rows, or every dividend is
    older than 730 days, the analysis answers the all-zero statistics. *)
Theorem no_recent_dividend_no_stats (now : Z) (symbol : string)
    (history : DataFrame) (dividends : list (Z * Q)) :
  df_empty history = true
  \/ Forall (fun ev => (fst ev < now - 730)%Z) dividends ->
  analyze_fill_dividend now symbol history dividends = Ok no_fill_stats.
Proof.
  intros H. unfold analyze_fill_dividend.
  destruct (df_empty history); [reflexivity|].
  destruct H as [H|H]; [discriminate|].
  destruct dividends as [|ev dividends]; [reflexivity|].
  rewrite calculator_binds_pd, calculator_binds_timedelta. cbn [mbind result_bind].
  assert (E : trailing_two_years now (ev :: dividends) = []).
  { unfold trailing_two_years. cbv zeta.
    induction H as [|ev' evs Hev _ IH]; [reflexivity|].
    cbn [List.filter]. destruct (Z.leb_spec (now - 730) (fst ev')); [lia|exact IH]. }
  now rewrite E.
Qed.

Lemma no_recent_dividend_no_stats_witness :
  analyze_fill_dividend 1000 "2330.TW" Examples.one_bar [(100%Z, 1%Q)]
  = Ok no_fill_stats.
Proof.
  apply no_recent_dividend_no_stats. right. repeat constructor.
Defined.

End FillMore.

(** ** More on building a portfolio *)

Section Spending.

Import PortfolioCalculator Design.

(** On a float that is not positive [int] is minus the floor of its
    opposite. *)
Lemma py_int_ceiling (x : Q) : (x <= 0)%Q -> py_int x = (- Qfloor (- x))%Z.
Proof.
  destruct x as [n d]. unfold Qle, py_int, Qfloor, Qopp. cbn [Qnum Qden].
  intros H. rewrite <- (Z.opp_involutive n) at 1.
  rewrite Z.quot_opp_l by lia. f_equal. apply Z.quot_div_nonneg; lia.
Qed.

(** Whole shares cost between nothing and the budget, whatever the
    sign of the price. *)
Lemma cost_within_budget (B p : Q) :
  (0 <= B)%Q -> ~ (p == 0)%Q ->
  (0 <= inject_Z (py_int (B / p)) * p)%Q
  /\ (inject_Z (py_int (B / p)) * p <= B)%Q.
Proof.
  intros HB Hp.
  destruct (Qlt_le_dec 0 p) as [Hpos|Hneg].
  - destruct (shares_within_budget B p Hpos HB) as (_ & _ & H0 & H1). now split.
  - assert (Hlt : (p < 0)%Q).
    { apply Qle_lt_or_eq in Hneg as [?|?]; [assumption|contradiction]. }
    assert (Hx : (B / p <= 0)%Q).
    { assert (Hq : (0 <= B / - p)%Q) by (apply Qle_shift_div_l; lra).
      assert (Ho : (B / p == - (B / - p))%Q) by (field; lra).
      lra. }
    rewrite (py_int_ceiling _ Hx), inject_Z_opp.
    assert (Hnx : (0 <= - (B / p))%Q) by lra.
    assert (Hf0 : (0 <= inject_Z (Qfloor (- (B / p))))%Q).
    { change 0%Q with (inject_Z 0). rewrite <- Zle_Qle.
      change 0%Z with (Qfloor 0). now apply Qfloor_resp_le. }
    pose proof (Qfloor_le (- (B / p))) as Hfl.
    assert (He : (B / p * p == B)%Q) by (field; assumption).
    assert (Hm : (inject_Z (Qfloor (- (B / p))) * (- p)
                  <= - (B / p) * (- p))%Q).
    { apply Qmult_le_compat_r; lra. }
    assert (Hn : (0 <= inject_Z (Qfloor (- (B / p))) * (- p))%Q).
    { apply Qmult_le_0_compat; lra. }
    split; nra.
Qed.

Lemma total_cost_from (lines : list Line) (acc : Q) :
  (fold_left (fun acc item => acc + line_cost_twd item) lines acc
   == acc + App.total_cost lines)%Q.
Proof.
  unfold App.total_cost. revert acc.
  induction lines as [|l lines IH]; intros acc; cbn [fold_left]; [ring|].
  rewrite (IH (acc + line_cost_twd l)%Q), (IH (0 + line_cost_twd l)%Q). ring.
Qed.

Lemma total_cost_cons (l : Line) (lines : list Line) :
  (App.total_cost (l :: lines) == line_cost_twd l + App.total_cost lines)%Q.
Proof.
  unfold App.total_cost at 1. cbn [fold_left]. rewrite total_cost_from. ring.
Qed.

Lemma total_cost_app (l1 l2 : list Line) :
  (App.total_cost (l1 ++ l2) == App.total_cost l1 + App.total_cost l2)%Q.
Proof.
  induction l1 as [|l l1 IH]; cbn [app].
  - unfold App.total_cost at 2. cbn. ring.
  - rewrite !total_cost_cons, IH. ring.
Qed.

Lemma total_cost_bounded (per : Q) (lines : list Line) :
  Forall (fun l => (0 <= line_cost_twd l)%Q /\ (line_cost_twd l <= per)%Q) lines ->
  (0 <= App.total_cost lines)%Q
  /\ (App.total_cost lines <= per * inject_Z (Z.of_nat (length lines)))%Q.
Proof.
  induction 1 as [|l lines [H0 H1] _ [IH0 IH1]].
  - change (App.total_cost []) with 0%Q.
    change (inject_Z (Z.of_nat (@length Line []))) with 0%Q. split; lra.
  - rewrite total_cost_cons. cbn [length]. rewrite inject_nat_S. split; lra.
Qed.

End Spending.

Section Provenance.

Import PortfolioCalculator Design.

Variables (now : Z) (fetcher : Fetcher) (total_capital usd_twd : Q).

Lemma truthy_price (v : option Q) :
  truthy v = true -> exists price : Q, v = Some price /\ ~ (price == 0)%Q.
Proof.
  destruct v as [p|]; [|discriminate]. cbn. intros H.
  exists p. split; [reflexivity|]. apply Qeq_bool_false.
  now apply negb_true_iff in H.
Qed.

(** A custom request with a price makes its line. *)
Lemma custom_step_made (portfolio : list Line) (remaining : Q) (custom : Custom) :
  truthy (get_stock_price fetcher (custom_symbol custom)) = true ->
  exists l : Line,
    custom_step now fetcher total_capital usd_twd (portfolio, remaining) custom
    = Ok (portfolio ++ [l], (remaining - total_capital * custom_weight custom)%Q)
    /\ custom_made fetcher usd_twd total_capital custom l.
Proof.
  intros H. unfold custom_step. rewrite H. cbn [negb].
  destruct (analyze_fill_dividend_returns now (custom_symbol custom)
              (get_historical_data fetcher (custom_symbol custom) "2y")
              (get_dividend_history fetcher (custom_symbol custom))) as [stats ->].
  cbn [mbind result_bind].
  destruct (truthy_price _ H) as (price & Hp & Hne).
  eexists. split; [reflexivity|].
  exists price. rewrite Hp. cbn. repeat split; try reflexivity. exact Hne.
Qed.

Lemma custom_loop_made (customs : list Custom) (portfolio portfolio' : list Line)
    (remaining remaining' : Q) :
  for_each (custom_step now fetcher total_capital usd_twd) customs
           (portfolio, remaining) = Ok (portfolio', remaining') ->
  exists new : list Line,
    portfolio' = portfolio ++ new
    /\ Forall2 (custom_made fetcher usd_twd total_capital) customs new.
Proof.
  revert portfolio remaining.
  induction customs as [|c customs IH]; intros portfolio remaining H.
  - cbn in H. injection H as <- <-. exists []. split; [now rewrite app_nil_r|constructor].
  - cbn [for_each] in H.
    destruct (truthy (get_stock_price fetcher (custom_symbol c))) eqn:E.
    + destruct (custom_step_made portfolio remaining c E) as (l & Hs & Hm).
      rewrite Hs in H. cbn [mbind result_bind] in H.
      destruct (IH _ _ H) as (new & -> & Hall).
      exists (l :: new). split; [now rewrite <- app_assoc|now constructor].
    + rewrite (custom_step_unpriced now fetcher total_capital usd_twd _ c E) in H.
      discriminate.
Qed.

(** A candidate adds no line, or the line made for it. *)
Lemma category_step_made (per : Q) (portfolio portfolio' : list Line)
    (candidate : Candidate) :
  category_step now fetcher usd_twd per portfolio candidate = Ok portfolio' ->
  portfolio' = portfolio
  \/ exists l : Line,
       portfolio' = portfolio ++ [l] /\ candidate_made fetcher usd_twd per candidate l.
Proof.
  unfold category_step.
  destruct (analyze_fill_dividend_returns now (cand_symbol candidate)
              (get_historical_data fetcher (cand_symbol candidate) "2y")
              (get_dividend_history fetcher (cand_symbol candidate))) as [stats ->].
  cbn [mbind result_bind].
  destruct (truthy (get_stock_price fetcher (cand_symbol candidate))) eqn:E;
    [|intros [= <-]; now left].
  destruct (truthy_price _ E) as (price & Hp & Hne). rewrite Hp. cbn [default from_option id].
  set (price_twd := if String.eqb (cand_market candidate) "US" then _ else _).
  unfold py_div. destruct (Qeq_bool price_twd 0) eqn:Ez; [intros [=]|].
  cbn [mbind result_bind]. intros [= <-]. right.
  eexists. split; [reflexivity|].
  exists price. cbn. repeat split; try reflexivity; try exact Hne; try exact Hp.
  now apply Qeq_bool_false.
Qed.

Lemma category_loop_made (per : Q) (cands : list Candidate)
    (portfolio portfolio' : list Line) :
  for_each (category_step now fetcher usd_twd per) cands portfolio = Ok portfolio' ->
  exists (kept : list Candidate) (new : list Line),
    portfolio' = portfolio ++ new
    /\ sublist kept cands
    /\ Forall2 (candidate_made fetcher usd_twd per) kept new.
Proof.
  revert portfolio. induction cands as [|c cands IH]; intros portfolio H.
  - cbn in H. injection H as <-. exists [], [].
    split; [now rewrite app_nil_r|]. split; constructor.
  - cbn [for_each] in H.
    destruct (category_step now fetcher usd_twd per portfolio c) as [p1|e] eqn:E;
      [|discriminate].
    cbn [mbind result_bind] in H.
    destruct (IH _ H) as (kept & new & -> & Hsub & Hall).
    destruct (category_step_made per portfolio p1 c E) as [->|(l & -> & Hl)].
    + exists kept, new. split; [reflexivity|]. split; [now constructor|assumption].
    + exists (c :: kept), (l :: new). split; [now rewrite <- app_assoc|].
      split; now constructor.
Qed.

(** A category adds lines only from a positive budget. *)
Lemma process_category_made (cands : list Candidate) (available : Q)
    (portfolio portfolio' : list Line) :
  process_category now fetcher usd_twd cands available portfolio = Ok portfolio' ->
  exists (kept : list Candidate) (new : list Line),
    portfolio' = portfolio ++ new
    /\ sublist kept cands
    /\ Forall2 (candidate_made fetcher usd_twd
                  (available / inject_Z (Z.of_nat (length cands)))) kept new
    /\ ((0 < available)%Q \/ new = []).
Proof.
  unfold process_category.
  destruct cands as [|c cands].
  { intros [= <-]. exists [], []. rewrite app_nil_r.
    split; [reflexivity|]. split; [constructor|]. split; [constructor|now right]. }
  destruct (Qle_bool available 0) eqn:E.
  { intros [= <-]. exists [], []. rewrite app_nil_r.
    split; [reflexivity|]. split; [apply sublist_nil_l|].
    split; [constructor|now right]. }
  intros H. apply category_loop_made in H as (kept & new & -> & Hs & Hall).
  exists kept, new. split; [reflexivity|]. split; [assumption|].
  split; [assumption|]. left.
  apply Qnot_le_lt. intros Hle. apply Qle_bool_iff in Hle. congruence.
Qed.

End Provenance.

Section Anatomy.

Import PortfolioCalculator Design.

Lemma category_pass_made (now : Z) (fetcher : Fetcher) (usd_twd : Q)
    (weights : gmap string Q) (remaining : Q) (portfolio portfolio' : list Line) :
  category_pass now fetcher usd_twd weights remaining portfolio = Ok portfolio' ->
  exists stocks etfs bonds : list Line,
    portfolio' = portfolio ++ stocks ++ etfs ++ bonds
    /\ category_lines_made fetcher usd_twd weights remaining "Stock" stocks
    /\ category_lines_made fetcher usd_twd weights remaining "ETF" etfs
    /\ category_lines_made fetcher usd_twd weights remaining "Bond" bonds
    /\ ((0 < remaining)%Q \/ (stocks = [] /\ etfs = [] /\ bonds = [])).
Proof.
  unfold category_pass.
  destruct (Qltb 0 remaining) eqn:Er.
  2:{ intros [= <-]. exists [], [], []. rewrite app_nil_r.
      split; [reflexivity|].
      assert (Hnone : forall t : string,
                 category_lines_made fetcher usd_twd weights remaining t []).
      { intros t. exists []. split; [apply sublist_nil_l|].
        split; [constructor|now right]. }
      repeat split; try apply Hnone. now right. }
  cbv zeta.
  destruct (process_category now fetcher usd_twd (of_type "Stock") _ portfolio)
    as [p1|e] eqn:E1; [|discriminate].
  cbn [mbind result_bind].
  destruct (process_category now fetcher usd_twd (of_type "ETF") _ p1)
    as [p2|e] eqn:E2; [|discriminate].
  cbn [mbind result_bind]. intros E3.
  apply process_category_made in E1 as (k1 & n1 & -> & Hs1 & Hm1 & Hc1).
  apply process_category_made in E2 as (k2 & n2 & -> & Hs2 & Hm2 & Hc2).
  apply process_category_made in E3 as (k3 & n3 & -> & Hs3 & Hm3 & Hc3).
  exists n1, n2, n3. split; [now rewrite <- !app_assoc|].
  split; [now exists k1|]. split; [now exists k2|]. split; [now exists k3|].
  left. now apply Qltb_true.
Qed.

(** The lines of a returned portfolio: one per custom request, in
    request order, then the lines of the three categories. *)
Lemma calculate_portfolio_anatomy (now : Z) (total_capital monthly_income_goal : Q)
    (fetcher : Fetcher) (weights : gmap string Q) (customs : list Custom)
    (pf : Portfolio) :
  calculate_portfolio now total_capital monthly_income_goal fetcher weights customs
  = Ok pf ->
  let usd_twd := get_exchange_rate fetcher in
  let remaining := remaining_after fetcher total_capital customs in
  exists custom_lines stocks etfs bonds : list Line,
    portfolio_lines pf = custom_lines ++ stocks ++ etfs ++ bonds
    /\ Forall2 (custom_made fetcher usd_twd total_capital) customs custom_lines
    /\ category_lines_made fetcher usd_twd weights remaining "Stock" stocks
    /\ category_lines_made fetcher usd_twd weights remaining "ETF" etfs
    /\ category_lines_made fetcher usd_twd weights remaining "Bond" bonds
    /\ ((0 < remaining)%Q \/ (stocks = [] /\ etfs = [] /\ bonds = [])).
Proof.
  intros Hpf usd_twd remaining.
  destruct (calculate_portfolio_stages _ _ _ _ _ _ _ Hpf)
    as (custom_lines & rem & Hc & Hcat & _).
  pose proof (custom_pass_lines _ _ _ _ _ _ _ _ _ Hc) as [Hrem _].
  apply custom_loop_made in Hc as (new & Hnew & Hmade). cbn [app] in Hnew. subst new.
  assert (Hr : rem = remaining) by exact Hrem. subst rem.
  apply category_pass_made in Hcat as (s & e & b & Hl & Hs & He & Hb & Hpos).
  exists custom_lines, s, e, b. repeat split; assumption.
Qed.

End Anatomy.

Section LineFacts.

Import PortfolioCalculator Design.

Lemma candidates_market (c : Candidate) :
  In c candidates -> String.eqb (cand_market c) "US" = is_us (cand_symbol c).
Proof.
  cbn [candidates In]. intros H.
  repeat (destruct H as [<-|H]; [reflexivity|]). destruct H.
Qed.

Lemma sublist_In {A : Type} (l k : list A) (x : A) :
  sublist l k -> In x l -> In x k.
Proof.
  intros Hs Hx. apply list_elem_of_In. eapply elem_of_sublist; [|exact Hs].
  now apply list_elem_of_In.
Qed.

Lemma Forall2_In_r {A B : Type} (P : A -> B -> Prop) (l : list A) (k : list B)
    (y : B) :
  Forall2 P l k -> In y k -> exists x : A, In x l /\ P x y.
Proof.
  induction 1 as [|x y' l k Hxy _ IH]; intros Hy; [destruct Hy|].
  destruct Hy as [->|Hy].
  - exists x. split; [now left|assumption].
  - destruct (IH Hy) as (x' & Hx' & HP). exists x'. split; [now right|assumption].
Qed.

(** What every line of a returned portfolio satisfies. *)
Lemma line_shape (now : Z) (total_capital monthly_income_goal : Q)
    (fetcher : Fetcher) (weights : gmap string Q) (customs : list Custom)
    (pf : Portfolio) (l : Line) :
  calculate_portfolio now total_capital monthly_income_goal fetcher weights customs
  = Ok pf ->
  In l (portfolio_lines pf) ->
  exists yield_rate : Q,
    get_stock_price fetcher (line_symbol l) = Some (line_price l)
    /\ ~ (line_price l == 0)%Q
    /\ line_price_twd l
       = (if is_us (line_symbol l)
          then (line_price l * get_exchange_rate fetcher)%Q else line_price l)
    /\ line_cost_twd l = (inject_Z (line_quantity l) * line_price_twd l)%Q
    /\ line_est_annual_income l = (line_cost_twd l * yield_rate)%Q
    /\ line_yield_rate l = (yield_rate * 100)%Q.
Proof.
  intros Hpf Hin.
  destruct (calculate_portfolio_anatomy _ _ _ _ _ _ _ Hpf)
    as (cl & s & e & b & Hl & Hc & Hs & He & Hb & _).
  assert (Hcat : forall (t : string) (new : list Line),
             category_lines_made fetcher (get_exchange_rate fetcher) weights
               (remaining_after fetcher total_capital customs) t new ->
             In l new ->
             exists yield_rate : Q,
               get_stock_price fetcher (line_symbol l) = Some (line_price l)
               /\ ~ (line_price l == 0)%Q
               /\ line_price_twd l
                  = (if is_us (line_symbol l)
                     then (line_price l * get_exchange_rate fetcher)%Q
                     else line_price l)
               /\ line_cost_twd l = (inject_Z (line_quantity l) * line_price_twd l)%Q
               /\ line_est_annual_income l = (line_cost_twd l * yield_rate)%Q
               /\ line_yield_rate l = (yield_rate * 100)%Q).
  { intros t new (kept & Hsub & Hall & _) Hnew.
    destruct (Forall2_In_r _ _ _ _ Hall Hnew) as (c & Hck & Hm).
    pose proof (sublist_In _ _ _ Hsub Hck) as Hct.
    apply of_type_spec in Hct as [Hcand _].
    destruct Hm as (price & Hp & Hne & Hsym & _ & _ & Hpr & Htwd & _ & _ & Hcost & Hinc & Hyr).
    exists (default 0%Q (info_yield (get_dividend_info fetcher (cand_symbol c)))).
    split; [now rewrite Hsym, Hpr|]. split; [now rewrite Hpr|].
    split; [now rewrite Htwd, Hsym, Hpr, (candidates_market c Hcand)|].
    split; [assumption|]. split; assumption. }
  rewrite Hl in Hin. rewrite !List.in_app_iff in Hin.
  destruct Hin as [Hin|[Hin|[Hin|Hin]]];
    [|now apply (Hcat "Stock" s)|now apply (Hcat "ETF" e)|now apply (Hcat "Bond" b)].
  destruct (Forall2_In_r _ _ _ _ Hc Hin) as (c & _ & Hm).
  destruct Hm as (price & Hp & Hne & Hsym & _ & Hpr & Htwd & _ & Hcost & Hinc & Hyr).
  exists (default 0%Q (info_yield (get_dividend_info fetcher (custom_symbol c)))).
  split; [now rewrite Hsym, Hpr|]. split; [now rewrite Hpr|].
  split; [now rewrite Htwd, Hsym, Hpr|].
  split; [assumption|]. split; assumption.
Qed.

Lemma custom_line_cost (fetcher : Fetcher) (usd_twd total_capital : Q)
    (custom : Custom) (l : Line) :
  custom_made fetcher usd_twd total_capital custom l ->
  (0 <= total_capital * custom_weight custom)%Q ->
  (0 <= line_cost_twd l)%Q
  /\ (line_cost_twd l <= total_capital * custom_weight custom)%Q.
Proof.
  intros (price & _ & _ & _ & _ & _ & _ & Hq & Hc & _) HB.
  rewrite Hc, Hq. destruct (Qltb 0 (line_price_twd l)) eqn:E.
  - apply Qltb_true in E.
    destruct (shares_within_budget _ _ E HB) as (_ & _ & H0 & H1). now split.
  - change (inject_Z 0) with 0%Q. split; lra.
Qed.

Lemma candidate_line_cost (fetcher : Fetcher) (usd_twd per : Q)
    (candidate : Candidate) (l : Line) :
  candidate_made fetcher usd_twd per candidate l ->
  (0 <= per)%Q ->
  (0 <= line_cost_twd l)%Q /\ (line_cost_twd l <= per)%Q.
Proof.
  intros (price & _ & _ & _ & _ & _ & _ & _ & Hne & Hq & Hc & _) HB.
  rewrite Hc, Hq. now apply cost_within_budget.
Qed.

(** The custom lines cost no more than what the custom pass takes
    from the remaining capital. *)
Lemma custom_lines_cost (fetcher : Fetcher) (usd_twd total_capital : Q)
    (customs : list Custom) (lines : list Line) (remaining : Q) :
  (0 <= total_capital)%Q ->
  Forall (fun c => (0 <= custom_weight c)%Q) customs ->
  Forall2 (custom_made fetcher usd_twd total_capital) customs lines ->
  (0 <= App.total_cost lines)%Q
  /\ (App.total_cost lines
      + fold_left
          (fun remaining custom =>
             if truthy (get_stock_price fetcher (custom_symbol custom))
             then (remaining - total_capital * custom_weight custom)%Q
             else remaining)
          customs remaining
      <= remaining)%Q.
Proof.
  intros Ht Hw Hm. revert remaining.
  induction Hm as [|c l customs lines Hcl Hm IH]; intros remaining.
  - change (App.total_cost []) with 0%Q. cbn [fold_left]. split; lra.
  - apply Forall_cons in Hw as [Hwc Hw].
    assert (HB : (0 <= total_capital * custom_weight c)%Q)
      by (apply Qmult_le_0_compat; assumption).
    destruct (custom_line_cost _ _ _ _ _ Hcl HB) as [H0 H1].
    assert (Hp : truthy (get_stock_price fetcher (custom_symbol c)) = true).
    { destruct Hcl as (price & -> & Hne & _). cbn.
      apply Qeq_bool_false in Hne. now rewrite Hne. }
    cbn [fold_left]. rewrite Hp, total_cost_cons.
    destruct (IH Hw (remaining - total_capital * custom_weight c)%Q) as [I0 I1].
    split; lra.
Qed.

(** The lines of a category cost no more than the category's budget. *)
Lemma category_lines_cost (fetcher : Fetcher) (usd_twd : Q)
    (weights : gmap string Q) (remaining : Q) (t : string) (lines : list Line) :
  category_lines_made fetcher usd_twd weights remaining t lines ->
  Forall (fun l => (0 <= line_cost_twd l)%Q) lines
  /\ (0 <= App.total_cost lines)%Q
  /\ ((0 <= category_capital weights remaining t)%Q ->
      (App.total_cost lines <= category_capital weights remaining t)%Q).
Proof.
  intros (kept & Hsub & Hall & Hpos).
  set (cap := category_capital weights remaining t) in *.
  set (n := length (of_type t)) in *.
  destruct Hpos as [Hpos| ->].
  2:{ change (App.total_cost []) with 0%Q.
      split; [constructor|]. split; [lra|]. intros H; exact H. }
  destruct kept as [|k kept].
  { apply Forall2_nil_inv_l in Hall as ->. change (App.total_cost []) with 0%Q.
    split; [constructor|]. split; lra. }
  assert (Hn : (0 < n)%nat).
  { apply sublist_length in Hsub. cbn [length] in Hsub. unfold n. lia. }
  assert (Hnq : (0 < inject_Z (Z.of_nat n))%Q).
  { change 0%Q with (inject_Z 0). rewrite <- Zlt_Qlt. lia. }
  assert (Hper : (0 <= cap / inject_Z (Z.of_nat n))%Q).
  { apply Qle_shift_div_l; [assumption|]. lra. }
  assert (Hcosts : Forall (fun l => (0 <= line_cost_twd l)%Q
                                    /\ (line_cost_twd l
                                        <= cap / inject_Z (Z.of_nat n))%Q) lines).
  { apply List.Forall_forall. intros l Hl.
    destruct (Forall2_In_r _ _ _ _ Hall Hl) as (c & _ & Hm).
    now apply (candidate_line_cost _ _ _ _ _ Hm). }
  destruct (total_cost_bounded _ _ Hcosts) as [H0 H1].
  split; [eapply Forall_impl; [exact Hcosts|]; now intros l [? _]|].
  split; [assumption|]. intros _.
  assert (Hlen : (length lines <= n)%nat).
  { apply Forall2_length in Hall. apply sublist_length in Hsub. unfold n. lia. }
  assert (Hlq : (inject_Z (Z.of_nat (length lines)) <= inject_Z (Z.of_nat n))%Q).
  { rewrite <- Zle_Qle. lia. }
  assert (Hm : (cap / inject_Z (Z.of_nat n) * inject_Z (Z.of_nat (length lines))
                <= cap / inject_Z (Z.of_nat n) * inject_Z (Z.of_nat n))%Q).
  { rewrite !(Qmult_comm (cap / inject_Z (Z.of_nat n))).
    apply Qmult_le_compat_r; assumption. }
  assert (He : (cap / inject_Z (Z.of_nat n) * inject_Z (Z.of_nat n) == cap)%Q)
    by (field; lra).
  lra.
Qed.

End LineFacts.

Section Returning.

Import PortfolioCalculator Design.

Lemma for_each_returns {A S : Type} (body : S -> A -> result S) (xs : list A) :
  (forall (s : S) (x : A), In x xs -> exists s' : S, body s x = Ok s') ->
  forall s : S, exists s' : S, for_each body xs s = Ok s'.
Proof.
  induction xs as [|x xs IH]; intros Hbody s; [now exists s|].
  cbn [for_each]. destruct (Hbody s x ltac:(now left)) as [s1 ->].
  cbn [mbind result_bind]. apply IH. intros s2 y Hy. apply Hbody. now right.
Qed.

Variables (now : Z) (fetcher : Fetcher).

Let usd_twd := get_exchange_rate fetcher.

Lemma category_step_returns (per : Q) (portfolio : list Line) (candidate : Candidate) :
  ~ (usd_twd == 0)%Q ->
  exists portfolio' : list Line,
    category_step now fetcher usd_twd per portfolio candidate = Ok portfolio'.
Proof.
  intros Husd. unfold category_step.
  destruct (analyze_fill_dividend_returns now (cand_symbol candidate)
              (get_historical_data fetcher (cand_symbol candidate) "2y")
              (get_dividend_history fetcher (cand_symbol candidate))) as [stats ->].
  cbn [mbind result_bind].
  destruct (truthy (get_stock_price fetcher (cand_symbol candidate))) eqn:E;
    [|eauto].
  destruct (truthy_price _ E) as (price & -> & Hne). cbn [default from_option id].
  rewrite py_div_ok; [cbn [mbind result_bind]; eauto|].
  destruct (String.eqb (cand_market candidate) "US"); [|assumption].
  intros H. apply Qmult_integral in H as [H|H]; contradiction.
Qed.

Lemma category_pass_returns (weights : gmap string Q) (remaining : Q)
    (portfolio : list Line) :
  ~ (usd_twd == 0)%Q ->
  exists portfolio' : list Line,
    category_pass now fetcher usd_twd weights remaining portfolio = Ok portfolio'.
Proof.
  intros Husd.
  assert (Hproc : forall (cands : list Candidate) (available : Q) (p : list Line),
             exists p' : list Line,
               process_category now fetcher usd_twd cands available p = Ok p').
  { intros cands available p. unfold process_category.
    destruct cands as [|c cands]; [eauto|].
    destruct (Qle_bool available 0); [eauto|].
    apply for_each_returns. intros s x _. now apply category_step_returns. }
  unfold category_pass. destruct (Qltb 0 remaining); [|eauto]. cbv zeta.
  destruct (Hproc (of_type "Stock")
              (remaining * default 0 (weights !! "Stock"))%Q portfolio) as [p1 ->].
  cbn [mbind result_bind].
  destruct (Hproc (of_type "ETF")
              (remaining * default 0 (weights !! "ETF"))%Q p1) as [p2 ->].
  cbn [mbind result_bind]. apply Hproc.
Qed.

Lemma history_step_returns (f : Frame) (item : Line) :
  histories_have_close fetcher ->
  exists f' : Frame, history_step fetcher usd_twd f item = Ok f'.
Proof.
  intros Hclose. unfold history_step. cbv zeta.
  destruct (df_empty (get_historical_data fetcher (line_symbol item) "6mo")) eqn:E;
    cbn [negb]; [eauto|].
  unfold get_column. rewrite (Hclose _ E). cbn [mbind result_bind].
  destruct (frame_empty f); [eauto|].
  destruct (negb (has_symbol f (line_symbol item))); eauto.
Qed.

(** A build returns when every custom request has a price, the
    exchange rate is not zero and the histories carry their closes. *)
Lemma build_returns (total_capital monthly_income_goal : Q)
    (weights : gmap string Q) (customs : list Custom) :
  Forall (fun c => truthy (get_stock_price fetcher (custom_symbol c)) = true) customs ->
  ~ (usd_twd == 0)%Q ->
  histories_have_close fetcher ->
  exists pf : Portfolio,
    calculate_portfolio now total_capital monthly_income_goal fetcher weights customs
    = Ok pf.
Proof.
  intros Hpriced Husd Hclose. unfold calculate_portfolio. cbv zeta.
  fold usd_twd.
  assert (Hcustom : exists st : list Line * Q,
             for_each (custom_step now fetcher total_capital usd_twd) customs
                      ([], total_capital) = Ok st).
  { apply for_each_returns. intros [p r] c Hc.
    rewrite List.Forall_forall in Hpriced.
    destruct (custom_step_made now fetcher total_capital usd_twd p r c
                (Hpriced c Hc)) as (l & -> & _). eauto. }
  destruct Hcustom as [[p r] ->]. cbn [mbind result_bind].
  destruct (category_pass_returns weights r p Husd) as [p' ->].
  cbn [mbind result_bind]. unfold reconstruct_history.
  destruct (for_each_returns (history_step fetcher usd_twd) p'
              (fun s x _ => history_step_returns s x Hclose) empty_frame) as [f ->].
  cbn [mbind result_bind]. eauto.
Qed.

End Returning.

Section PortfolioMore.

Import PortfolioCalculator Design.

Lemma two_quotes_have_close : histories_have_close Examples.two_quotes.
Proof.
  intros symbol. cbn.
  destruct (String.eqb symbol "2330.TW"); [reflexivity|].
  destruct (String.eqb symbol "0050.TW"); [reflexivity|discriminate].
Qed.

(** X9. When every custom request has a price, the exchange rate is
    not zero and every non-empty six-month history carries its Close
    column, [calculate_portfolio] returns; the returned exchange rate is
    the provider's and the required yield is
    [monthly_income_goal * 12 / total_capital * 100], or 0 when the
    capital is not positive. *)
Theorem build_returns_with_required_yield (now : Z)
    (total_capital monthly_income_goal : Q)
    (fetcher : Fetcher) (weights : gmap string Q) (customs : list Custom) :
  Forall (fun c => truthy (get_stock_price fetcher (custom_symbol c)) = true) customs ->
  ~ (get_exchange_rate fetcher == 0)%Q ->
  histories_have_close fetcher ->
  exists pf : Portfolio,
    calculate_portfolio now total_capital monthly_income_goal fetcher weights customs
    = Ok pf
    /\ exchange_rate pf = get_exchange_rate fetcher
    /\ required_yield pf
       = (if Qltb 0 total_capital
          then (monthly_income_goal * 12 / total_capital * 100)%Q
          else 0%Q).
Proof.
  intros Hp Hu Hc.
  destruct (build_returns now fetcher total_capital monthly_income_goal
              weights customs Hp Hu Hc) as [pf Hpf].
  exists pf. split; [exact Hpf|].
  unfold calculate_portfolio in Hpf. cbv zeta in Hpf.
  destruct (for_each _ customs _) as [[p r]|e]; [|discriminate].
  cbn [mbind result_bind] in Hpf.
  destruct (category_pass _ _ _ _ _ _) as [p'|e]; [|discriminate].
  cbn [mbind result_bind] in Hpf.
  destruct (reconstruct_history _ _ _) as [h|e]; [|discriminate].
  cbn [mbind result_bind] in Hpf. injection Hpf as <-. split; reflexivity.
Qed.

Lemma build_returns_with_required_yield_witness :
  exists pf : Portfolio,
    calculate_portfolio 0 1000000 5000 Examples.two_quotes
                        Examples.half_stock_half_etf [Examples.duplicate_request]
    = Ok pf
    /\ exchange_rate pf = 32.5%Q
    /\ (required_yield pf == 6)%Q.
Proof.
  destruct (build_returns_with_required_yield 0 1000000 5000 Examples.two_quotes
              Examples.half_stock_half_etf [Examples.duplicate_request])
    as (pf & Hpf & Hr & Hy).
  - repeat constructor.
  - discriminate.
  - exact two_quotes_have_close.
  - exists pf. split; [exact Hpf|]. split; [exact Hr|]. rewrite Hy. reflexivity.
Defined.

(** X10. Under the same three conditions [generate_scenarios] returns
    a mapping with exactly the keys Custom, Conservative and Aggressive:
    Custom is the build on the caller's weights and custom list, the
    other two are the builds on the fixed weights without custom
    requests, and they hold no line of type Custom. *)
Theorem scenarios_returned (now : Z) (total_capital monthly_income_goal : Q)
    (fetcher : Fetcher) (user_weights : gmap string Q) (customs : list Custom) :
  Forall (fun c => truthy (get_stock_price fetcher (custom_symbol c)) = true) customs ->
  ~ (get_exchange_rate fetcher == 0)%Q ->
  histories_have_close fetcher ->
  exists scenarios : gmap string Portfolio,
    generate_scenarios now total_capital monthly_income_goal fetcher
                       user_weights customs = Ok scenarios
    /\ dom scenarios = ({[ "Custom"; "Conservative"; "Aggressive" ]} : gset string)
    /\ (exists pf : Portfolio,
          scenarios !! "Custom" = Some pf
          /\ calculate_portfolio now total_capital monthly_income_goal fetcher
                                 user_weights customs = Ok pf)
    /\ (exists pf : Portfolio,
          scenarios !! "Conservative" = Some pf
          /\ calculate_portfolio now total_capital monthly_income_goal fetcher
                                 conservative_weights [] = Ok pf
          /\ Forall (fun l => line_type l <> "Custom") (portfolio_lines pf))
    /\ (exists pf : Portfolio,
          scenarios !! "Aggressive" = Some pf
          /\ calculate_portfolio now total_capital monthly_income_goal fetcher
                                 aggressive_weights [] = Ok pf
          /\ Forall (fun l => line_type l <> "Custom") (portfolio_lines pf)).
Proof.
  intros Hp Hu Hc.
  assert (Hok : exists scenarios : gmap string Portfolio,
             generate_scenarios now total_capital monthly_income_goal fetcher
                                user_weights customs = Ok scenarios).
  { unfold generate_scenarios.
    destruct (build_returns now fetcher total_capital monthly_income_goal
                user_weights customs Hp Hu Hc) as [p1 ->].
    cbn [mbind result_bind].
    destruct (build_returns now fetcher total_capital monthly_income_goal
                conservative_weights [] ltac:(constructor) Hu Hc) as [p2 ->].
    cbn [mbind result_bind].
    destruct (build_returns now fetcher total_capital monthly_income_goal
                aggressive_weights [] ltac:(constructor) Hu Hc) as [p3 ->].
    cbn [mbind result_bind]. eauto. }
  destruct Hok as [scenarios Hs]. exists scenarios. split; [exact Hs|].
  now apply (generate_scenarios_shape now total_capital monthly_income_goal
               fetcher user_weights customs).
Qed.

Lemma scenarios_returned_witness :
  exists scenarios : gmap string Portfolio,
    generate_scenarios 0 1000 0 Examples.two_quotes Examples.half_stock_half_etf
                       [Examples.duplicate_request] = Ok scenarios
    /\ dom scenarios = ({[ "Custom"; "Conservative"; "Aggressive" ]} : gset string).
Proof.
  destruct (scenarios_returned 0 1000 0 Examples.two_quotes
              Examples.half_stock_half_etf [Examples.duplicate_request])
    as (scenarios & Hs & Hd & _).
  - repeat constructor.
  - discriminate.
  - exact two_quotes_have_close.
  - exists scenarios. split; assumption.
Defined.

(** A build never spends more than the capital. *)
Lemma total_cost_within_capital (now : Z) (total_capital monthly_income_goal : Q)
    (fetcher : Fetcher) (weights : gmap string Q) (customs : list Custom)
    (pf : Portfolio) :
  (0 <= total_capital)%Q ->
  Forall (fun c => (0 <= custom_weight c)%Q) customs ->
  (0 <= default 0 (weights !! "Stock"))%Q ->
  (0 <= default 0 (weights !! "ETF"))%Q ->
  (0 <= default 0 (weights !! "Bond"))%Q ->
  (default 0 (weights !! "Stock") + default 0 (weights !! "ETF")
   + default 0 (weights !! "Bond") <= 1)%Q ->
  (0 <= remaining_after fetcher total_capital customs)%Q ->
  calculate_portfolio now total_capital monthly_income_goal fetcher weights customs
  = Ok pf ->
  (0 <= App.total_cost (portfolio_lines pf))%Q
  /\ (App.total_cost (portfolio_lines pf) <= total_capital)%Q.
Proof.
  intros Ht Hw Hs He Hb Hsum Hrem Hpf.
  destruct (calculate_portfolio_anatomy _ _ _ _ _ _ _ Hpf)
    as (cl & s & e & b & -> & Hc & Hms & Hme & Hmb & Hpos).
  destruct (custom_lines_cost _ _ _ _ _ total_capital Ht Hw Hc) as [Hc0 Hc1].
  fold (remaining_after fetcher total_capital customs) in Hc1.
  set (r := remaining_after fetcher total_capital customs) in *.
  destruct (category_lines_cost _ _ _ _ _ _ Hms) as (_ & Hs0 & Hs1).
  destruct (category_lines_cost _ _ _ _ _ _ Hme) as (_ & He0 & He1).
  destruct (category_lines_cost _ _ _ _ _ _ Hmb) as (_ & Hb0 & Hb1).
  unfold category_capital in Hs1, He1, Hb1.
  rewrite !total_cost_app.
  split; [lra|].
  destruct Hpos as [Hr|(-> & -> & ->)].
  - assert (H1 : (0 <= r * default 0 (weights !! "Stock"))%Q)
      by (apply Qmult_le_0_compat; lra).
    assert (H2 : (0 <= r * default 0 (weights !! "ETF"))%Q)
      by (apply Qmult_le_0_compat; lra).
    assert (H3 : (0 <= r * default 0 (weights !! "Bond"))%Q)
      by (apply Qmult_le_0_compat; lra).
    specialize (Hs1 H1). specialize (He1 H2). specialize (Hb1 H3).
    assert (H4 : (0 <= r * (1 - (default 0 (weights !! "Stock")
                                 + default 0 (weights !! "ETF")
                                 + default 0 (weights !! "Bond"))))%Q)
      by (apply Qmult_le_0_compat; lra).
    lra.
  - change (App.total_cost []) with 0%Q. lra.
Qed.

(** X11. With a non-negative capital, non-negative custom weights,
    non-negative category weights that add up to at most 1, and custom
    requests that leave a non-negative remaining capital, the lines of a
    returned portfolio cost in total between 0 and the capital. *)
Theorem spending_within_capital (now : Z) (total_capital monthly_income_goal : Q)
    (fetcher : Fetcher) (weights : gmap string Q) (customs : list Custom)
    (pf : Portfolio) :
  (0 <= total_capital)%Q ->
  Forall (fun c => (0 <= custom_weight c)%Q) customs ->
  (0 <= default 0 (weights !! "Stock"))%Q ->
  (0 <= default 0 (weights !! "ETF"))%Q ->
  (0 <= default 0 (weights !! "Bond"))%Q ->
  (default 0 (weights !! "Stock") + default 0 (weights !! "ETF")
   + default 0 (weights !! "Bond") <= 1)%Q ->
  (0 <= remaining_after fetcher total_capital customs)%Q ->
  calculate_portfolio now total_capital monthly_income_goal fetcher weights customs
  = Ok pf ->
  (0 <= App.total_cost (portfolio_lines pf))%Q
  /\ (App.total_cost (portfolio_lines pf) <= total_capital)%Q.
Proof. apply total_cost_within_capital. Qed.

Lemma spending_within_capital_witness :
  exists pf : Portfolio,
    calculate_portfolio 0 1000 0 Examples.two_quotes Examples.half_stock_half_etf
                        [Examples.duplicate_request] = Ok pf
    /\ (App.total_cost (portfolio_lines pf) == 450)%Q
    /\ (App.total_cost (portfolio_lines pf) <= 1000)%Q.
Proof.
  destruct (calculate_portfolio 0 1000 0 Examples.two_quotes
              Examples.half_stock_half_etf [Examples.duplicate_request])
    as [pf|e] eqn:E; [|vm_compute in E; discriminate].
  exists pf. split; [reflexivity|]. split.
  - vm_compute in E. injection E as <-. reflexivity.
  - apply (spending_within_capital 0 1000 0 Examples.two_quotes
             Examples.half_stock_half_etf [Examples.duplicate_request] pf);
      try discriminate; [repeat constructor; discriminate|exact E].
Defined.

(** X12. The lines of a returned portfolio are one line of type
    Custom per custom request, in request order and with the request's
    symbol, followed by lines for static candidates in the order Stock,
    ETF, Bond of the pool (a subsequence of it), each with the
    candidate's symbol, name and type; so there are at most
    [len(custom_allocations) + 7] lines. *)
Theorem lines_follow_requests_then_pool (now : Z)
    (total_capital monthly_income_goal : Q)
    (fetcher : Fetcher) (weights : gmap string Q) (customs : list Custom)
    (pf : Portfolio) :
  calculate_portfolio now total_capital monthly_income_goal fetcher weights customs
  = Ok pf ->
  exists (custom_lines category_lines : list Line) (kept : list Candidate),
    portfolio_lines pf = custom_lines ++ category_lines
    /\ Forall2 (fun c l => line_symbol l = custom_symbol c /\ line_type l = "Custom")
               customs custom_lines
    /\ sublist kept visiting_order
    /\ Forall2 (fun c l => line_symbol l = cand_symbol c
                           /\ line_name l = cand_name c
                           /\ line_type l = cand_type c)
               kept category_lines
    /\ (length (portfolio_lines pf) <= length customs + 7)%nat.
Proof.
  intros Hpf.
  destruct (calculate_portfolio_anatomy _ _ _ _ _ _ _ Hpf)
    as (cl & s & e & b & Hl & Hc & (ks & Hss & Hms & _) & (ke & Hse & Hme & _)
        & (kb & Hsb & Hmb & _) & _).
  assert (Hweak : forall (per : Q) (k : list Candidate) (n : list Line),
             Forall2 (candidate_made fetcher (get_exchange_rate fetcher) per) k n ->
             Forall2 (fun c l => line_symbol l = cand_symbol c
                                 /\ line_name l = cand_name c
                                 /\ line_type l = cand_type c) k n).
  { intros per k n H. eapply Forall2_impl; [exact H|].
    intros c l (price & _ & _ & H1 & H2 & H3 & _). now repeat split. }
  assert (Hcw : Forall2 (fun c l => line_symbol l = custom_symbol c
                                    /\ line_type l = "Custom") customs cl).
  { eapply Forall2_impl; [exact Hc|].
    intros c l (price & _ & _ & H1 & H2 & _). now split. }
  assert (Hsub : sublist (ks ++ ke ++ kb) visiting_order).
  { unfold visiting_order. repeat apply sublist_app; assumption. }
  assert (Hcat : Forall2 (fun c l => line_symbol l = cand_symbol c
                                     /\ line_name l = cand_name c
                                     /\ line_type l = cand_type c)
                         (ks ++ ke ++ kb) (s ++ e ++ b)).
  { repeat apply Forall2_app; eapply Hweak; eassumption. }
  exists cl, (s ++ e ++ b), (ks ++ ke ++ kb).
  split; [exact Hl|]. split; [exact Hcw|]. split; [exact Hsub|].
  split; [exact Hcat|].
  rewrite Hl, length_app.
  apply Forall2_length in Hcw, Hcat. apply sublist_length in Hsub.
  change (length visiting_order) with 7%nat in Hsub. lia.
Qed.

Lemma lines_follow_requests_then_pool_witness :
  exists pf : Portfolio,
    calculate_portfolio 0 1000 0 Examples.two_quotes Examples.half_stock_half_etf
                        [Examples.duplicate_request] = Ok pf
    /\ map line_symbol (portfolio_lines pf) = ["2330.TW"; "2330.TW"; "0050.TW"]
    /\ (length (portfolio_lines pf) <= 1 + 7)%nat.
Proof.
  destruct (calculate_portfolio 0 1000 0 Examples.two_quotes
              Examples.half_stock_half_etf [Examples.duplicate_request])
    as [pf|e] eqn:E; [|vm_compute in E; discriminate].
  exists pf. split; [reflexivity|]. split.
  - vm_compute in E. injection E as <-. reflexivity.
  - destruct (lines_follow_requests_then_pool _ _ _ _ _ _ _ E)
      as (_ & _ & _ & _ & _ & _ & _ & H). exact H.
Defined.



(** X14. Every line of a returned portfolio carries the provider's
    price for its symbol, which is not zero, and its home-currency price
    is that price times the exchange rate exactly when the symbol ends
    neither in [.TW] nor in [.TWO] (the static candidates are converted
    by the market field of the pool, which agrees with the suffix). *)
Theorem home_price_converted_by_suffix (now : Z)
    (total_capital monthly_income_goal : Q)
    (fetcher : Fetcher) (weights : gmap string Q) (customs : list Custom)
    (pf : Portfolio) (l : Line) :
  calculate_portfolio now total_capital monthly_income_goal fetcher weights customs
  = Ok pf ->
  In l (portfolio_lines pf) ->
  get_stock_price fetcher (line_symbol l) = Some (line_price l)
  /\ ~ (line_price l == 0)%Q
  /\ line_price_twd l
     = (if is_us (line_symbol l)
        then (line_price l * exchange_rate pf)%Q else line_price l).
Proof.
  intros Hpf Hin.
  destruct (line_shape _ _ _ _ _ _ _ _ Hpf Hin) as (y & Hp & Hne & Htwd & _).
  assert (Hr : exchange_rate pf = get_exchange_rate fetcher).
  { unfold calculate_portfolio in Hpf. cbv zeta in Hpf.
    destruct (for_each _ customs _) as [[p r]|e]; [|discriminate].
    cbn [mbind result_bind] in Hpf.
    destruct (category_pass _ _ _ _ _ _) as [p'|e]; [|discriminate].
    cbn [mbind result_bind] in Hpf.
    destruct (reconstruct_history _ _ _) as [h|e]; [|discriminate].
    cbn [mbind result_bind] in Hpf. now injection Hpf as <-. }
  rewrite Hr. repeat split; assumption.
Qed.

Lemma home_price_converted_by_suffix_witness :
  exists (pf : Portfolio) (l : Line),
    calculate_portfolio 0 1000 0 Examples.two_quotes Examples.half_stock_half_etf []
    = Ok pf
    /\ In l (portfolio_lines pf)
    /\ line_price_twd l = line_price l.
Proof.
  destruct (calculate_portfolio 0 1000 0 Examples.two_quotes
              Examples.half_stock_half_etf []) as [pf|e] eqn:E;
    [|vm_compute in E; discriminate].
  assert (Hl : exists l rest, portfolio_lines pf = l :: rest
                              /\ is_us (line_symbol l) = false).
  { vm_compute in E. injection E as <-. eexists _, _. split; reflexivity. }
  destruct Hl as (l & rest & Hl & Hus).
  assert (Hin : In l (portfolio_lines pf)) by (rewrite Hl; now left).
  exists pf, l. split; [reflexivity|]. split; [exact Hin|].
  destruct (home_price_converted_by_suffix _ _ _ _ _ _ _ _ E Hin) as (_ & _ & H).
  now rewrite Hus in H.
Defined.

(** X15. In every line of a returned portfolio the cost is the
    quantity times the home-currency price, and the estimated annual
    income is the cost times the displayed yield percentage over 100. *)
Theorem line_amounts_consistent (now : Z) (total_capital monthly_income_goal : Q)
    (fetcher : Fetcher) (weights : gmap string Q) (customs : list Custom)
    (pf : Portfolio) (l : Line) :
  calculate_portfolio now total_capital monthly_income_goal fetcher weights customs
  = Ok pf ->
  In l (portfolio_lines pf) ->
  line_cost_twd l = (inject_Z (line_quantity l) * line_price_twd l)%Q
  /\ (line_est_annual_income l * 100 == line_cost_twd l * line_yield_rate l)%Q.
Proof.
  intros Hpf Hin.
  destruct (line_shape _ _ _ _ _ _ _ _ Hpf Hin) as (y & _ & _ & _ & Hc & Hi & Hy).
  split; [exact Hc|]. rewrite Hi, Hy. ring.
Qed.

Lemma line_amounts_consistent_witness :
  exists (pf : Portfolio) (l : Line),
    calculate_portfolio 0 1000 0 Examples.two_quotes Examples.half_stock_half_etf []
    = Ok pf
    /\ In l (portfolio_lines pf)
    /\ line_cost_twd l = (inject_Z (line_quantity l) * line_price_twd l)%Q.
Proof.
  destruct (calculate_portfolio 0 1000 0 Examples.two_quotes
              Examples.half_stock_half_etf []) as [pf|e] eqn:E;
    [|vm_compute in E; discriminate].
  assert (Hl : exists l rest, portfolio_lines pf = l :: rest).
  { vm_compute in E. injection E as <-. eexists _, _. reflexivity. }
  destruct Hl as (l & rest & Hl).
  assert (Hin : In l (portfolio_lines pf)) by (rewrite Hl; now left).
  exists pf, l. split; [reflexivity|]. split; [exact Hin|].
  now destruct (line_amounts_consistent _ _ _ _ _ _ _ _ E Hin).
Defined.

End PortfolioMore.

(** ** The computations of app.py *)

Section AppFacts.

Import PortfolioCalculator Design.

Lemma total_income_from (lines : list Line) (acc : Q) :
  (fold_left (fun acc item => acc + line_est_annual_income item) lines acc
   == acc + App.total_income lines)%Q.
Proof.
  unfold App.total_income. revert acc.
  induction lines as [|l lines IH]; intros acc; cbn [fold_left]; [ring|].
  rewrite (IH (acc + line_est_annual_income l)%Q),
          (IH (0 + line_est_annual_income l)%Q). ring.
Qed.

Lemma total_income_cons (l : Line) (lines : list Line) :
  (App.total_income (l :: lines)
   == line_est_annual_income l + App.total_income lines)%Q.
Proof.
  unfold App.total_income at 1. cbn [fold_left]. rewrite total_income_from. ring.
Qed.

(** The total income is the cost-weighted sum of the line yields. *)
Lemma weighted_income_bounds (lo hi : Q) (lines : list Line) :
  Forall (fun l => (0 <= line_cost_twd l)%Q
                   /\ (line_est_annual_income l * 100
                       == line_cost_twd l * line_yield_rate l)%Q
                   /\ (lo <= line_yield_rate l)%Q
                   /\ (line_yield_rate l <= hi)%Q) lines ->
  (lo * App.total_cost lines <= App.total_income lines * 100)%Q
  /\ (App.total_income lines * 100 <= hi * App.total_cost lines)%Q.
Proof.
  induction 1 as [|l lines (Hc & Hi & Hlo & Hhi) _ [IH0 IH1]].
  - change (App.total_cost []) with 0%Q. change (App.total_income []) with 0%Q.
    split; lra.
  - rewrite total_cost_cons, total_income_cons.
    assert (H1 : (0 <= line_cost_twd l * (line_yield_rate l - lo))%Q)
      by (apply Qmult_le_0_compat; lra).
    assert (H2 : (0 <= line_cost_twd l * (hi - line_yield_rate l))%Q)
      by (apply Qmult_le_0_compat; lra).
    split; lra.
Qed.

(** The lines of a returned portfolio have non-negative costs when
    the capital and the custom weights are not negative. *)
Lemma line_costs_nonneg (now : Z) (total_capital monthly_income_goal : Q)
    (fetcher : Fetcher) (weights : gmap string Q) (customs : list Custom)
    (pf : Portfolio) :
  (0 <= total_capital)%Q ->
  Forall (fun c => (0 <= custom_weight c)%Q) customs ->
  calculate_portfolio now total_capital monthly_income_goal fetcher weights customs
  = Ok pf ->
  Forall (fun l => (0 <= line_cost_twd l)%Q) (portfolio_lines pf).
Proof.
  intros Ht Hw Hpf.
  destruct (calculate_portfolio_anatomy _ _ _ _ _ _ _ Hpf)
    as (cl & s & e & b & -> & Hc & Hms & Hme & Hmb & _).
  destruct (category_lines_cost _ _ _ _ _ _ Hms) as (Hs & _).
  destruct (category_lines_cost _ _ _ _ _ _ Hme) as (He & _).
  destruct (category_lines_cost _ _ _ _ _ _ Hmb) as (Hb & _).
  rewrite !Forall_app. repeat split; try assumption.
  apply List.Forall_forall. intros l Hl.
  destruct (Forall2_In_r _ _ _ _ Hc Hl) as (c & Hcin & Hm).
  rewrite List.Forall_forall in Hw.
  apply (custom_line_cost _ _ _ _ _ Hm).
  apply Qmult_le_0_compat; [assumption|now apply Hw].
Qed.

(** X16. The yield that [display_portfolio_result] shows is a
    cost-weighted average: for a portfolio returned for a non-negative
    capital and non-negative custom weights, with a positive total cost,
    it lies between any two bounds of the yield percentages of the
    lines. *)
Theorem actual_yield_between_line_yields (now : Z)
    (total_capital monthly_income_goal : Q)
    (fetcher : Fetcher) (weights : gmap string Q) (customs : list Custom)
    (pf : Portfolio) (lo hi : Q) :
  (0 <= total_capital)%Q ->
  Forall (fun c => (0 <= custom_weight c)%Q) customs ->
  calculate_portfolio now total_capital monthly_income_goal fetcher weights customs
  = Ok pf ->
  Forall (fun l => (lo <= line_yield_rate l)%Q /\ (line_yield_rate l <= hi)%Q)
         (portfolio_lines pf) ->
  (0 < App.total_cost (portfolio_lines pf))%Q ->
  (lo <= App.actual_yield (portfolio_lines pf))%Q
  /\ (App.actual_yield (portfolio_lines pf) <= hi)%Q.
Proof.
  intros Ht Hw Hpf Hy Hcost.
  pose proof (line_costs_nonneg _ _ _ _ _ _ _ Ht Hw Hpf) as Hnn.
  assert (Hall : Forall (fun l => (0 <= line_cost_twd l)%Q
                                  /\ (line_est_annual_income l * 100
                                      == line_cost_twd l * line_yield_rate l)%Q
                                  /\ (lo <= line_yield_rate l)%Q
                                  /\ (line_yield_rate l <= hi)%Q)
                        (portfolio_lines pf)).
  { apply List.Forall_forall. intros l Hl.
    rewrite List.Forall_forall in Hnn, Hy.
    destruct (line_shape _ _ _ _ _ _ _ _ Hpf Hl) as (y & _ & _ & _ & _ & Hi & Hr).
    destruct (Hy l Hl) as [Hlo Hhi].
    split; [now apply Hnn|]. split; [rewrite Hi, Hr; ring|now split]. }
  destruct (weighted_income_bounds lo hi _ Hall) as [H0 H1].
  unfold App.actual_yield. apply Qltb_true in Hcost as Hb. rewrite Hb.
  set (c := App.total_cost (portfolio_lines pf)) in *.
  set (i := App.total_income (portfolio_lines pf)) in *.
  assert (He : (i / c * 100 == i * 100 / c)%Q) by (field; lra).
  rewrite He. split.
  - apply Qle_shift_div_l; [assumption|]. lra.
  - apply Qle_shift_div_r; [assumption|]. lra.
Qed.

Lemma actual_yield_between_line_yields_witness :
  exists pf : Portfolio,
    calculate_portfolio 0 1000 0 Examples.two_yields Examples.half_stock_half_etf []
    = Ok pf
    /\ (4 <= App.actual_yield (portfolio_lines pf))%Q
    /\ (App.actual_yield (portfolio_lines pf) <= 6)%Q.
Proof.
  destruct (calculate_portfolio 0 1000 0 Examples.two_yields
              Examples.half_stock_half_etf []) as [pf|e] eqn:E;
    [|vm_compute in E; discriminate].
  exists pf. split; [reflexivity|].
  apply (actual_yield_between_line_yields 0 1000 0 Examples.two_yields
           Examples.half_stock_half_etf [] pf 4 6);
    [discriminate|constructor|exact E| |].
  - vm_compute in E. injection E as <-. repeat constructor; discriminate.
  - vm_compute in E. injection E as <-. reflexivity.
Defined.



Lemma keep_unpressed_sublist (pressed : nat -> bool) (allocs : list Custom) (i : nat) :
  sublist (App.keep_unpressed i pressed allocs) allocs.
Proof.
  revert i. induction allocs as [|c allocs IH]; intros i; cbn [App.keep_unpressed].
  - constructor.
  - destruct (pressed i); [apply sublist_cons|apply sublist_skip]; apply IH.
Qed.

(** X18. The custom list of the sidebar only ever holds valid
    requests: adding through the form (weight field bounded by 100)
    keeps every entry with a non-empty symbol and a weight in (0, 1], an
    invalid entry is not added, and pressing delete buttons leaves a
    subsequence of the list, hence valid requests again. *)
Theorem custom_list_stays_valid (allocs : list Custom) (symbol : string)
    (weight : Z) (pressed : nat -> bool) :
  Forall valid_request allocs ->
  (weight <= 100)%Z ->
  Forall valid_request (App.add_custom allocs symbol weight)
  /\ (symbol = "" \/ (weight <= 0)%Z -> App.add_custom allocs symbol weight = allocs)
  /\ sublist (App.keep_unpressed 0 pressed allocs) allocs
  /\ Forall valid_request (App.keep_unpressed 0 pressed allocs).
Proof.
  intros Hv Hw. split; [|split; [|split]].
  - unfold App.add_custom.
    destruct (String.eqb_spec symbol "") as [->|Hs]; cbn [negb andb]; [assumption|].
    destruct (Z.ltb_spec 0 weight) as [Hp|Hp]; [|assumption].
    apply Forall_app. split; [assumption|]. constructor; [|constructor].
    unfold valid_request. cbn [custom_symbol custom_weight].
    split; [assumption|]. split.
    + apply Qlt_shift_div_l; [reflexivity|]. rewrite Qmult_0_l.
      change 0%Q with (inject_Z 0). rewrite <- Zlt_Qlt. assumption.
    + apply Qle_shift_div_r; [reflexivity|]. rewrite Qmult_1_l.
      change 100%Q with (inject_Z 100). rewrite <- Zle_Qle. assumption.
  - unfold App.add_custom. intros [->|Hle]; [reflexivity|].
    destruct (Z.ltb_spec 0 weight); [lia|]. now rewrite andb_false_r.
  - apply keep_unpressed_sublist.
  - apply List.Forall_forall. intros c Hc.
    rewrite List.Forall_forall in Hv. apply Hv.
    eapply sublist_In; [apply keep_unpressed_sublist|exact Hc].
Qed.

Lemma custom_list_stays_valid_witness :
  Forall valid_request (App.add_custom [] "2330.TW" 10)
  /\ App.add_custom [] "" 10 = [].
Proof.
  destruct (custom_list_stays_valid [] "2330.TW" 10 (fun _ => false))
    as (H & _); [constructor|lia|].
  split; [exact H|reflexivity].
Defined.

(** The provider [two_quotes] lets [generate_scenarios] return. *)
Lemma scenarios_returned_build (now : Z) (total_capital monthly_income_goal : Q)
    (user_weights : gmap string Q) (customs : list Custom) :
  Forall (fun c => truthy (get_stock_price Examples.two_quotes (custom_symbol c)) = true)
         customs ->
  exists scenarios : gmap string Portfolio,
    generate_scenarios now total_capital monthly_income_goal Examples.two_quotes
                       user_weights customs = Ok scenarios.
Proof.
  intros Hp. unfold generate_scenarios.
  assert (Hu : ~ (get_exchange_rate Examples.two_quotes == 0)%Q) by discriminate.
  destruct (build_returns now Examples.two_quotes total_capital monthly_income_goal
              user_weights customs Hp Hu two_quotes_have_close) as [p1 ->].
  cbn [mbind result_bind].
  destruct (build_returns now Examples.two_quotes total_capital monthly_income_goal
              conservative_weights [] ltac:(constructor) Hu two_quotes_have_close)
    as [p2 ->].
  cbn [mbind result_bind].
  destruct (build_returns now Examples.two_quotes total_capital monthly_income_goal
              aggressive_weights [] ltac:(constructor) Hu two_quotes_have_close)
    as [p3 ->].
  cbn [mbind result_bind]. eauto.
Qed.

Lemma user_weights_lookup (w_stock w_etf w_bond : Z) :
  default 0%Q (App.user_weights w_stock w_etf w_bond !! "Stock")
  = (inject_Z w_stock / 100)%Q
  /\ default 0%Q (App.user_weights w_stock w_etf w_bond !! "ETF")
     = (inject_Z w_etf / 100)%Q
  /\ default 0%Q (App.user_weights w_stock w_etf w_bond !! "Bond")
     = (inject_Z w_bond / 100)%Q.
Proof. repeat split. Qed.

Lemma percent_nonneg (w : Z) : (0 <= w)%Z -> (0 <= inject_Z w / 100)%Q.
Proof.
  intros H. apply Qle_shift_div_l; [reflexivity|]. rewrite Qmult_0_l.
  change 0%Q with (inject_Z 0). now rewrite <- Zle_Qle.
Qed.

(** X19. A click on the enabled generate button passes category
    weights that add up to exactly 1; with non-negative weight fields, a
    non-negative capital and valid custom requests that leave a
    non-negative remaining capital, every scenario of the returned
    mapping costs in total between 0 and the capital. *)
Theorem app_scenarios_within_capital (now : Z) (total_capital monthly_income_goal : Q)
    (fetcher : Fetcher) (w_stock w_etf w_bond : Z) (customs : list Custom)
    (scenarios : gmap string Portfolio) :
  (0 <= w_stock)%Z -> (0 <= w_etf)%Z -> (0 <= w_bond)%Z ->
  (0 <= total_capital)%Q ->
  Forall valid_request customs ->
  (0 <= remaining_after fetcher total_capital customs)%Q ->
  App.generate now total_capital monthly_income_goal fetcher
               w_stock w_etf w_bond customs = Some (Ok scenarios) ->
  (inject_Z w_stock / 100 + inject_Z w_etf / 100 + inject_Z w_bond / 100 == 1)%Q
  /\ forall (name : string) (pf : Portfolio),
       scenarios !! name = Some pf ->
       (0 <= App.total_cost (portfolio_lines pf))%Q
       /\ (App.total_cost (portfolio_lines pf) <= total_capital)%Q.
Proof.
  intros Hs He Hb Ht Hv Hrem Hgen. unfold App.generate in Hgen.
  destruct (App.generate_disabled w_stock w_etf w_bond) eqn:Ed; [discriminate|].
  injection Hgen as Hgen.
  assert (Hsum : (inject_Z w_stock / 100 + inject_Z w_etf / 100
                  + inject_Z w_bond / 100 == 1)%Q).
  { unfold App.generate_disabled, App.total_weight in Ed.
    apply negb_false_iff, Z.eqb_eq in Ed.
    assert (Hq : (inject_Z w_stock + inject_Z w_etf + inject_Z w_bond == 100)%Q).
    { rewrite <- !inject_Z_plus, Ed. reflexivity. }
    assert (Hd : (inject_Z w_stock / 100 + inject_Z w_etf / 100
                  + inject_Z w_bond / 100
                  == (inject_Z w_stock + inject_Z w_etf + inject_Z w_bond) / 100)%Q)
      by field.
    rewrite Hd, Hq. reflexivity. }
  split; [exact Hsum|].
  assert (Hw : Forall (fun c => (0 <= custom_weight c)%Q) customs).
  { eapply Forall_impl; [exact Hv|]. intros c (_ & H & _). lra. }
  destruct (generate_scenarios_shape _ _ _ _ _ _ _ Hgen)
    as (Hdom & (p1 & Hl1 & Hp1) & (p2 & Hl2 & Hp2 & _) & (p3 & Hl3 & Hp3 & _)).
  intros name pf Hname.
  assert (Hin : name ∈ dom scenarios) by (apply elem_of_dom; eauto).
  rewrite Hdom in Hin.
  assert (Hcases : name = "Custom" \/ name = "Conservative" \/ name = "Aggressive").
  { apply elem_of_union in Hin as [Hin|Hin];
      [apply elem_of_union in Hin as [Hin|Hin]|];
      apply elem_of_singleton in Hin; auto. }
  destruct (user_weights_lookup w_stock w_etf w_bond) as (Us & Ue & Ub).
  destruct Hcases as [-> | [-> | ->]].
  - assert (pf = p1) by congruence. subst pf.
    apply (total_cost_within_capital now total_capital monthly_income_goal fetcher
             (App.user_weights w_stock w_etf w_bond) customs p1);
      try assumption.
    + rewrite Us. now apply percent_nonneg.
    + rewrite Ue. now apply percent_nonneg.
    + rewrite Ub. now apply percent_nonneg.
    + rewrite Us, Ue, Ub, Hsum. lra.
  - assert (pf = p2) by congruence. subst pf.
    apply (total_cost_within_capital now total_capital monthly_income_goal fetcher
             conservative_weights [] p2);
      try assumption; try discriminate; constructor.
  - assert (pf = p3) by congruence. subst pf.
    apply (total_cost_within_capital now total_capital monthly_income_goal fetcher
             aggressive_weights [] p3);
      try assumption; try discriminate; constructor.
Qed.

Lemma app_scenarios_within_capital_witness :
  exists scenarios : gmap string Portfolio,
    App.generate 0 1000 0 Examples.two_quotes 50 30 20
                 [Examples.duplicate_request] = Some (Ok scenarios)
    /\ forall (name : string) (pf : Portfolio),
         scenarios !! name = Some pf ->
         (App.total_cost (portfolio_lines pf) <= 1000)%Q.
Proof.
  destruct (scenarios_returned_build 0 1000 0
              (App.user_weights 50 30 20) [Examples.duplicate_request]
              ltac:(repeat constructor))
    as [scenarios Hs].
  exists scenarios.
  assert (Hg : App.generate 0 1000 0 Examples.two_quotes 50 30 20
                 [Examples.duplicate_request] = Some (Ok scenarios)).
  { unfold App.generate. cbn [App.generate_disabled]. now rewrite <- Hs. }
  split; [exact Hg|].
  intros name pf Hn.
  destruct (app_scenarios_within_capital 0 1000 0 Examples.two_quotes 50 30 20
              [Examples.duplicate_request] scenarios) as [_ H];
    try lia; try discriminate; try exact Hg.
  - repeat constructor; discriminate.
  - now destruct (H name pf Hn).
Defined.

End AppFacts.

(** ** More on the backtest *)

Section BacktestMore.

Import PortfolioCalculator Design.

Lemma insert_date_hd (d a : Z) (index : list Z) :
  (a < d)%Z -> HdRel Z.lt a index -> HdRel Z.lt a (insert_date d index).
Proof.
  intros Had H. destruct index as [|x rest]; cbn [insert_date]; [now constructor|].
  destruct (d <? x)%Z; [now constructor|].
  destruct (d =? x)%Z; [assumption|].
  constructor. now inversion H.
Qed.

(** Inserting a date keeps an index in strictly increasing order. *)
Lemma insert_date_sorted (d : Z) (index : list Z) :
  Sorted Z.lt index -> Sorted Z.lt (insert_date d index).
Proof.
  induction 1 as [|x rest Hs IH Hhd]; cbn [insert_date].
  - repeat constructor.
  - destruct (Z.ltb_spec d x) as [Hlt|Hge].
    + constructor; [now constructor|now constructor].
    + destruct (Z.eqb_spec d x) as [->|Hne]; [now constructor|].
      constructor; [exact IH|]. apply insert_date_hd; [lia|assumption].
Qed.

Lemma index_union_sorted (left right : list Z) :
  Sorted Z.lt left -> Sorted Z.lt (index_union left right).
Proof.
  unfold index_union. revert left.
  induction right as [|d right IH]; intros left H; [exact H|].
  cbn [fold_left]. apply IH. now apply insert_date_sorted.
Qed.

Variables (fetcher : Fetcher) (usd_twd : Q).

Lemma value_column_dates (item : Line) :
  map fst (snd (value_column fetcher usd_twd item))
  = df_index (get_historical_data fetcher (line_symbol item) "6mo").
Proof.
  unfold value_column, close_series, df_index. cbn [snd].
  destruct (is_us (line_symbol item)); rewrite !map_map; reflexivity.
Qed.

Lemma history_loop_sorted (portfolio : list Line) (f f' : Frame) :
  (forall symbol : string,
     Sorted Z.lt (df_index (get_historical_data fetcher symbol "6mo"))) ->
  Sorted Z.lt (frame_index f) ->
  for_each (history_step fetcher usd_twd) portfolio f = Ok f' ->
  Sorted Z.lt (frame_index f').
Proof.
  intros Hs. revert f. induction portfolio as [|item rest IH]; intros f Hf H.
  - cbn in H. now injection H as <-.
  - cbn [for_each] in H.
    destruct (history_step fetcher usd_twd f item) as [f1|e] eqn:E; [|discriminate].
    cbn [mbind result_bind] in H. apply (IH f1); [|exact H].
    apply history_step_ok in E as [[_ ->]|(_ & _ & ->)]; [assumption|].
    destruct (frame_empty f).
    + cbn [frame_index]. rewrite value_column_dates. apply Hs.
    + destruct (negb (has_symbol f (line_symbol item))); [|assumption].
      cbn [join_outer frame_index]. now apply index_union_sorted.
Qed.

(** X20. When every six-month history the provider returns is in
    strictly increasing date order, so is the aggregate history of a
    portfolio: its dates are in order and none occurs twice. *)
Theorem aggregate_history_in_date_order (portfolio : list Line)
    (history : list (Z * option Q)) :
  (forall symbol : string,
     Sorted Z.lt (df_index (get_historical_data fetcher symbol "6mo"))) ->
  reconstruct_history fetcher usd_twd portfolio = Ok history ->
  Sorted Z.lt (map fst history).
Proof.
  intros Hs. unfold reconstruct_history.
  destruct (for_each _ portfolio empty_frame) as [f|e] eqn:E; [|discriminate].
  cbn [mbind result_bind]. intros [= <-].
  assert (Hd0 : dated empty_frame).
  { intros d'. cbn. split; [intros []|intros (col & [] & _)]. }
  assert (Hs0 : settled empty_frame) by (intros _; reflexivity).
  destruct (history_loop_dated fetcher usd_twd portfolio empty_frame f Hd0 Hs0 E)
    as [Hd Hse].
  rewrite (total_value_dates f Hd Hse).
  apply (history_loop_sorted portfolio empty_frame f Hs); [constructor|exact E].
Qed.

End BacktestMore.

Section BacktestWitnesses.

Import PortfolioCalculator Design.

Lemma two_quotes_sorted (symbol : string) :
  Sorted Z.lt (df_index (get_historical_data Examples.two_quotes symbol "6mo")).
Proof.
  cbn. destruct (String.eqb symbol "2330.TW"); [repeat constructor|].
  destruct (String.eqb symbol "0050.TW"); repeat constructor.
Qed.

Lemma aggregate_history_in_date_order_witness :
  exists history : list (Z * option Q),
    reconstruct_history Examples.two_quotes 32.5
      [Examples.holding "0050.TW" 3; Examples.holding "2330.TW" 1] = Ok history
    /\ Sorted Z.lt (map fst history).
Proof.
  eexists. split; [vm_compute; reflexivity|].
  apply (aggregate_history_in_date_order Examples.two_quotes 32.5
           [Examples.holding "0050.TW" 3; Examples.holding "2330.TW" 1]);
    [exact two_quotes_sorted|vm_compute; reflexivity].
Defined.

(** X21. The aggregate history of a portfolio is defined at a date
    exactly when some line that is the first to bear its symbol has a
    close on that date: its dates are the union of the per-symbol
    dates. *)
Theorem aggregate_defined_on_union (fetcher : Fetcher) (usd_twd : Q)
    (portfolio : list Line) (history : list (Z * option Q)) (d : Z) :
  reconstruct_history fetcher usd_twd portfolio = Ok history ->
  In d (map fst history)
  <-> exists l : Line,
        In l (first_bearers fetcher [] portfolio)
        /\ In d (df_index (get_historical_data fetcher (line_symbol l) "6mo")).
Proof.
  intros H. rewrite (aggregate_dates_are_the_union fetcher usd_twd _ _ d H).
  split; intros (l & Hl & Hd); exists l; (split; [exact Hl|]).
  - now rewrite <- (value_column_dates fetcher usd_twd l).
  - now rewrite (value_column_dates fetcher usd_twd l).
Qed.

Lemma aggregate_defined_on_union_witness :
  exists history : list (Z * option Q),
    reconstruct_history Examples.two_quotes 32.5
      [Examples.holding "0050.TW" 3; Examples.holding "2330.TW" 1] = Ok history
    /\ In 2%Z (map fst history).
Proof.
  eexists. split; [vm_compute; reflexivity|].
  apply (aggregate_defined_on_union Examples.two_quotes 32.5
           [Examples.holding "0050.TW" 3; Examples.holding "2330.TW" 1] _ 2);
    [vm_compute; reflexivity|].
  exists (Examples.holding "2330.TW" 1). split; [right; now left|right; now left].
Defined.

(** X22. When no line of the portfolio has a six-month history, the
    backtest returns the empty series. *)
Theorem aggregate_empty_without_history (fetcher : Fetcher) (usd_twd : Q)
    (portfolio : list Line) :
  Forall (fun l => df_empty (get_historical_data fetcher (line_symbol l) "6mo") = true)
         portfolio ->
  reconstruct_history fetcher usd_twd portfolio = Ok [].
Proof. apply no_history_no_aggregate. Qed.

Lemma aggregate_empty_without_history_witness :
  reconstruct_history Examples.two_quotes 32.5
    [Examples.holding "AAPL" 3; Examples.holding "VOO" 1] = Ok [].
Proof.
  apply aggregate_empty_without_history. repeat constructor.
Defined.

End BacktestWitnesses.

(** ** More on the market-data provider *)

Section DividendInfoMore.

Import DataFetcher Design.

(** The yield resolution itself never raises. *)
Lemma resolve_yield_returns (now : Z) (ticker : Ticker) (i : TickerInfo) (yield0 : Q) :
  exists y : Q, resolve_yield now ticker i yield0 = Ok y.
Proof.
  unfold resolve_yield. cbv zeta.
  destruct (dividendYield i); [eauto|].
  destruct (truthy (trailingAnnualDividendRate i)); cbn [andb]; [|eauto].
  destruct (truthy (py_or (currentPrice i) (regularMarketPreviousClose i))) eqn:E;
    [|eauto].
  destruct (py_or (currentPrice i) (regularMarketPreviousClose i)) as [p|];
    [|discriminate].
  cbn in E. cbn [default from_option id]. unfold py_div.
  apply negb_true_iff in E. rewrite E. eauto.
Qed.

(** X23. Yield, first source: when [ticker.info] carries a
    [dividendYield] the returned yield is that percentage over 100,
    whatever the other fields, the dividend history or the quote page
    say. *)
Theorem published_yield_wins (now : Z) (strftime : Z -> string)
    (scraped : option string) (ticker : Ticker) (symbol : string)
    (i : TickerInfo) (y : Q) :
  info ticker = Ok i -> dividendYield i = Some y ->
  di_yield (get_dividend_info now strftime scraped ticker symbol) = (y / 100)%Q.
Proof. apply published_yield_first. Qed.

Lemma published_yield_wins_witness :
  di_yield (get_dividend_info 1000 (fun _ => "2024/01/01") None
              {| info := Ok {| dividendYield := Some 1.36%Q;
                               trailingAnnualDividendRate := Some 5%Q;
                               currentPrice := Some 10%Q;
                               regularMarketPreviousClose := None;
                               exDividendDate := None |};
                 dividends := Ok [(990%Z, 1%Q)];
                 fast_info_last_price := Ok (Some 10%Q) |} "AAPL")
  = (1.36 / 100)%Q.
Proof.
  eapply published_yield_wins; reflexivity.
Defined.

(** X24. Yield, second source: without a [dividendYield], a non-zero
    trailing annual dividend rate and a non-zero price (the current
    price, else the previous close) give the yield rate over price. *)
Theorem trailing_rate_over_price (now : Z) (strftime : Z -> string)
    (scraped : option string) (ticker : Ticker) (symbol : string)
    (i : TickerInfo) (rate price : Q) :
  info ticker = Ok i -> dividendYield i = None ->
  trailingAnnualDividendRate i = Some rate ->
  py_or (currentPrice i) (regularMarketPreviousClose i) = Some price ->
  ~ (rate == 0)%Q -> ~ (price == 0)%Q ->
  di_yield (get_dividend_info now strftime scraped ticker symbol) = (rate / price)%Q.
Proof. apply trailing_rate_second. Qed.

Lemma trailing_rate_over_price_witness :
  di_yield (get_dividend_info 1000 (fun _ => "2024/01/01") None
              {| info := Ok {| dividendYield := None;
                               trailingAnnualDividendRate := Some 5%Q;
                               currentPrice := Some 0%Q;
                               regularMarketPreviousClose := Some 100%Q;
                               exDividendDate := None |};
                 dividends := Ok [];
                 fast_info_last_price := Ok None |} "AAPL")
  = (5 / 100)%Q.
Proof.
  eapply trailing_rate_over_price; try reflexivity; discriminate.
Defined.



(** X26. Date, fallback: when the provider gives no ex-dividend date
    (the info call raises, or the field is missing or zero), the date
    found on the quote page is returned for a [.TW] or [.TWO] symbol, and
    ["N/A"] when there is none or for any other symbol. *)
Theorem scraped_date_only_for_domestic (now : Z) (strftime : Z -> string)
    (scraped : option string) (ticker : Ticker) (symbol : string) :
  (forall i : TickerInfo,
     info ticker = Ok i ->
     exDividendDate i = None \/ exDividendDate i = Some 0%Z) ->
  di_date (get_dividend_info now strftime scraped ticker symbol)
  = if endswith symbol ".TW" || endswith symbol ".TWO"
    then default "N/A" scraped
    else "N/A".
Proof.
  intros Hno. unfold get_dividend_info.
  set (r1 := try_except _ _).
  assert (H1 : di_date r1 = "N/A").
  { subst r1. destruct (info ticker) as [i|e] eqn:Hi; [|reflexivity].
    cbn [mbind result_bind].
    destruct (resolve_yield_returns now ticker i 0%Q) as [y Hy].
    cbn [di_yield]. rewrite Hy. cbn [mbind result_bind].
    destruct (Hno i eq_refl) as [-> | ->]; reflexivity. }
  rewrite H1. cbn [String.eqb andb].
  change (String.eqb "N/A" "N/A") with true. cbn [andb].
  destruct (endswith symbol ".TW" || endswith symbol ".TWO"); [|exact H1].
  destruct scraped; [reflexivity|exact H1].
Qed.

Lemma scraped_date_only_for_domestic_witness :
  di_date (get_dividend_info 1000 (fun _ => "2024/01/01") (Some "2023/06/15")
             {| info := Raise (ProviderError "timeout");
                dividends := Ok [];
                fast_info_last_price := Ok None |} "AAPL")
  = "N/A".
Proof.
  apply (scraped_date_only_for_domestic 1000 (fun _ => "2024/01/01")
           (Some "2023/06/15") _ "AAPL").
  intros i Hi. discriminate Hi.
Defined.

End DividendInfoMore.

Section RatesAndSeries.

Import PortfolioCalculator Design.

Lemma last_map {A B : Type} (f : A -> B) (l : list A) :
  last (map f l) = f <$> last l.
Proof.
  induction l as [|x l IH]; [reflexivity|].
  destruct l as [|y l]; [reflexivity|]. exact IH.
Qed.

(** X27. [get_exchange_rate] always answers a usable rate: when the
    quote, if there is one, is not negative and the closes of the one-day
    history are positive, the rate is positive, also when any provider
    call raises or the history lacks its Close column. *)
Theorem exchange_rate_positive (ticker : Provider.Ticker) :
  (forall p : Q, Provider.fast_info_last_price ticker = Ok (Some p) -> (0 <= p)%Q) ->
  (forall hist : DataFrame,
     Provider.history ticker "1d" = Ok hist ->
     Forall (fun b => (0 < bar_Close b)%Q) (df_rows hist)) ->
  (0 < Provider.get_exchange_rate ticker)%Q.
Proof.
  intros Hfast Hhist. unfold Provider.get_exchange_rate.
  assert (Hrest : (0 < try_except
                         (hist ← Provider.history ticker "1d";
                          if negb (df_empty hist) then Provider.last_close hist
                          else Ok 32.5%Q)
                         (fun _ => 32.5%Q))%Q).
  { destruct (Provider.history ticker "1d") as [hist|e] eqn:Eh; [|reflexivity].
    cbn [mbind result_bind]. specialize (Hhist hist eq_refl).
    destruct (df_empty hist); cbn [negb]; [reflexivity|].
    unfold Provider.last_close, get_column.
    destruct (has_column hist Close); [|reflexivity].
    cbn [mbind result_bind]. rewrite last_map.
    destruct (last (df_rows hist)) as [b|] eqn:El; [|reflexivity].
    cbn. rewrite List.Forall_forall in Hhist. apply Hhist.
    apply list_elem_of_In. eapply list_elem_of_lookup_2.
    rewrite <- last_lookup. exact El. }
  destruct (Provider.fast_info_last_price ticker) as [price|e] eqn:Ef;
    [|reflexivity].
  cbn [mbind result_bind].
  destruct (truthy price) eqn:Et; [|exact Hrest].
  destruct price as [p|]; [|discriminate]. cbn.
  specialize (Hfast p eq_refl). cbn in Et.
  apply negb_true_iff, Qeq_bool_false in Et.
  apply Qle_lt_or_eq in Hfast as [?|Heq]; [assumption|].
  exfalso. apply Et. now symmetry.
Qed.

Lemma exchange_rate_positive_witness :
  (0 < Provider.get_exchange_rate
         {| Provider.fast_info_last_price := Raise (ProviderError "timeout");
            Provider.history := fun _ => Ok (Examples.bars [(1%Z, 31.8%Q)]);
            Provider.dividends := Ok [] |})%Q.
Proof.
  apply exchange_rate_positive.
  - intros p H. discriminate H.
  - intros hist H. injection H as <-. repeat constructor.
Defined.

(** X28. When the provider fails on the price history or on the
    dividend history of a symbol, the series the fetcher hands over are
    empty and the fill analysis of that symbol answers the all-zero
    statistics. *)
Theorem failed_series_give_no_stats (now : Z) (symbol : string)
    (ticker : Provider.Ticker) :
  (exists e : exn, Provider.history ticker "2y" = Raise e)
  \/ (exists e : exn, Provider.dividends ticker = Raise e) ->
  analyze_fill_dividend now symbol
    (Provider.get_historical_data ticker "2y")
    (Provider.get_dividend_history ticker)
  = Ok no_fill_stats.
Proof.
  unfold Provider.get_historical_data, Provider.get_dividend_history,
    analyze_fill_dividend.
  intros [[e He]|[e He]]; rewrite He; cbn [try_except].
  - reflexivity.
  - destruct (df_empty _); reflexivity.
Qed.

Lemma failed_series_give_no_stats_witness :
  analyze_fill_dividend 1000 "AAPL"
    (Provider.get_historical_data
       {| Provider.fast_info_last_price := Ok None;
          Provider.history := fun _ => Ok Examples.one_bar;
          Provider.dividends := Raise (ProviderError "timeout") |} "2y")
    (Provider.get_dividend_history
       {| Provider.fast_info_last_price := Ok None;
          Provider.history := fun _ => Ok Examples.one_bar;
          Provider.dividends := Raise (ProviderError "timeout") |})
  = Ok no_fill_stats.
Proof.
  apply failed_series_give_no_stats. right. eexists. reflexivity.
Defined.

End RatesAndSeries.
